(** * The AI-generated HTML front ends: a shallow embedding

    Three request handlers live in the repository:

    - [Rewriter]: the worker of [src/index.js], which injects the analytics
      and ad snippets with an [HTMLRewriter] handler on [head];
    - [PromptWorker]: the worker at the top of [server.js], which asks the
      model to place the snippets itself;
    - [Standalone]: the Node server at the bottom of [server.js].

    JavaScript strings are sequences of UTF-16 code units, the values read
    from the model's JSON envelope are a small inductive type with the
    property-access and truthiness rules of the language, and a handler is
    a computation that may throw and that records every outbound call. *)

From Stdlib Require Import String Ascii.
From Stdlib Require Import List NArith ZArith QArith Bool Lia.
Import ListNotations.

Set Implicit Arguments.
Open Scope N_scope.
Open Scope list_scope.

(* ===================================================================== *)
(** ** JavaScript strings *)
(* ===================================================================== *)

Module JsString.

(** A string value: its UTF-16 code units. *)
Definition code_unit := N.
Definition t := list code_unit.

Definition eqb (a b : t) : bool :=
  if list_eq_dec N.eq_dec a b then true else false.

(** The units of a literal of the source text.  The source files are
    UTF-8; a literal holds characters of the basic plane only, so each
    one-, two- or three-byte sequence is one code unit. *)
Fixpoint of_bytes (bs : list N) : t :=
  match bs with
  | [] => []
  | b1 :: r1 =>
      if b1 <? 128 then b1 :: of_bytes r1
      else match r1 with
           | [] => [b1]
           | b2 :: r2 =>
               if b1 <? 224
               then (N.land b1 31 * 64 + N.land b2 63) :: of_bytes r2
               else match r2 with
                    | [] => [b1; b2]
                    | b3 :: r3 =>
                        (N.land b1 15 * 4096 + N.land b2 63 * 64 + N.land b3 63)
                          :: of_bytes r3
                    end
           end
  end.

Definition lit (s : string) : t :=
  of_bytes (map N_of_ascii (list_ascii_of_string s)).

(** Characters that a literal of this file cannot hold directly. *)
Definition LF : t := [10].
Definition DQUOTE : t := [34].

(** [WhiteSpace] and [LineTerminator] of ECMAScript: what [\s] matches
    and what [trim] removes. *)
Definition is_space (c : code_unit) : bool :=
  (c =? 9) || (c =? 10) || (c =? 11) || (c =? 12) || (c =? 13) || (c =? 32)
  || (c =? 160) || (c =? 5760) || ((8192 <=? c) && (c <=? 8202))
  || (c =? 8232) || (c =? 8233) || (c =? 8239) || (c =? 8287)
  || (c =? 12288) || (c =? 65279).

Fixpoint drop_spaces (s : t) : t :=
  match s with
  | c :: r => if is_space c then drop_spaces r else s
  | [] => []
  end.

(** [s.trimStart()], [s.trimEnd()] and [s.trim()]. *)
Definition trimStart (s : t) : t := drop_spaces s.
Definition trimEnd (s : t) : t := rev (drop_spaces (rev s)).
Definition trim (s : t) : t := trimEnd (trimStart s).

(** [s.startsWith(p)]: the rest of [s] after [p], when [p] begins it. *)
Fixpoint after_prefix (p s : t) : option t :=
  match p, s with
  | [], _ => Some s
  | a :: p', b :: s' => if a =? b then after_prefix p' s' else None
  | _ :: _, [] => None
  end.

Definition startsWith (p s : t) : bool :=
  match after_prefix p s with Some _ => true | None => false end.

(** [s.endsWith(p)], and [s] without its last [length p] units. *)
Definition endsWith (p s : t) : bool := startsWith (rev p) (rev s).

Definition before_suffix (p s : t) : option t :=
  match after_prefix (rev p) (rev s) with
  | Some r => Some (rev r)
  | None => None
  end.

(** [s.includes(p)]. *)
Fixpoint includes (p s : t) : bool :=
  startsWith p s || match s with [] => false | _ :: r => includes p r end.

(** [s.split(sep)] for a separator of one code unit. *)
Fixpoint split (sep : code_unit) (s : t) : list t :=
  match s with
  | [] => [[]]
  | c :: r =>
      if c =? sep then [] :: split sep r
      else match split sep r with
           | piece :: rest => (c :: piece) :: rest
           | [] => [[c]]
           end
  end.

(** The decimal digits of a non-negative integer, as a template literal
    renders a number such as an HTTP status. *)
Fixpoint of_uint (d : Decimal.uint) : t :=
  match d with
  | Decimal.Nil => []
  | Decimal.D0 r => 48 :: of_uint r
  | Decimal.D1 r => 49 :: of_uint r
  | Decimal.D2 r => 50 :: of_uint r
  | Decimal.D3 r => 51 :: of_uint r
  | Decimal.D4 r => 52 :: of_uint r
  | Decimal.D5 r => 53 :: of_uint r
  | Decimal.D6 r => 54 :: of_uint r
  | Decimal.D7 r => 55 :: of_uint r
  | Decimal.D8 r => 56 :: of_uint r
  | Decimal.D9 r => 57 :: of_uint r
  end.

Definition of_number (n : N) : t := of_uint (N.to_uint n).

(** How many times [p] occurs in [s], counting overlapping places. *)
Fixpoint occurrences (p s : t) : nat :=
  ((if startsWith p s then 1 else 0)
   + match s with [] => 0 | _ :: r => occurrences p r end)%nat.

End JsString.

Definition jsstring : Type := JsString.t.
Notation "'js' s" := (JsString.lit s%string) (at level 9, s at level 0, only parsing).

(* ===================================================================== *)
(** ** Regular expressions *)
(* ===================================================================== *)

Module Regex.

(** The fragment that the sanitizers use: literal characters, [\s],
    sequence, alternation, the greedy star and the assertions [^] and [$]
    (without the [m] flag: start and end of the input). *)
Inductive t : Type :=
| Eps
| Chr (c : JsString.code_unit)
| Space
| Seq (a b : t)
| Alt (a b : t)
| Star (a : t)
| Bol
| Eol.

(** A run of literal characters. *)
Fixpoint str (p : jsstring) : t :=
  match p with
  | [] => Eps
  | c :: p' => Seq (Chr c) (str p')
  end.

(** What is still to be matched after a sub-pattern: it takes the index
    reached and the rest of the input, and gives the end of the whole match
    or fails, which makes the sub-pattern try its next choice. *)
Definition cont := nat -> jsstring -> option nat.

(** The iterations of a greedy star: one more iteration is tried first,
    and an iteration that consumes nothing is not taken. *)
Fixpoint star_loop (step : nat -> jsstring -> cont -> option nat)
         (fuel : nat) (i : nat) (rest : jsstring) (k : cont) : option nat :=
  match fuel with
  | O => k i rest
  | S fuel' =>
      match step i rest
              (fun i' rest' =>
                 if (i <? i')%nat then star_loop step fuel' i' rest' k else None) with
      | Some e => Some e
      | None => k i rest
      end
  end.

(** The backtracking matcher at index [i], where [rest] is the input from
    [i] on: alternatives are tried from left to right. *)
Fixpoint matches (r : t) (i : nat) (rest : jsstring) (k : cont) {struct r} : option nat :=
  match r with
  | Eps => k i rest
  | Chr c =>
      match rest with
      | x :: rest' => if x =? c then k (S i) rest' else None
      | [] => None
      end
  | Space =>
      match rest with
      | x :: rest' => if JsString.is_space x then k (S i) rest' else None
      | [] => None
      end
  | Seq a b => matches a i rest (fun i' rest' => matches b i' rest' k)
  | Alt a b =>
      match matches a i rest k with
      | Some e => Some e
      | None => matches b i rest k
      end
  | Star a => star_loop (matches a) (S (List.length rest)) i rest k
  | Bol => if (i =? 0)%nat then k i rest else None
  | Eol => match rest with [] => k i rest | _ :: _ => None end
  end.

(** The end of the match that starts at index [i], if there is one. *)
Definition match_at (r : t) (i : nat) (rest : jsstring) : option nat :=
  matches r i rest (fun e _ => Some e).

(** The first match at or after index [i]: its start and its end. *)
Fixpoint search (r : t) (i : nat) (rest : jsstring) {struct rest} : option (nat * nat) :=
  match match_at r i rest with
  | Some e => Some (i, e)
  | None =>
      match rest with
      | [] => None
      | _ :: rest' => search r (S i) rest'
      end
  end.

(** [s.replace(r, '')] for [r] without the [g] flag: the first match is
    removed. *)
Definition replace (r : t) (s : jsstring) : jsstring :=
  match search r 0 s with
  | Some (b, e) => firstn b s ++ skipn e s
  | None => s
  end.

(** [s.replace(r, '')] for [r] with the [g] flag, from index [i] on, with
    [inside] units of the last match still to be dropped: every match is
    removed, the next one is looked for where the last one ended, and after
    an empty match the scan moves one unit on. *)
Fixpoint scan (r : t) (i : nat) (inside : nat) (rest : jsstring) {struct rest} : jsstring :=
  match rest with
  | [] => []
  | c :: rest' =>
      match inside with
      | S inside' => scan r (S i) inside' rest'
      | O =>
          match match_at r i rest with
          | Some e =>
              if (e =? i)%nat then c :: scan r (S i) 0 rest'
              else scan r (S i) (e - i - 1) rest'
          | None => c :: scan r (S i) 0 rest'
          end
      end
  end.

Definition replace_all (r : t) (s : jsstring) : jsstring := scan r 0 0 s.

End Regex.

(* ===================================================================== *)
(** ** The content sanitizers *)
(* ===================================================================== *)

Module Sanitizer.
Import JsString Regex.

(** The opening fence with its language tag, and the closing fence. *)
Definition FENCE_HTML : jsstring := js "```html".
Definition FENCE : jsstring := js "```".

(** [/^```html\n/]. *)
Definition LEADING_FENCE_LINE : Regex.t := Seq Bol (str (FENCE_HTML ++ LF)).

(** [/\n```$/]. *)
Definition TRAILING_FENCE_LINE : Regex.t := Seq (str (LF ++ FENCE)) Eol.

(** [/^```html\s*|```$/g]. *)
Definition FENCES : Regex.t :=
  Alt (Seq Bol (Seq (str FENCE_HTML) (Star Space))) (Seq (str FENCE) Eol).

(** [src/index.js]:
    [htmlContent.replace(/^```html\n/, '').replace(/\n```$/, '')]. *)
Definition sanitize_rewriter (s : jsstring) : jsstring :=
  replace TRAILING_FENCE_LINE (replace LEADING_FENCE_LINE s).

(** [server.js], both handlers:
    [htmlContent.replace(/^```html\s*|```$/g, '').trim()]. *)
Definition sanitize_prompt (s : jsstring) : jsstring :=
  trim (replace_all FENCES s).

End Sanitizer.

(* ===================================================================== *)
(** ** Values, exceptions and outbound calls *)
(* ===================================================================== *)

Module Js.
Import JsString.

(** What [response.json()] can produce, and [undefined].  A number is
    the rational that its double stands for; an object is the list of its
    own properties, each name once. *)
#[warnings="-register-all"]
Inductive value : Type :=
| VUndefined
| VNull
| VBool (b : bool)
| VNum (q : Q)
| VStr (s : jsstring)
| VArr (items : list value)
| VObj (fields : list (jsstring * value)).

Inductive error_name := Error | TypeError | SyntaxError.

(** A thrown error object: [error.name] and [error.message]. *)
Record error := { name : error_name; message : jsstring }.

Inductive outcome (A : Type) : Type :=
| Return (a : A)
| Throw (e : error).
Arguments Return {A} a.
Arguments Throw {A} e.

(** [ToBoolean]. *)
Definition truthy (v : value) : bool :=
  match v with
  | VUndefined | VNull => false
  | VBool b => b
  | VNum q => negb (Qnum q =? 0)%Z
  | VStr s => match s with [] => false | _ :: _ => true end
  | VArr _ | VObj _ => true
  end.

(** A property name: an identifier after a dot, or an index in brackets. *)
Inductive key := Named (id : jsstring) | Index (i : nat).

Definition key_text (k : key) : jsstring :=
  match k with
  | Named id => id
  | Index i => of_number (N.of_nat i)
  end.

Fixpoint lookup (k : jsstring) (fields : list (jsstring * value)) : value :=
  match fields with
  | [] => VUndefined
  | (k', v) :: rest => if eqb k k' then v else lookup k rest
  end.

Definition length_of {A} (l : list A) : value :=
  VNum (inject_Z (Z.of_nat (List.length l))).

(** The engine's wording for a read on [undefined] or [null]. *)
Definition cannot_read (what : jsstring) (k : key) : error :=
  {| name := TypeError;
     message := js "Cannot read properties of " ++ what ++ js " (reading '"
                ++ key_text k ++ js "')" |}.

(** [v.id] and [v[i]].  The handlers read the names [candidates],
    [content], [parts], [text] and [length] and the index 0; no
    prototype defines any of them but [length] of arrays and strings. *)
Definition get (k : key) (v : value) : outcome value :=
  match v with
  | VUndefined => Throw (cannot_read (js "undefined") k)
  | VNull => Throw (cannot_read (js "null") k)
  | VBool _ | VNum _ => Return VUndefined
  | VStr s =>
      match k with
      | Named id => Return (if eqb id (js "length") then length_of s else VUndefined)
      | Index i => Return (match nth_error s i with
                           | Some c => VStr [c]
                           | None => VUndefined
                           end)
      end
  | VArr items =>
      match k with
      | Named id => Return (if eqb id (js "length") then length_of items else VUndefined)
      | Index i => Return (match nth_error items i with
                           | Some x => x
                           | None => VUndefined
                           end)
      end
  | VObj fields => Return (lookup (key_text k) fields)
  end.

(** [v?.id] and [v?.[i]]. *)
Definition get_opt (k : key) (v : value) : outcome value :=
  match v with
  | VUndefined | VNull => Return VUndefined
  | _ => get k v
  end.

Definition bind_outcome {A B} (m : outcome A) (f : A -> outcome B) : outcome B :=
  match m with
  | Return a => f a
  | Throw e => Throw e
  end.

(** [root.k1.k2...]: the reads from left to right. *)
Fixpoint path (root : value) (ks : list key) : outcome value :=
  match ks with
  | [] => Return root
  | k :: rest => bind_outcome (get k root) (fun v => path v rest)
  end.

(** [a && b]: [b] is evaluated only when [a] is truthy. *)
Definition and_then (a b : outcome value) : outcome value :=
  bind_outcome a (fun v => if truthy v then b else Return v).

(** [a || d] on a binding that is a string or [undefined]. *)
Definition or_default (a : option jsstring) (d : jsstring) : jsstring :=
  match a with
  | Some (c :: r) => c :: r
  | _ => d
  end.

(** [!a] on such a binding. *)
Definition missing (a : option jsstring) : bool :=
  match a with
  | Some (_ :: _) => false
  | _ => true
  end.

(** A binding inside a template literal. *)
Definition interpolate (a : option jsstring) : jsstring :=
  match a with
  | Some s => s
  | None => js "undefined"
  end.

(** *** The outbound call *)

(** The arguments of a [fetch] call; [out_payload] is the object handed
    to [JSON.stringify] for the body. *)
Record outbound := {
  out_url : jsstring;
  out_method : jsstring;
  out_content_type : jsstring;
  out_payload : value
}.

(** A reply of the generation endpoint, received in full.  [reply_json]
    is what [response.json()] settles to: the parsed envelope, or the
    [SyntaxError] of a body that is not JSON. *)
Record reply := {
  reply_status : N;
  reply_text : jsstring;
  reply_json : outcome value
}.

(** [response.ok]. *)
Definition ok (r : reply) : bool :=
  (200 <=? reply_status r) && (reply_status r <=? 299).

(** The promise of [fetch] rejects (no connection) or resolves. *)
Inductive settled := Rejects (e : error) | Resolves (r : reply).

Definition network := outbound -> settled.

(** A handler body: it reads the network, appends to the log of calls
    made so far, and returns or throws. *)
Definition M (A : Type) : Type :=
  network -> list outbound -> outcome A * list outbound.

Definition ret {A} (a : A) : M A := fun _ log => (Return a, log).

Definition throw {A} (e : error) : M A := fun _ log => (Throw e, log).

Definition bind {A B} (m : M A) (f : A -> M B) : M B :=
  fun net log =>
    match m net log with
    | (Return a, log') => f a net log'
    | (Throw e, log') => (Throw e, log')
    end.

(** [try { m } catch (error) { handler }]. *)
Definition try_catch {A} (m : M A) (handler : error -> M A) : M A :=
  fun net log =>
    match m net log with
    | (Return a, log') => (Return a, log')
    | (Throw e, log') => handler e net log'
    end.

(** [await fetch(url, init)]. *)
Definition fetch (call : outbound) : M reply :=
  fun net log =>
    (match net call with
     | Rejects e => Throw e
     | Resolves r => Return r
     end, log ++ [call]).

(** A pure step that may throw. *)
Definition lift {A} (o : outcome A) : M A := fun _ log => (o, log).

(** [throw new Error(message)]. *)
Definition new_Error (msg : jsstring) : error := {| name := Error; message := msg |}.

(** [text.replace(...)] and [text.trim()] exist on strings only; on any
    other value read from JSON the call is a [TypeError]. *)
Definition not_a_function (callee : jsstring) : error :=
  {| name := TypeError; message := callee ++ js " is not a function" |}.

(** The request body that every handler sends:
    [{ contents: [{ role: "user", parts: [{ text: prompt }] }] }]. *)
Definition payload (prompt : jsstring) : value :=
  VObj [(js "contents",
         VArr [VObj [(js "role", VStr (js "user"));
                     (js "parts", VArr [VObj [(js "text", VStr prompt)]])]])].

Definition GEMINI_ENDPOINT : jsstring :=
  js "https://generativelanguage.googleapis.com/v1beta/models/gemini-2.0-flash:generateContent?key=".

Definition generation_call (apiKey prompt : jsstring) : outbound :=
  {| out_url := GEMINI_ENDPOINT ++ apiKey;
     out_method := js "POST";
     out_content_type := js "application/json";
     out_payload := payload prompt |}.

(** *** The response of a handler *)

(** [content_type] is the header given to the constructor or to
    [writeHead], when one is given; a [null] or absent body is empty. *)
Record response := {
  status : N;
  content_type : option jsstring;
  body : jsstring
}.

(** What the two workers read of a request: [request.method],
    [new URL(request.url).pathname] and the [User-Agent] header, [None]
    when the request has none. *)
Record request := {
  method : jsstring;
  pathname : jsstring;
  user_agent : option jsstring
}.

(** The receiver of [callee.name(...)] for a method of strings. *)
Definition string_method (callee name : jsstring) (v : value) : outcome jsstring :=
  match v with
  | VStr s => Return s
  | VUndefined => Throw (cannot_read (js "undefined") (Named name))
  | VNull => Throw (cannot_read (js "null") (Named name))
  | _ => Throw (not_a_function (callee ++ js "." ++ name))
  end.

Definition FAVICON : jsstring := js "/favicon.ico".
Definition TEXT_HTML : jsstring := js "text/html; charset=utf-8".
Definition TEXT_PLAIN : jsstring := js "text/plain; charset=utf-8".

(** Running a handler from an empty log. *)
Definition run {A} (m : M A) (net : network) : outcome A * list outbound :=
  m net [].

End Js.

Declare Scope js_scope.
Delimit Scope js_scope with js_m.
Notation "x <- m ;; k" := (Js.bind m (fun x => k))
  (at level 61, m at next level, right associativity) : js_scope.

(* ===================================================================== *)
(** ** [src/index.js]: the worker with the [HTMLRewriter] injector *)
(* ===================================================================== *)

Module Rewriter.
Import JsString Js.
Local Open Scope js_scope.

(** The secrets of the worker, each a string or [undefined]. *)
Record Env := {
  GEMINI_API_KEY : option jsstring;
  GA_MEASUREMENT_ID : option jsstring;
  ADSENSE_CLIENT_ID : option jsstring
}.

(** *** The rewriter, as the handler sees it *)

(** The element handed to a handler: its source text and the content
    appended so far.  [end_tag] is the text of the end tag, and is empty
    when the element is never closed in the text. *)
Record Element := {
  start_tag : jsstring;
  inner : jsstring;
  end_tag : jsstring;
  appended : list jsstring
}.

(** [element.append(content, { html: true })]. *)
Definition append (content : jsstring) (el : Element) : Element :=
  {| start_tag := start_tag el; inner := inner el; end_tag := end_tag el;
     appended := appended el ++ [content] |}.

(** A document as the rewriter streams it: text it passes through, and
    the elements that the selector [head] matches, each with its start
    tag, its content and its end tag (empty when the element has none). *)
Inductive token :=
| Raw (text : jsstring)
| Head (start_tag inner end_tag : jsstring).

Definition document := list token.

Definition serialize_token (tok : token) : jsstring :=
  match tok with
  | Raw text => text
  | Head st inn en => st ++ inn ++ en
  end.

Definition serialize (doc : document) : jsstring :=
  List.concat (map serialize_token doc).

(** Appended content is written out when the rewriter reaches the end
    tag of the element, immediately before it; an element without an end
    tag is passed through as it is and what was appended to it is never
    written. *)
Definition emit (el : Element) : jsstring :=
  match end_tag el with
  | [] => start_tag el ++ inner el
  | _ :: _ => start_tag el ++ inner el ++ List.concat (appended el) ++ end_tag el
  end.

(** [new HTMLRewriter().on('head', handler).transform(...)]: the handler
    runs once on each matched element. *)
Definition rewrite_token (handler : Element -> Element) (tok : token) : jsstring :=
  match tok with
  | Raw text => text
  | Head st inn en =>
      emit (handler {| start_tag := st; inner := inn; end_tag := en; appended := [] |})
  end.

Definition transform (handler : Element -> Element) (doc : document) : jsstring :=
  List.concat (map (rewrite_token handler) doc).

(** *** [HeadInjector] *)

Definition ANALYTICS_SRC : jsstring := js "https://www.googletagmanager.com/gtag/js?id=".
Definition ADSENSE_SRC : jsstring :=
  js "https://pagead2.googlesyndication.com/pagead/js/adsbygoogle.js?client=".

Definition analytics_snippet (id : jsstring) : jsstring :=
  LF ++ js "        <!-- Google Analytics (injected by Cloudflare Worker) -->" ++ LF ++
  js "        <script async src=" ++ DQUOTE ++ ANALYTICS_SRC ++ id ++ DQUOTE ++
  js "></script>" ++ LF ++
  js "        <script>" ++ LF ++
  js "          window.dataLayer = window.dataLayer || [];" ++ LF ++
  js "          function gtag(){dataLayer.push(arguments);}" ++ LF ++
  js "          gtag('js', new Date());" ++ LF ++
  js "          gtag('config', '" ++ id ++ js "');" ++ LF ++
  js "        </script>" ++ LF ++
  js "      ".

Definition adsense_snippet (id : jsstring) : jsstring :=
  LF ++ js "        <!-- Google AdSense (injected by Cloudflare Worker) -->" ++ LF ++
  js "        <script async src=" ++ DQUOTE ++ ADSENSE_SRC ++ id ++ DQUOTE ++
  js " crossorigin=" ++ DQUOTE ++ js "anonymous" ++ DQUOTE ++ js "></script>" ++ LF ++
  js "      ".

(** [HeadInjector.element(element)], with [this.env] as [env]. *)
Definition element (env : Env) (el : Element) : Element :=
  let el :=
    if missing (GA_MEASUREMENT_ID env) then el
    else append (analytics_snippet (interpolate (GA_MEASUREMENT_ID env))) el in
  if missing (ADSENSE_CLIENT_ID env) then el
  else append (adsense_snippet (interpolate (ADSENSE_CLIENT_ID env))) el.

(** The structural injector on a document. *)
Definition inject (env : Env) (doc : document) : jsstring :=
  transform (element env) doc.

(** *** The handler *)

Definition NOT_CONFIGURED : jsstring :=
  js "AI service is not configured. Administrator needs to set the GEMINI_API_KEY secret.".
Definition UPSTREAM_FAILED : jsstring :=
  js "Failed to get a response from the AI model. Status: ".
Definition UNEXPECTED_FORMAT : jsstring :=
  js "Received an unexpected response format from the AI model.".
Definition INTERNAL_ERROR : jsstring :=
  js "An internal error occurred while processing the request.".

Definition build_prompt (method path userAgent : jsstring) : jsstring :=
  js "你是一个 HTTP server，用户当前在使用 " ++ method ++ js " 方法，请求路径是 " ++ path ++
  js "，用户 User-Agent 是 " ++ userAgent ++
  js "，请你对此请求和路径写出对应的 HTML 文档。" ++
  js "HTML 文档的 head 标签中必须包含一个 charset=utf-8 标签，" ++
  js "样式只能写成行内样式，写在标签的 style 属性上！除了 HTML 内容外不要返回其他内容！" ++
  js "并且 HTML 内最少要有一个超链接，路径必须是本站的绝对路径（例如 /about 或 /products）。".

Definition CANDIDATES : list key := [Named (js "candidates")].
Definition CONTENT : list key := CANDIDATES ++ [Index 0; Named (js "content")].
Definition PARTS : list key := CONTENT ++ [Named (js "parts")].
Definition TEXT : list key := PARTS ++ [Index 0; Named (js "text")].

(** The test of step 5:
    [result.candidates && result.candidates[0].content
     && result.candidates[0].content.parts
     && result.candidates[0].content.parts[0].text]. *)
Definition has_text (result : value) : outcome value :=
  and_then (path result CANDIDATES)
    (and_then (path result CONTENT)
       (and_then (path result PARTS) (path result TEXT))).

Section Handler.

(** The tokenizer of the platform's rewriter. *)
Variable tokenize : jsstring -> document.

(** Steps 4 to 6, the body of the [try] block. *)
Definition generate (env : Env) (prompt : jsstring) : M response :=
  aiResponse <- Js.fetch (generation_call (interpolate (GEMINI_API_KEY env)) prompt) ;;
  if negb (ok aiResponse) then
    ret {| status := 502; content_type := None;
           body := UPSTREAM_FAILED ++ of_number (reply_status aiResponse) |}
  else
    result <- lift (reply_json aiResponse) ;;
    test <- lift (has_text result) ;;
    if truthy test then
      text <- lift (path result TEXT) ;;
      htmlContent <- lift (string_method (js "htmlContent") (js "replace") text) ;;
      let htmlContent := Sanitizer.sanitize_rewriter htmlContent in
      ret {| status := 200; content_type := Some TEXT_HTML;
             body := inject env (tokenize htmlContent) |}
    else
      ret {| status := 500; content_type := None; body := UNEXPECTED_FORMAT |}.

(** The [catch] block.  The constructor takes the body from its first
    argument; the [body] member of the second one, the page that embeds
    [error.message], is not an option it reads. *)
Definition on_error (e : error) : M response :=
  ret {| status := 500; content_type := Some TEXT_HTML; body := INTERNAL_ERROR |}.

(** [fetch(request, env, ctx)]. *)
Definition fetch (request : request) (env : Env) : M response :=
  if missing (GEMINI_API_KEY env) then
    ret {| status := 500; content_type := Some TEXT_PLAIN; body := NOT_CONFIGURED |}
  else if eqb (pathname request) FAVICON then
    ret {| status := 204; content_type := None; body := [] |}
  else
    let method := method request in
    let path := pathname request in
    let userAgent := or_default (user_agent request) (js "unknown") in
    let prompt := build_prompt method path userAgent in
    try_catch (generate env prompt) on_error.

End Handler.

End Rewriter.

(* ===================================================================== *)
(** ** [server.js], first script: the worker with the snippets in the prompt *)
(* ===================================================================== *)

Module PromptWorker.
Import JsString Js.
Local Open Scope js_scope.

Record Env := {
  GEMINI_API_KEY : option jsstring;
  GOOGLE_ADSENSE_ID : option jsstring;
  GOOGLE_ANALYTICS_ID : option jsstring
}.

Definition ADSENSE_PLACEHOLDER : jsstring := js "ca-pub-XXXXXXXXXXXXXXXX".
Definition ANALYTICS_PLACEHOLDER : jsstring := js "G-XXXXXXXXXX".

Definition adSenseCode (googleAdSensePublisherID : jsstring) : jsstring :=
  js "<script async src=" ++ DQUOTE ++
  js "https://pagead2.googlesyndication.com/pagead/js/adsbygoogle.js?client=" ++
  googleAdSensePublisherID ++ DQUOTE ++ js " crossorigin=" ++ DQUOTE ++ js "anonymous" ++
  DQUOTE ++ js "></script>".

Definition analyticsCode (googleAnalyticsMeasurementID : jsstring) : jsstring :=
  js "<script async src=" ++ DQUOTE ++ js "https://www.googletagmanager.com/gtag/js?id=" ++
  googleAnalyticsMeasurementID ++ DQUOTE ++
  js "></script><script>window.dataLayer = window.dataLayer || [];" ++
  js "function gtag(){dataLayer.push(arguments);}gtag('js', new Date());gtag('config', '" ++
  googleAnalyticsMeasurementID ++ js "');</script>".

(** The prompt, with the two snippets written into it. *)
Definition build_prompt (method path userAgent : jsstring) (env : Env) : jsstring :=
  let googleAdSensePublisherID := or_default (GOOGLE_ADSENSE_ID env) ADSENSE_PLACEHOLDER in
  let googleAnalyticsMeasurementID :=
    or_default (GOOGLE_ANALYTICS_ID env) ANALYTICS_PLACEHOLDER in
  js "你是一个 HTTP server ，" ++
  js "用户当前在使用 " ++ method ++ js " 方法，" ++
  js "请求路径是 " ++ path ++ js " ，用户userAgent是" ++ userAgent ++ js "，" ++
  js "请你对此请求和路径写出对应的 html 文档，" ++
  js "HTML 文档的 head 标签中必须包含一个 charset=utf-8 标签，" ++
  js "并且，请务必在 head 标签中加入 Google AdSense 广告代码: " ++
  adSenseCode googleAdSensePublisherID ++ js " ，" ++
  js "以及这段 Google Analytics 跟踪代码: " ++
  analyticsCode googleAnalyticsMeasurementID ++ js " ，" ++
  js "样式只能写成行内样式，写在标签的 style 属性上！" ++
  js "除了 html 内容外不要返回其他内容！" ++
  js "并且 html 内最少要有一个超链接，" ++
  js "路径必须是本站的绝对路径。".

Definition NOT_CONFIGURED : jsstring :=
  js "GEMINI_API_KEY is not configured. Please set it in your Worker's settings.".
Definition REQUEST_FAILED : jsstring := js "Gemini API request failed with status ".
Definition NO_VALID_CONTENT : jsstring :=
  js "Failed to get valid content from the AI. Check Worker logs for details.".

(** [result.candidates[0]?.content?.parts?.[0]?.text]. *)
Definition first_text (result : value) : outcome value :=
  bind_outcome (get (Named (js "candidates")) result) (fun candidates =>
  bind_outcome (get (Index 0) candidates) (fun candidate =>
  bind_outcome (get_opt (Named (js "content")) candidate) (fun content =>
  bind_outcome (get_opt (Named (js "parts")) content) (fun parts =>
  bind_outcome (get_opt (Index 0) parts) (fun part =>
  get_opt (Named (js "text")) part))))).

(** [generateHtmlWithAI(method, path, userAgent, env)]. *)
Definition generateHtmlWithAI (method path userAgent : jsstring) (env : Env) : M jsstring :=
  let apiKey := GEMINI_API_KEY env in
  if missing apiKey then throw (new_Error NOT_CONFIGURED)
  else
    let prompt := build_prompt method path userAgent env in
    response <- Js.fetch (generation_call (interpolate apiKey) prompt) ;;
    if negb (ok response) then
      let errorBody := reply_text response in
      throw (new_Error (REQUEST_FAILED ++ of_number (reply_status response)
                        ++ js ": " ++ errorBody))
    else
      result <- lift (reply_json response) ;;
      test <- lift (and_then (Js.path result Rewriter.CANDIDATES) (first_text result)) ;;
      if truthy test then
        text <- lift (Js.path result Rewriter.TEXT) ;;
        htmlContent <- lift (string_method (js "htmlContent") (js "replace") text) ;;
        ret (Sanitizer.sanitize_prompt htmlContent)
      else
        throw (new_Error NO_VALID_CONTENT).

(** The page of the [catch] block. *)
Definition errorMessage (e : error) : jsstring :=
  js "<html><head><meta charset=" ++ DQUOTE ++ js "utf-8" ++ DQUOTE ++
  js "></head><body style=" ++ DQUOTE ++
  js "font-family: sans-serif; background-color: #fdd; color: #a00;" ++ DQUOTE ++
  js "><div style=" ++ DQUOTE ++ js "text-align: center; padding: 50px;" ++ DQUOTE ++
  js "><h1>500 - Worker Error</h1><p>" ++ message e ++ js "</p></div></body></html>".

(** [fetch(request, env, ctx)]. *)
Definition fetch (request : request) (env : Env) : M response :=
  if eqb (pathname request) FAVICON then
    ret {| status := 204; content_type := None; body := [] |}
  else
    let method := method request in
    let path := pathname request in
    let userAgent := or_default (user_agent request) (js "Unknown") in
    try_catch
      (htmlContent <- generateHtmlWithAI method path userAgent env ;;
       ret {| status := 200; content_type := Some TEXT_HTML; body := htmlContent |})
      (fun e =>
         ret {| status := 500; content_type := Some TEXT_HTML; body := errorMessage e |}).

End PromptWorker.

(* ===================================================================== *)
(** ** [server.js], second script: the standalone server *)
(* ===================================================================== *)

Module Standalone.
Import JsString Js.
Local Open Scope js_scope.

(** What the server reads of [req]: [req.method], [req.url] (the request
    target, query string included) and [req.headers['user-agent']]. *)
Record IncomingMessage := {
  method : jsstring;
  url : jsstring;
  user_agent : option jsstring
}.

Definition EQUALS : code_unit := 61.

Definition is_key_assignment (arg : jsstring) : bool :=
  startsWith (js "--apiKey=") arg || startsWith (js "--key=") arg.

Definition is_key_flag (arg : jsstring) : bool :=
  eqb arg (js "--apiKey") || eqb arg (js "--key").

(** [args.findIndex(test)], [None] for -1. *)
Fixpoint findIndex (test : jsstring -> bool) (args : list jsstring) : option nat :=
  match args with
  | [] => None
  | arg :: rest =>
      if test arg then Some O
      else match findIndex test rest with
           | Some i => Some (S i)
           | None => None
           end
  end.

(** [getApiKey()], reading [process.argv] and
    [process.env.GEMINI_API_KEY]; [None] is [undefined]. *)
Definition getApiKey (argv : list jsstring) (env_key : option jsstring)
  : option jsstring :=
  let args := skipn 2 argv in
  let fallback := Some (or_default env_key []) in
  let spaced :=
    match findIndex is_key_flag args with
    | Some keyArgIndex =>
        match nth_error args (keyArgIndex + 1) with
        | Some (c :: r) => Some (c :: r)
        | _ => fallback
        end
    | None => fallback
    end in
  match find is_key_assignment args with
  | Some (c :: r) => nth_error (split EQUALS (c :: r)) 1
  | _ => spaced
  end.

Definition googleAdSensePublisherID : jsstring := js "ca-pub-XXXXXXXXXXXXXXXX".

Definition adSenseCode : jsstring :=
  js "<script async src=" ++ DQUOTE ++
  js "https://pagead2.googlesyndication.com/pagead/js/adsbygoogle.js?client=" ++
  googleAdSensePublisherID ++ DQUOTE ++ js " crossorigin=" ++ DQUOTE ++ js "anonymous" ++
  DQUOTE ++ js "></script>".

Definition build_prompt (method url userAgent : jsstring) : jsstring :=
  js "你是一个 HTTP server ，" ++
  js "用户当前在使用 " ++ method ++ js " 方法，" ++
  js "请求路径是 " ++ url ++ js " ，用户userAgent是" ++ userAgent ++ js "，" ++
  js "请你对此请求和路径写出对应的 html 文档，" ++
  js "HTML 文档的 head 标签中必须包含一个 charset=utf-8 标签，" ++
  js "并且，请务必在 head 标签中加入这段 Google AdSense 广告代码: " ++ adSenseCode ++ js " ，" ++
  js "样式只能写成行内样式，写在标签的 style 属性上！" ++
  js "除了 html 内容外不要返回其他内容！" ++
  js "并且 html 内最少要有一个超链接，" ++
  js "路径必须是本站的绝对路径。".

Definition REQUEST_FAILED : jsstring := js "API request failed with status ".

(** The page returned when the envelope has no usable candidate. *)
Definition FALLBACK_PAGE : jsstring :=
  js "<html><head><meta charset=" ++ DQUOTE ++ js "utf-8" ++ DQUOTE ++
  js "></head><body style=" ++ DQUOTE ++
  js "font-family: sans-serif; background-color: #f0f0f0; color: #333;" ++ DQUOTE ++
  js "><div style=" ++ DQUOTE ++ js "text-align: center; padding: 50px;" ++ DQUOTE ++
  js "><h1>错误</h1><p>未能从 AI 获取有效内容。</p><p>请检查服务器日志。</p><a href=" ++
  DQUOTE ++ js "/" ++ DQUOTE ++ js ">返回首页</a></div></body></html>".

(** The page of the [catch] block of [generateHtmlWithAI]. *)
Definition error_page (e : error) : jsstring :=
  js "<html><head><meta charset=" ++ DQUOTE ++ js "utf-8" ++ DQUOTE ++
  js "></head><body style=" ++ DQUOTE ++
  js "font-family: sans-serif; background-color: #fdd; color: #a00;" ++ DQUOTE ++
  js "><div style=" ++ DQUOTE ++ js "text-align: center; padding: 50px;" ++ DQUOTE ++
  js "><h1>500 - 服务器内部错误</h1><p>调用AI服务时发生错误。</p><p>" ++ message e ++
  js "</p><a href=" ++ DQUOTE ++ js "/" ++ DQUOTE ++ js ">返回首页</a></div></body></html>".

Definition SERVER_ERROR : jsstring := js "服务器内部发生错误。".

Definition LENGTH : list key := [Named (js "length")].

Section Server.

(** [v > 0] on a string, an array or an object goes through the
    engine's [ToPrimitive] and [ToNumber], which may throw. *)
Variable coerced_positive : value -> outcome bool.

(** [v > 0]. *)
Definition greater_than_zero (v : value) : outcome value :=
  match v with
  | VNum q => Return (VBool (0 <? Qnum q)%Z)
  | VBool b => Return (VBool b)
  | VUndefined | VNull => Return (VBool false)
  | _ => bind_outcome (coerced_positive v) (fun b => Return (VBool b))
  end.

(** [result.candidates && result.candidates.length > 0
     && result.candidates[0].content
     && result.candidates[0].content.parts
     && result.candidates[0].content.parts.length > 0]. *)
Definition has_parts (result : value) : outcome value :=
  and_then (path result Rewriter.CANDIDATES)
    (and_then (bind_outcome (path result (Rewriter.CANDIDATES ++ LENGTH)) greater_than_zero)
       (and_then (path result Rewriter.CONTENT)
          (and_then (path result Rewriter.PARTS)
             (bind_outcome (path result (Rewriter.PARTS ++ LENGTH)) greater_than_zero)))).

(** The [try] block of [generateHtmlWithAI]. *)
Definition request_html (apiKey : option jsstring) (prompt : jsstring) : M jsstring :=
  response <- Js.fetch (generation_call (interpolate apiKey) prompt) ;;
  if negb (ok response) then
    let errorBody := reply_text response in
    throw (new_Error (REQUEST_FAILED ++ of_number (reply_status response)
                      ++ js ": " ++ errorBody))
  else
    result <- lift (reply_json response) ;;
    test <- lift (has_parts result) ;;
    if truthy test then
      text <- lift (path result Rewriter.TEXT) ;;
      htmlContent <- lift (string_method (js "htmlContent") (js "replace") text) ;;
      ret (Sanitizer.sanitize_prompt htmlContent)
    else
      ret FALLBACK_PAGE.

(** [generateHtmlWithAI(method, url, userAgent)], with the module's
    [apiKey]; a missing key only logs a warning. *)
Definition generateHtmlWithAI (apiKey : option jsstring)
           (method url userAgent : jsstring) : M jsstring :=
  let prompt := build_prompt method url userAgent in
  try_catch (request_html apiKey prompt) (fun e => ret (error_page e)).

(** The listener given to [http.createServer]. *)
Definition server (apiKey : option jsstring) (req : IncomingMessage) : M response :=
  if eqb (url req) FAVICON then
    ret {| status := 204; content_type := Some (js "image/x-icon"); body := [] |}
  else
    try_catch
      (let method := method req in
       let url := url req in
       let userAgent := or_default (user_agent req) (js "Unknown") in
       htmlContent <- generateHtmlWithAI apiKey method url userAgent ;;
       ret {| status := 200; content_type := Some TEXT_HTML; body := htmlContent |})
      (fun _ =>
         ret {| status := 500; content_type := Some TEXT_PLAIN; body := SERVER_ERROR |}).

End Server.

End Standalone.

(* ===================================================================== *)
(** ** What a handler did *)
(* ===================================================================== *)

Module Observed.
Import JsString Js.

Definition result := (outcome response * list outbound)%type.

(** The handler answered with status [st] without any outbound call. *)
Definition refused (st : N) (res : result) : Prop :=
  exists r, res = (Return r, []) /\ status r = st.

(** The handler answered with status [st] and an empty body. *)
Definition answered_empty (st : N) (res : result) : Prop :=
  exists r calls, res = (Return r, calls) /\ status r = st /\ body r = [].

(** The handler answered with status [st] and a body that includes
    [text]. *)
Definition answered (st : N) (text : jsstring) (res : result) : Prop :=
  exists r calls,
    res = (Return r, calls) /\ status r = st /\ includes text (body r) = true.

(** The handler made exactly the call [call] and answered with status
    [st]. *)
Definition called (call : outbound) (st : N) (res : result) : Prop :=
  exists r, res = (Return r, [call]) /\ status r = st.

End Observed.

(* ===================================================================== *)
(** ** Notions used in the statements *)
(* ===================================================================== *)

(** The call that each handler makes for a request. *)
Definition rewriter_call (request : Js.request) (env : Rewriter.Env) : Js.outbound :=
  Js.generation_call (Js.interpolate (Rewriter.GEMINI_API_KEY env))
    (Rewriter.build_prompt (Js.method request) (Js.pathname request)
       (Js.or_default (Js.user_agent request) (js "unknown"))).

Definition prompt_worker_call (request : Js.request) (env : PromptWorker.Env) : Js.outbound :=
  Js.generation_call (Js.interpolate (PromptWorker.GEMINI_API_KEY env))
    (PromptWorker.build_prompt (Js.method request) (Js.pathname request)
       (Js.or_default (Js.user_agent request) (js "Unknown")) env).

Definition standalone_call (apiKey : option jsstring) (req : Standalone.IncomingMessage)
  : Js.outbound :=
  Js.generation_call (Js.interpolate apiKey)
    (Standalone.build_prompt (Standalone.method req) (Standalone.url req)
       (Js.or_default (Standalone.user_agent req) (js "Unknown"))).

(** What the regular expressions of the sanitizers come to: [s] without
    the prefix [p], or without the suffix [p], when it has it. *)
Definition without_prefix (p s : jsstring) : jsstring :=
  match JsString.after_prefix p s with
  | Some rest => rest
  | None => s
  end.

Definition without_suffix (p s : jsstring) : jsstring :=
  match JsString.before_suffix p s with
  | Some rest => rest
  | None => s
  end.

(** The opening line and the closing line of a fenced block taken off. *)
Definition unfenced_lines (s : jsstring) : jsstring :=
  without_suffix (JsString.LF ++ Sanitizer.FENCE)
    (without_prefix (Sanitizer.FENCE_HTML ++ JsString.LF) s).

(** The opening tag with the spaces after it, and the closing fence,
    taken off. *)
Definition unfenced (s : jsstring) : jsstring :=
  match JsString.after_prefix Sanitizer.FENCE_HTML s with
  | Some rest => without_suffix Sanitizer.FENCE (JsString.drop_spaces rest)
  | None => without_suffix Sanitizer.FENCE s
  end.

(** The number of spaces that begin [s]. *)
Definition leading_spaces (s : jsstring) : nat :=
  (List.length s - List.length (JsString.drop_spaces s))%nat.

(** The first unit of [s], if any, is not a space. *)
Definition no_leading_space (s : jsstring) : Prop :=
  match s with
  | [] => True
  | c :: _ => JsString.is_space c = false
  end.

(** The element object that the rewriter hands to a handler. *)
Definition matched (st inn en : jsstring) : Rewriter.Element :=
  {| Rewriter.start_tag := st; Rewriter.inner := inn; Rewriter.end_tag := en;
     Rewriter.appended := [] |}.

Definition is_head (tok : Rewriter.token) : bool :=
  match tok with
  | Rewriter.Head _ _ _ => true
  | Rewriter.Raw _ => false
  end.

(** The part of [s] before its first [sep]; all of [s] when it has none. *)
Fixpoint before_first (sep : JsString.code_unit) (s : jsstring) : jsstring :=
  match s with
  | [] => []
  | c :: r => if c =? sep then [] else c :: before_first sep r
  end.

Definition not_assignment (arg : jsstring) : bool :=
  negb (Standalone.is_key_assignment arg).

(** [t] is a run of consecutive units of [s]. *)
Definition part_of (t s : jsstring) : Prop := exists a b, s = a ++ t ++ b.

(** The last unit of [s], if any, is not a space. *)
Definition no_trailing_space (s : jsstring) : Prop := no_leading_space (rev s).

(** The success envelope of the generation endpoint, around the value
    [text]:
    [{ candidates: [{ content: { parts: [{ text }] } }] }]. *)
Definition envelope (text : Js.value) : Js.value :=
  Js.VObj [(js "candidates",
    Js.VArr [Js.VObj [(js "content",
      Js.VObj [(js "parts",
        Js.VArr [Js.VObj [(js "text", text)]])])]])].

(** A [head] element with [extra] after its content, when it has an end
    tag; a [head] element without one, and any other text, as it is. *)
Definition head_with (extra : jsstring) (tok : Rewriter.token) : Rewriter.token :=
  match tok with
  | Rewriter.Raw text => Rewriter.Raw text
  | Rewriter.Head st inn [] => Rewriter.Head st inn []
  | Rewriter.Head st inn (c :: en) => Rewriter.Head st (inn ++ extra) (c :: en)
  end.

(** What [HeadInjector] adds to an element under [env]. *)
Definition snippets (env : Rewriter.Env) : jsstring :=
  (if Js.missing (Rewriter.GA_MEASUREMENT_ID env) then []
   else Rewriter.analytics_snippet (Js.interpolate (Rewriter.GA_MEASUREMENT_ID env)))
  ++ (if Js.missing (Rewriter.ADSENSE_CLIENT_ID env) then []
      else Rewriter.adsense_snippet (Js.interpolate (Rewriter.ADSENSE_CLIENT_ID env))).

Definition not_flag (arg : jsstring) : bool :=
  negb (Standalone.is_key_flag arg).

(** *** References to the two scripts *)

(** The addresses of the analytics script and of the ad script, up to the
    identifier that ends them. *)
Definition ANALYTICS_URL : jsstring := js "https://www.googletagmanager.com/gtag/js?id=".
Definition ADSENSE_URL : jsstring :=
  js "https://pagead2.googlesyndication.com/pagead/js/adsbygoogle.js?client=".

(** The script element that loads the analytics script for [id], and the
    one that loads the ad script for [id]. *)
Definition analytics_reference (id : jsstring) : jsstring :=
  js "<script async src=" ++ JsString.DQUOTE ++ ANALYTICS_URL ++ id
  ++ JsString.DQUOTE ++ js "></script>".

Definition adsense_reference (id : jsstring) : jsstring :=
  js "<script async src=" ++ JsString.DQUOTE ++ ADSENSE_URL ++ id
  ++ JsString.DQUOTE ++ js " crossorigin=" ++ JsString.DQUOTE ++ js "anonymous"
  ++ JsString.DQUOTE ++ js "></script>".

Definition COLON : N := 58.
Definition APOSTROPHE : N := 39.

(** The fixed text of the two snippets around the places of the
    identifier. *)
Definition ANALYTICS_BEFORE_ID : jsstring :=
  JsString.LF ++ js "        <!-- Google Analytics (injected by Cloudflare Worker) -->"
  ++ JsString.LF ++ js "        <script async src=" ++ JsString.DQUOTE
  ++ Rewriter.ANALYTICS_SRC.

Definition ANALYTICS_BETWEEN_IDS : jsstring :=
  JsString.DQUOTE ++ js "></script>" ++ JsString.LF
  ++ js "        <script>" ++ JsString.LF
  ++ js "          window.dataLayer = window.dataLayer || [];" ++ JsString.LF
  ++ js "          function gtag(){dataLayer.push(arguments);}" ++ JsString.LF
  ++ js "          gtag('js', new Date());" ++ JsString.LF
  ++ js "          gtag('config', '".

Definition ANALYTICS_AFTER_ID : jsstring :=
  js "');" ++ JsString.LF ++ js "        </script>" ++ JsString.LF ++ js "      ".

Definition ADSENSE_BEFORE_ID : jsstring :=
  JsString.LF ++ js "        <!-- Google AdSense (injected by Cloudflare Worker) -->"
  ++ JsString.LF ++ js "        <script async src=" ++ JsString.DQUOTE
  ++ Rewriter.ADSENSE_SRC.

Definition ADSENSE_AFTER_ID : jsstring :=
  JsString.DQUOTE ++ js " crossorigin=" ++ JsString.DQUOTE ++ js "anonymous"
  ++ JsString.DQUOTE ++ js "></script>" ++ JsString.LF ++ js "      ".

(** Counting the places of a pattern in a text of which only the
    beginning [x] is known.  [decided p x] tells whether [p] begins every
    text that begins with [x], when [x] settles it; [count_within p x] is
    the number of places of [p] that start inside [x], when [x] settles
    each of them. *)
Fixpoint decided (p x : jsstring) : option bool :=
  match p, x with
  | [], _ => Some true
  | _ :: _, [] => None
  | a :: p', b :: x' => if a =? b then decided p' x' else Some false
  end.

Fixpoint count_within (p x : jsstring) : option nat :=
  match x with
  | [] => Some 0%nat
  | _ :: x' =>
      match decided p x, count_within p x' with
      | Some b, Some k => Some ((if b then 1 else 0) + k)%nat
      | _, _ => None
      end
  end.

(* ===================================================================== *)
(** ** Sample inputs *)
(* ===================================================================== *)

(** The input of the specification's example: the fenced block
    [```html], line feed, [FOO], line feed, [```]. *)
Definition FENCED_FOO : jsstring :=
  js "```html" ++ JsString.LF ++ js "FOO" ++ JsString.LF ++ js "```".

(** A block fenced twice at its start. *)
Definition TWICE_FENCED_FOO : jsstring :=
  js "```html" ++ JsString.LF ++ js "```html" ++ JsString.LF ++ js "FOO".

Definition GET_ROOT : Js.request :=
  {| Js.method := js "GET"; Js.pathname := js "/"; Js.user_agent := None |}.

Definition GET_FAVICON : Js.request :=
  {| Js.method := js "GET"; Js.pathname := Js.FAVICON; Js.user_agent := None |}.

Definition NODE_GET_ROOT : Standalone.IncomingMessage :=
  {| Standalone.method := js "GET"; Standalone.url := js "/";
     Standalone.user_agent := None |}.

Definition NODE_GET_FAVICON : Standalone.IncomingMessage :=
  {| Standalone.method := js "GET"; Standalone.url := Js.FAVICON;
     Standalone.user_agent := None |}.

Definition rewriter_env (key : option jsstring) : Rewriter.Env :=
  {| Rewriter.GEMINI_API_KEY := key;
     Rewriter.GA_MEASUREMENT_ID := None;
     Rewriter.ADSENSE_CLIENT_ID := None |}.

Definition prompt_worker_env (key : option jsstring) : PromptWorker.Env :=
  {| PromptWorker.GEMINI_API_KEY := key;
     PromptWorker.GOOGLE_ADSENSE_ID := None;
     PromptWorker.GOOGLE_ANALYTICS_ID := None |}.

(** A network on which every call gets the same reply. *)
Definition replies (r : Js.reply) : Js.network := fun _ => Js.Resolves r.

Definition UNAVAILABLE : Js.reply :=
  {| Js.reply_status := 503; Js.reply_text := js "overloaded";
     Js.reply_json := Js.Return (Js.VObj []) |}.

(** A tokenizer that finds no [head] element, and a comparison that is
    never positive: stand-ins for the platform in the examples. *)
Definition no_head (s : jsstring) : Rewriter.document := [Rewriter.Raw s].
Definition never_positive (v : Js.value) : Js.outcome bool := Js.Return false.

(** The document of the specification's end-to-end scenario, as the
    rewriter streams it: one [head] element between two runs of text. *)
Definition SAMPLE_HEAD_CONTENT : jsstring :=
  js "<meta charset=" ++ JsString.DQUOTE ++ js "utf-8" ++ JsString.DQUOTE ++ js ">".

Definition SAMPLE_BODY : jsstring :=
  js "<body><a href=" ++ JsString.DQUOTE ++ js "/" ++ JsString.DQUOTE
  ++ js ">Home</a></body></html>".

Definition SAMPLE_DOCUMENT : Rewriter.document :=
  [Rewriter.Raw (js "<html>");
   Rewriter.Head (js "<head>") SAMPLE_HEAD_CONTENT (js "</head>");
   Rewriter.Raw SAMPLE_BODY].

Definition SAMPLE_HTML : jsstring := Rewriter.serialize SAMPLE_DOCUMENT.

(** A tokenizer that knows the sample document and finds no [head]
    element anywhere else. *)
Definition sample_tokenize (s : jsstring) : Rewriter.document :=
  if JsString.eqb s SAMPLE_HTML then SAMPLE_DOCUMENT else [Rewriter.Raw s].

(** The identifiers of the specification's example. *)
Definition TEST_ENV : Rewriter.Env :=
  {| Rewriter.GEMINI_API_KEY := Some (js "k");
     Rewriter.GA_MEASUREMENT_ID := Some (js "G-TEST");
     Rewriter.ADSENSE_CLIENT_ID := Some (js "ca-pub-TEST") |}.

(** The request and the reply of that scenario: [GET /about] from
    [TestAgent/1.0], answered by an envelope whose first text part is the
    sample document inside a fence. *)
Definition GET_ABOUT : Js.request :=
  {| Js.method := js "GET"; Js.pathname := js "/about";
     Js.user_agent := Some (js "TestAgent/1.0") |}.

Definition NODE_GET_ABOUT : Standalone.IncomingMessage :=
  {| Standalone.method := js "GET"; Standalone.url := js "/about";
     Standalone.user_agent := Some (js "TestAgent/1.0") |}.

Definition FENCED_ENVELOPE : Js.value :=
  Js.VObj [(js "candidates",
    Js.VArr [Js.VObj [(js "content",
      Js.VObj [(js "parts",
        Js.VArr [Js.VObj [(js "text",
          Js.VStr (js "```html" ++ JsString.LF ++ SAMPLE_HTML ++ JsString.LF ++ js "```"))]])])]])].

Definition GENERATED : Js.reply :=
  {| Js.reply_status := 200; Js.reply_text := js "{...}";
     Js.reply_json := Js.Return FENCED_ENVELOPE |}.

(** The same identifiers for the worker of [server.js]. *)
Definition TEST_PROMPT_ENV : PromptWorker.Env :=
  {| PromptWorker.GEMINI_API_KEY := Some (js "k");
     PromptWorker.GOOGLE_ADSENSE_ID := Some (js "ca-pub-TEST");
     PromptWorker.GOOGLE_ANALYTICS_ID := Some (js "G-TEST") |}.

(** The fenced text of [FENCED_ENVELOPE], an envelope with an empty
    text, a connection that fails and a body that is not JSON. *)
Definition FENCED_SAMPLE : jsstring :=
  js "```html" ++ JsString.LF ++ SAMPLE_HTML ++ JsString.LF ++ js "```".

Definition EMPTY_TEXT : Js.reply :=
  {| Js.reply_status := 200; Js.reply_text := js "{...}";
     Js.reply_json := Js.Return (envelope (Js.VStr [])) |}.

Definition UNREACHABLE : Js.error :=
  {| Js.name := Js.TypeError; Js.message := js "fetch failed" |}.

Definition BAD_JSON : Js.error :=
  {| Js.name := Js.SyntaxError; Js.message := js "Unexpected token '<'" |}.

Definition NOT_JSON : Js.reply :=
  {| Js.reply_status := 200; Js.reply_text := js "<html>";
     Js.reply_json := Js.Throw BAD_JSON |}.

(** A success reply whose envelope is the empty object. *)
Definition EMPTY_ENVELOPE : Js.reply :=
  {| Js.reply_status := 200; Js.reply_text := js "{}";
     Js.reply_json := Js.Return (Js.VObj []) |}.

(** A success reply whose envelope has an empty [candidates] array. *)
Definition NO_CANDIDATE : Js.value := Js.VObj [(js "candidates", Js.VArr [])].

Definition EMPTY_CANDIDATES : Js.reply :=
  {| Js.reply_status := 200; Js.reply_text := js "{}";
     Js.reply_json := Js.Return NO_CANDIDATE |}.

(** The sample document with a reference to the analytics script already
    in its [head], and a document whose [head] is never closed. *)
Definition ALREADY_TAGGED : Rewriter.document :=
  [Rewriter.Raw (js "<html>");
   Rewriter.Head (js "<head>") (SAMPLE_HEAD_CONTENT ++ analytics_reference (js "G-OLD"))
     (js "</head>");
   Rewriter.Raw SAMPLE_BODY].

Definition UNTERMINATED : Rewriter.document :=
  [Rewriter.Raw (js "<html>"); Rewriter.Head (js "<head>") (js "unterminated") []].

(* ===================================================================== *)
(** ** Facts about strings *)
(* ===================================================================== *)

Module StringFacts.
Import JsString.

Lemma eqb_eq (a b : t) : eqb a b = true <-> a = b.
Proof. unfold eqb. destruct (list_eq_dec N.eq_dec a b); split; congruence. Qed.

Lemma eqb_refl (a : t) : eqb a a = true.
Proof. now apply eqb_eq. Qed.

Lemma eqb_neq (a b : t) : eqb a b = false <-> a <> b.
Proof. unfold eqb. destruct (list_eq_dec N.eq_dec a b); split; congruence. Qed.

Lemma after_prefix_spec (p s r : t) : after_prefix p s = Some r <-> s = p ++ r.
Proof.
  revert s; induction p as [|a p IH]; intros s; simpl.
  - split; congruence.
  - destruct s as [|b s].
    + split; discriminate.
    + destruct (N.eqb_spec a b) as [->|Hne].
      * rewrite IH. split; congruence.
      * split; [discriminate | intros H; injection H; congruence].
Qed.

Lemma after_prefix_app (p r : t) : after_prefix p (p ++ r) = Some r.
Proof. now apply after_prefix_spec. Qed.

Lemma startsWith_app (p r : t) : startsWith p (p ++ r) = true.
Proof. unfold startsWith. now rewrite after_prefix_app. Qed.

Lemma startsWith_false (p s : t) : startsWith p s = false <-> after_prefix p s = None.
Proof. unfold startsWith. destruct (after_prefix p s); split; congruence. Qed.

Lemma startsWith_true (p s : t) :
  startsWith p s = true <-> exists r, after_prefix p s = Some r.
Proof.
  unfold startsWith. destruct (after_prefix p s) as [r|]; split; try discriminate.
  - eauto.
  - reflexivity.
  - intros [r H]; discriminate.
Qed.

Lemma before_suffix_spec (p s r : t) : before_suffix p s = Some r <-> s = r ++ p.
Proof.
  unfold before_suffix.
  destruct (after_prefix (rev p) (rev s)) as [q|] eqn:E.
  - apply after_prefix_spec in E.
    assert (Hs : s = rev q ++ p).
    { rewrite <- (rev_involutive s), E, rev_app_distr, rev_involutive. reflexivity. }
    split.
    + intros H; injection H as <-. exact Hs.
    + intros H. rewrite Hs in H. apply app_inv_tail in H. now subst.
  - split; [discriminate|].
    intros ->. rewrite rev_app_distr, after_prefix_app in E. discriminate.
Qed.

Lemma endsWith_false (p s : t) : endsWith p s = false <-> before_suffix p s = None.
Proof.
  unfold endsWith, before_suffix, startsWith.
  destruct (after_prefix (rev p) (rev s)); split; congruence.
Qed.

Lemma endsWith_true (p s : t) :
  endsWith p s = true <-> exists r, before_suffix p s = Some r.
Proof.
  unfold endsWith, before_suffix, startsWith.
  destruct (after_prefix (rev p) (rev s)) as [r|]; split; try discriminate.
  - eauto.
  - reflexivity.
  - intros [r H]; discriminate.
Qed.

Lemma includes_here (p r : t) : includes p (p ++ r) = true.
Proof.
  destruct (p ++ r) eqn:E; simpl; rewrite <- E, startsWith_app; reflexivity.
Qed.

Lemma includes_skip (p a s : t) : includes p s = true -> includes p (a ++ s) = true.
Proof.
  intros H. induction a as [|c a IH]; [exact H|].
  simpl. rewrite IH. apply orb_true_r.
Qed.

Lemma includes_app (p a b : t) : includes p (a ++ p ++ b) = true.
Proof. apply includes_skip, includes_here. Qed.

Lemma includes_self (p : t) : includes p p = true.
Proof. rewrite <- (app_nil_r p) at 2. apply includes_here. Qed.

(** *** Spaces *)

Lemma drop_spaces_head (s : t) : no_leading_space (drop_spaces s).
Proof.
  induction s as [|c s IH]; simpl; [exact I|].
  destruct (is_space c) eqn:E; [exact IH | exact E].
Qed.

Lemma drop_spaces_fixed (s : t) : no_leading_space s -> drop_spaces s = s.
Proof. destruct s as [|c s]; simpl; [reflexivity|]. now intros ->. Qed.

Lemma drop_spaces_split (s : t) : exists a, s = a ++ drop_spaces s.
Proof.
  induction s as [|c s [a IH]]; simpl.
  - now exists [].
  - destruct (is_space c).
    + exists (c :: a). simpl. now f_equal.
    + now exists [].
Qed.

Lemma drop_spaces_length (s : t) : (length (drop_spaces s) <= length s)%nat.
Proof.
  destruct (drop_spaces_split s) as [a H].
  rewrite H at 2. rewrite length_app. lia.
Qed.

Lemma trimEnd_split (s : t) : exists a, s = trimEnd s ++ a.
Proof.
  unfold trimEnd. destruct (drop_spaces_split (rev s)) as [a H].
  exists (rev a). rewrite <- rev_app_distr, <- H, rev_involutive. reflexivity.
Qed.

Lemma trimEnd_length (s : t) : (length (trimEnd s) <= length s)%nat.
Proof.
  destruct (trimEnd_split s) as [a H].
  rewrite H at 2. rewrite length_app. lia.
Qed.

Lemma trimEnd_head (s : t) : no_leading_space s -> no_leading_space (trimEnd s).
Proof.
  intros H. destruct (trimEnd_split s) as [a E].
  destruct (trimEnd s) as [|c u]; [exact I|].
  rewrite E in H. exact H.
Qed.

Lemma trimEnd_idempotent (s : t) : trimEnd (trimEnd s) = trimEnd s.
Proof.
  unfold trimEnd. rewrite rev_involutive.
  now rewrite (drop_spaces_fixed _ (drop_spaces_head (rev s))).
Qed.

Lemma trim_length (s : t) : (length (trim s) <= length s)%nat.
Proof.
  unfold trim, trimStart.
  pose proof (trimEnd_length (drop_spaces s)). pose proof (drop_spaces_length s). lia.
Qed.

Lemma trim_idempotent (s : t) : trim (trim s) = trim s.
Proof.
  unfold trim, trimStart.
  rewrite (drop_spaces_fixed _ (trimEnd_head _ (drop_spaces_head s))).
  apply trimEnd_idempotent.
Qed.

End StringFacts.

(* ===================================================================== *)
(** ** The regular expressions of the sanitizers, in closed form *)
(* ===================================================================== *)

Module RegexFacts.
Import JsString Regex StringFacts.

(** A run of literal characters matches exactly where it is a prefix. *)
Lemma matches_str (p : jsstring) (i : nat) (rest : jsstring) (k : cont) :
  matches (str p) i rest k
  = match after_prefix p rest with
    | Some rest' => k (i + List.length p)%nat rest'
    | None => None
    end.
Proof.
  revert i rest. induction p as [|c p IH]; intros i rest; cbn [str matches after_prefix].
  - now rewrite Nat.add_0_r.
  - destruct rest as [|x rest]; [reflexivity|].
    rewrite (N.eqb_sym x c). destruct (c =? x); [|reflexivity].
    rewrite IH. cbn [List.length]. now rewrite Nat.add_succ_r.
Qed.

Lemma leading_spaces_cons (c : code_unit) (s : jsstring) :
  is_space c = true -> leading_spaces (c :: s) = S (leading_spaces s).
Proof.
  intros H. unfold leading_spaces. cbn [drop_spaces List.length]. rewrite H.
  pose proof (drop_spaces_length s). lia.
Qed.

Lemma leading_spaces_none (s : jsstring) :
  no_leading_space s -> leading_spaces s = 0%nat.
Proof.
  intros H. unfold leading_spaces. rewrite (@drop_spaces_fixed s H). lia.
Qed.

Lemma skipn_leading_spaces (s : jsstring) : skipn (leading_spaces s) s = drop_spaces s.
Proof.
  unfold leading_spaces. destruct (drop_spaces_split s) as [a E].
  rewrite E at 1 3. rewrite length_app.
  replace (List.length a + List.length (drop_spaces s) - List.length (drop_spaces s))%nat
    with (List.length a + 0)%nat by lia.
  rewrite skipn_app, Nat.add_0_r, skipn_all, Nat.sub_diag. reflexivity.
Qed.

(** With nothing left to match after it, the greedy [\s*] takes every
    space that follows. *)
Lemma star_space_greedy (fuel i : nat) (rest : jsstring) :
  (List.length rest < fuel)%nat ->
  star_loop (matches Space) fuel i rest (fun e _ => Some e)
  = Some (i + leading_spaces rest)%nat.
Proof.
  revert i rest. induction fuel as [|fuel IH]; intros i rest Hf; [lia|].
  cbn [star_loop matches]. destruct rest as [|c rest].
  - now rewrite Nat.add_0_r.
  - destruct (is_space c) eqn:Ec.
    + assert (Hi : (i <? S i)%nat = true) by (apply Nat.ltb_lt; lia).
      rewrite Hi, IH by (cbn [List.length] in Hf; lia).
      rewrite (@leading_spaces_cons c rest Ec). f_equal. lia.
    + rewrite leading_spaces_none by exact Ec. now rewrite Nat.add_0_r.
Qed.

(** A pattern that begins with [^] matches nowhere after index 0. *)
Lemma search_after_start (x : Regex.t) (i : nat) (rest : jsstring) :
  search (Seq Bol x) (S i) rest = None.
Proof.
  revert i. induction rest as [|c rest IH]; intros i; cbn; [reflexivity | apply IH].
Qed.

(** [p$] matches at an index exactly when [p] is all that is left. *)
Lemma match_at_suffix (p : jsstring) (i : nat) (rest : jsstring) :
  match_at (Seq (str p) Eol) i rest
  = if eqb rest p then Some (i + List.length p)%nat else None.
Proof.
  unfold match_at. cbn [matches]. rewrite matches_str.
  destruct (after_prefix p rest) as [[|c r]|] eqn:E.
  - apply after_prefix_spec in E. rewrite app_nil_r in E. subst rest.
    now rewrite eqb_refl.
  - apply after_prefix_spec in E.
    assert (N : eqb rest p = false).
    { apply eqb_neq. intros ->. apply (f_equal (@List.length _)) in E.
      rewrite length_app in E. cbn [List.length] in E. lia. }
    now rewrite N.
  - assert (N : eqb rest p = false).
    { apply eqb_neq. intros ->.
      rewrite <- (app_nil_r p) in E at 2. rewrite after_prefix_app in E. discriminate. }
    now rewrite N.
Qed.

Lemma before_suffix_self (p : jsstring) : before_suffix p p = Some [].
Proof. now apply before_suffix_spec. Qed.

Lemma before_suffix_nil (p : jsstring) : p <> [] -> before_suffix p [] = None.
Proof.
  intros Hp. destruct (before_suffix p []) as [b|] eqn:E; [|reflexivity].
  apply before_suffix_spec in E. symmetry in E. apply app_eq_nil in E. now destruct E.
Qed.

Lemma before_suffix_cons (p : jsstring) (c : code_unit) (r : jsstring) :
  c :: r <> p ->
  before_suffix p (c :: r)
  = match before_suffix p r with
    | Some b => Some (c :: b)
    | None => None
    end.
Proof.
  intros Hne. destruct (before_suffix p r) as [b|] eqn:E.
  - apply before_suffix_spec in E. apply before_suffix_spec. now subst r.
  - destruct (before_suffix p (c :: r)) as [b'|] eqn:E'; [|reflexivity].
    apply before_suffix_spec in E'. destruct b' as [|c' b''].
    + now cbn [app] in E'.
    + cbn [app] in E'. injection E' as _ E'.
      apply (before_suffix_spec p r b'') in E'. congruence.
Qed.

Lemma without_suffix_cons (p : jsstring) (c : code_unit) (r : jsstring) :
  c :: r <> p -> without_suffix p (c :: r) = c :: without_suffix p r.
Proof.
  intros Hne. unfold without_suffix. rewrite (@before_suffix_cons p c r Hne).
  now destruct (before_suffix p r).
Qed.

(** The first match of [p$] is the suffix [p], when the input has it. *)
Lemma search_suffix (p : jsstring) (i : nat) (rest : jsstring) :
  p <> [] ->
  search (Seq (str p) Eol) i rest
  = match before_suffix p rest with
    | Some b => Some ((i + List.length b)%nat, (i + List.length rest)%nat)
    | None => None
    end.
Proof.
  intros Hp. revert i. induction rest as [|c rest IH]; intros i.
  - cbn [search]. rewrite match_at_suffix.
    assert (N : eqb [] p = false) by (apply eqb_neq; congruence).
    now rewrite N, before_suffix_nil.
  - cbn [search]. rewrite match_at_suffix.
    destruct (eqb (c :: rest) p) eqn:E.
    + apply eqb_eq in E. rewrite E, before_suffix_self.
      cbn [List.length]. now rewrite Nat.add_0_r.
    + apply eqb_neq in E. rewrite IH, (@before_suffix_cons p c rest E).
      destruct (before_suffix p rest) as [b|]; [|reflexivity].
      cbn [List.length]. now rewrite !Nat.add_succ_r.
Qed.

Lemma replace_suffix (p s : jsstring) :
  p <> [] -> replace (Seq (str p) Eol) s = without_suffix p s.
Proof.
  intros Hp. unfold replace, without_suffix. rewrite (@search_suffix p 0 s Hp).
  destruct (before_suffix p s) as [b|] eqn:E; [|reflexivity].
  apply before_suffix_spec in E. subst s. cbn [Nat.add].
  rewrite firstn_app, firstn_all, Nat.sub_diag, skipn_all. cbn [firstn].
  now rewrite !app_nil_r.
Qed.

Lemma replace_prefix (p s : jsstring) :
  replace (Seq Bol (str p)) s = without_prefix p s.
Proof.
  unfold replace, without_prefix.
  assert (M : match_at (Seq Bol (str p)) 0 s
              = match after_prefix p s with
                | Some _ => Some (List.length p)
                | None => None
                end).
  { unfold match_at. cbn [matches Nat.eqb]. rewrite matches_str.
    now destruct (after_prefix p s). }
  destruct s as [|c s]; cbn [search]; rewrite M.
  - destruct (after_prefix p []) as [r|] eqn:E; [|reflexivity].
    apply after_prefix_spec in E. symmetry in E. apply app_eq_nil in E as [-> ->].
    reflexivity.
  - destruct (after_prefix p (c :: s)) as [r|] eqn:E.
    + apply after_prefix_spec in E. rewrite E. cbn [firstn app].
      now rewrite skipn_app, skipn_all, Nat.sub_diag.
    + now rewrite search_after_start.
Qed.

(** *** The pattern with the [g] flag *)

Lemma scan_inside (r : Regex.t) (i inside : nat) (rest : jsstring) :
  scan r i inside rest = scan r (i + inside) 0 (skipn inside rest).
Proof.
  revert i rest. induction inside as [|n IH]; intros i rest.
  - now rewrite Nat.add_0_r.
  - destruct rest as [|c rest]; [reflexivity|].
    cbn [scan skipn]. rewrite IH. f_equal. lia.
Qed.

Import Sanitizer.

Lemma FENCE_not_empty : FENCE <> [].
Proof. discriminate. Qed.

Lemma match_at_alt (a b : Regex.t) (i : nat) (rest : jsstring) :
  match_at (Alt a b) i rest
  = match match_at a i rest with
    | Some e => Some e
    | None => match_at b i rest
    end.
Proof. reflexivity. Qed.

(** The first alternative matches at index 0 only, and takes the tag and
    every space after it. *)
Lemma match_at_opening (i : nat) (rest : jsstring) :
  match_at (Seq Bol (Seq (str FENCE_HTML) (Star Space))) i rest
  = if (i =? 0)%nat
    then match after_prefix FENCE_HTML rest with
         | Some r => Some (i + List.length FENCE_HTML + leading_spaces r)%nat
         | None => None
         end
    else None.
Proof.
  unfold match_at. cbn [matches]. destruct (i =? 0)%nat; [|reflexivity].
  rewrite matches_str. destruct (after_prefix FENCE_HTML rest) as [r|]; [|reflexivity].
  cbn [matches]. now rewrite star_space_greedy by lia.
Qed.

(** After index 0 only the closing fence can match. *)
Lemma match_at_fences_later (i : nat) (rest : jsstring) :
  match_at FENCES (S i) rest
  = if eqb rest FENCE then Some (S i + List.length FENCE)%nat else None.
Proof.
  unfold FENCES. rewrite match_at_alt, match_at_opening. cbn [Nat.eqb].
  apply match_at_suffix.
Qed.

Lemma scan_fences_later (i : nat) (rest : jsstring) :
  scan FENCES (S i) 0 rest = without_suffix FENCE rest.
Proof.
  revert i. induction rest as [|c rest IH]; intros i; [reflexivity|].
  cbn [scan]. rewrite match_at_fences_later.
  destruct (eqb (c :: rest) FENCE) eqn:E.
  - apply eqb_eq in E.
    assert (Hi : (S i + List.length FENCE =? S i)%nat = false)
      by (apply Nat.eqb_neq; cbn [FENCE]; change (List.length FENCE) with 3%nat; lia).
    rewrite Hi, scan_inside.
    change (List.length FENCE) with 3%nat.
    replace (S i + 3 - S i - 1)%nat with 2%nat by lia.
    injection E as -> ->. reflexivity.
  - apply eqb_neq in E. rewrite IH. symmetry. now apply without_suffix_cons.
Qed.

(** At index 0 the opening tag is tried first. *)
Lemma match_at_fences_start (s : jsstring) :
  match_at FENCES 0 s
  = match after_prefix FENCE_HTML s with
    | Some rest => Some (List.length FENCE_HTML + leading_spaces rest)%nat
    | None => if eqb s FENCE then Some (List.length FENCE) else None
    end.
Proof.
  unfold FENCES. rewrite match_at_alt, match_at_opening. cbn [Nat.eqb Nat.add].
  destruct (after_prefix FENCE_HTML s) as [rest|]; [reflexivity|].
  now rewrite match_at_suffix.
Qed.

Lemma replace_all_fences (s : jsstring) : replace_all FENCES s = unfenced s.
Proof.
  unfold replace_all, unfenced. destruct s as [|c s]; [reflexivity|].
  cbn [scan]. rewrite match_at_fences_start.
  destruct (after_prefix FENCE_HTML (c :: s)) as [rest|] eqn:E.
  - apply after_prefix_spec in E.
    assert (T : FENCE_HTML = 96 :: js "``html") by reflexivity.
    rewrite T in E. cbn [app] in E. injection E as _ Es.
    change (List.length FENCE_HTML) with 7%nat.
    assert (Hz : (7 + leading_spaces rest =? 0)%nat = false) by reflexivity.
    rewrite Hz.
    replace (7 + leading_spaces rest - 0 - 1)%nat with (6 + leading_spaces rest)%nat by lia.
    rewrite scan_inside. change (1 + (6 + leading_spaces rest))%nat
      with (S (6 + leading_spaces rest)).
    rewrite scan_fences_later. f_equal.
    rewrite Es. cbn [Nat.add skipn]. apply skipn_leading_spaces.
  - destruct (eqb (c :: s) FENCE) eqn:F.
    + apply eqb_eq in F. injection F as -> ->. reflexivity.
    + apply eqb_neq in F. rewrite scan_fences_later. symmetry.
      now apply without_suffix_cons.
Qed.

End RegexFacts.

(* ===================================================================== *)
(** ** The sanitizers: fenced input and repeated application *)
(* ===================================================================== *)

Module SanitizerFacts.
Import JsString Sanitizer StringFacts.

(** The sanitizer of the rewriter worker takes the opening line and the
    closing line off. *)
Lemma sanitize_rewriter_closed (s : jsstring) : sanitize_rewriter s = unfenced_lines s.
Proof.
  unfold sanitize_rewriter, unfenced_lines, LEADING_FENCE_LINE, TRAILING_FENCE_LINE.
  rewrite RegexFacts.replace_prefix. apply RegexFacts.replace_suffix. discriminate.
Qed.

(** The sanitizer of [server.js] takes the opening tag, the spaces after
    it and the closing fence off, and trims. *)
Lemma sanitize_prompt_closed (s : jsstring) : sanitize_prompt s = trim (unfenced s).
Proof. unfold sanitize_prompt. now rewrite RegexFacts.replace_all_fences. Qed.

Lemma strip_prefix_length (p s r : t) :
  after_prefix p s = Some r -> length s = (length p + length r)%nat.
Proof. intros H. apply after_prefix_spec in H. subst. apply length_app. Qed.

Lemma strip_suffix_length (p s r : t) :
  before_suffix p s = Some r -> length s = (length r + length p)%nat.
Proof. intros H. apply before_suffix_spec in H. subst. apply length_app. Qed.

Lemma without_prefix_length (p s : t) : (length (without_prefix p s) <= length s)%nat.
Proof.
  unfold without_prefix.
  destruct (after_prefix p s) eqn:E; [apply strip_prefix_length in E|]; lia.
Qed.

Lemma without_suffix_length (p s : t) : (length (without_suffix p s) <= length s)%nat.
Proof.
  unfold without_suffix.
  destruct (before_suffix p s) eqn:E; [apply strip_suffix_length in E|]; lia.
Qed.

(** Taking a prefix that is there off makes the string shorter. *)
Lemma without_prefix_shorter (p s : t) :
  p <> [] -> startsWith p s = true ->
  (length (without_prefix p s) < length s)%nat.
Proof.
  intros Hp H. apply startsWith_true in H as [r Er]. unfold without_prefix. rewrite Er.
  apply strip_prefix_length in Er. destruct p; [congruence | cbn [length] in Er; lia].
Qed.

Lemma without_suffix_shorter (p s : t) :
  p <> [] -> endsWith p s = true ->
  (length (without_suffix p s) < length s)%nat.
Proof.
  intros Hp H. apply endsWith_true in H as [r Er]. unfold without_suffix. rewrite Er.
  apply strip_suffix_length in Er. destruct p; [congruence | cbn [length] in Er; lia].
Qed.

Lemma without_prefix_absent (p s : t) : startsWith p s = false -> without_prefix p s = s.
Proof. intros H. apply startsWith_false in H. unfold without_prefix. now rewrite H. Qed.

Lemma without_suffix_absent (p s : t) : endsWith p s = false -> without_suffix p s = s.
Proof. intros H. apply endsWith_false in H. unfold without_suffix. now rewrite H. Qed.

(** A string is left alone by the worker's sanitizer exactly when it has
    neither the opening line nor the closing line. *)
Lemma unfenced_lines_fixed (y : t) :
  unfenced_lines y = y <->
  startsWith (FENCE_HTML ++ LF) y = false /\ endsWith (LF ++ FENCE) y = false.
Proof.
  unfold unfenced_lines. split.
  - intros H.
    pose proof (without_suffix_length (LF ++ FENCE)
                  (without_prefix (FENCE_HTML ++ LF) y)) as L1.
    rewrite H in L1.
    destruct (startsWith (FENCE_HTML ++ LF) y) eqn:Es.
    + exfalso. apply without_prefix_shorter in Es; [lia | discriminate].
    + split; [reflexivity|]. rewrite (without_prefix_absent _ _ Es) in H.
      destruct (endsWith (LF ++ FENCE) y) eqn:Ee; [exfalso | reflexivity].
      apply without_suffix_shorter in Ee; [|discriminate]. rewrite H in Ee. lia.
  - intros [Hs He]. rewrite (without_prefix_absent _ _ Hs). now apply without_suffix_absent.
Qed.

Lemma unfenced_length (s : t) : (length (unfenced s) <= length s)%nat.
Proof.
  unfold unfenced. destruct (after_prefix FENCE_HTML s) as [r|] eqn:E.
  - apply strip_prefix_length in E.
    pose proof (without_suffix_length FENCE (drop_spaces r)).
    pose proof (drop_spaces_length r). lia.
  - apply without_suffix_length.
Qed.

Lemma unfenced_fixed (y : t) :
  unfenced y = y <-> startsWith FENCE_HTML y = false /\ endsWith FENCE y = false.
Proof.
  unfold unfenced. split.
  - intros H. destruct (after_prefix FENCE_HTML y) as [r|] eqn:Es.
    + exfalso. apply strip_prefix_length in Es.
      change (length FENCE_HTML) with 7%nat in Es.
      pose proof (without_suffix_length FENCE (drop_spaces r)) as L.
      pose proof (drop_spaces_length r). rewrite H in L. lia.
    + split; [now apply startsWith_false|].
      destruct (endsWith FENCE y) eqn:Ee; [exfalso | reflexivity].
      apply without_suffix_shorter in Ee; [|discriminate]. rewrite H in Ee. lia.
  - intros [Hs He]. apply startsWith_false in Hs. rewrite Hs.
    now apply without_suffix_absent.
Qed.

Lemma sanitize_rewriter_fixed (y : t) :
  sanitize_rewriter y = y <->
  startsWith (FENCE_HTML ++ LF) y = false /\ endsWith (LF ++ FENCE) y = false.
Proof. rewrite sanitize_rewriter_closed. apply unfenced_lines_fixed. Qed.

(** On a trimmed string the other sanitizer does nothing exactly when
    the string has neither fence. *)
Lemma sanitize_prompt_fixed (y : t) :
  trim y = y ->
  (sanitize_prompt y = y <->
   startsWith FENCE_HTML y = false /\ endsWith FENCE y = false).
Proof.
  intros Ht. rewrite sanitize_prompt_closed. split.
  - intros H. apply unfenced_fixed.
    pose proof (unfenced_length y) as L1.
    pose proof (trim_length (unfenced y)) as L2. rewrite H in L2.
    (* nothing was removed by the replacement, so nothing matched *)
    destruct (startsWith FENCE_HTML y) eqn:Es.
    + exfalso. apply startsWith_true in Es as [r Er].
      unfold unfenced in L1, L2. rewrite Er in L1, L2.
      apply strip_prefix_length in Er. change (length FENCE_HTML) with 7%nat in Er.
      pose proof (without_suffix_length FENCE (drop_spaces r)).
      pose proof (drop_spaces_length r). lia.
    + destruct (endsWith FENCE y) eqn:Ee.
      * exfalso. apply startsWith_false in Es.
        unfold unfenced in L2. rewrite Es in L2.
        apply without_suffix_shorter in Ee; [lia | discriminate].
      * apply unfenced_fixed. now split.
  - intros H. apply unfenced_fixed in H. now rewrite H.
Qed.

Lemma sanitize_prompt_trimmed (x : t) : trim (sanitize_prompt x) = sanitize_prompt x.
Proof. unfold sanitize_prompt. apply trim_idempotent. Qed.

End SanitizerFacts.


(* ===================================================================== *)
(** ** The handlers, path by path *)
(* ===================================================================== *)

Module HandlerFacts.
Import JsString Js StringFacts.

Ltac run_handler :=
  cbv beta iota zeta delta
    [run bind ret throw lift try_catch Js.fetch
     Rewriter.generate Rewriter.on_error
     PromptWorker.generateHtmlWithAI
     Standalone.generateHtmlWithAI Standalone.request_html].

Section Rewriter.
Variable tokenize : jsstring -> Rewriter.document.
Variables (request : Js.request) (env : Rewriter.Env) (net : network).

Lemma rewriter_unconfigured :
  missing (Rewriter.GEMINI_API_KEY env) = true ->
  run (Rewriter.fetch tokenize request env) net
  = (Return {| status := 500; content_type := Some TEXT_PLAIN;
               body := Rewriter.NOT_CONFIGURED |}, []).
Proof. intros H. unfold Rewriter.fetch. rewrite H. reflexivity. Qed.

Lemma rewriter_favicon :
  missing (Rewriter.GEMINI_API_KEY env) = false ->
  pathname request = FAVICON ->
  run (Rewriter.fetch tokenize request env) net
  = (Return {| status := 204; content_type := None; body := [] |}, []).
Proof.
  intros H P. unfold Rewriter.fetch. rewrite H, P, eqb_refl. reflexivity.
Qed.

(** Past the two guards the handler is its [try] block. *)
Lemma rewriter_generates :
  missing (Rewriter.GEMINI_API_KEY env) = false ->
  pathname request <> FAVICON ->
  run (Rewriter.fetch tokenize request env) net
  = run (try_catch
           (Rewriter.generate tokenize env
              (Rewriter.build_prompt (method request) (pathname request)
                 (or_default (user_agent request) (js "unknown"))))
           Rewriter.on_error) net.
Proof.
  intros H P.
  assert (P' : eqb (pathname request) FAVICON = false) by (apply eqb_neq; exact P).
  unfold Rewriter.fetch. rewrite H, P'. cbv zeta. reflexivity.
Qed.

Variable up : reply.
Hypothesis configured : missing (Rewriter.GEMINI_API_KEY env) = false.
Hypothesis page : pathname request <> FAVICON.
Hypothesis replied : net (rewriter_call request env) = Resolves up.

Lemma rewriter_upstream_failure :
  ok up = false ->
  run (Rewriter.fetch tokenize request env) net
  = (Return {| status := 502; content_type := None;
               body := Rewriter.UPSTREAM_FAILED ++ of_number (reply_status up) |},
     [rewriter_call request env]).
Proof.
  intros Hok. rewrite rewriter_generates by assumption.
  run_handler. fold (rewriter_call request env).
  rewrite replied. cbv beta iota. rewrite Hok. reflexivity.
Qed.

(** A success envelope on which the test of step 5 is falsy. *)
Lemma rewriter_unexpected_format (result test : value) :
  ok up = true ->
  reply_json up = Return result ->
  Rewriter.has_text result = Return test ->
  truthy test = false ->
  run (Rewriter.fetch tokenize request env) net
  = (Return {| status := 500; content_type := None;
               body := Rewriter.UNEXPECTED_FORMAT |},
     [rewriter_call request env]).
Proof.
  intros Hok Hj Ht Hf. rewrite rewriter_generates by assumption.
  run_handler. fold (rewriter_call request env).
  rewrite replied. cbv beta iota. rewrite Hok. cbv beta iota delta [negb].
  rewrite Hj, Ht. cbv beta iota. rewrite Hf. reflexivity.
Qed.

(** A success envelope on which the test of step 5 throws. *)
Lemma rewriter_extraction_throws (result : value) (e : error) :
  ok up = true ->
  reply_json up = Return result ->
  Rewriter.has_text result = Throw e ->
  run (Rewriter.fetch tokenize request env) net
  = (Return {| status := 500; content_type := Some TEXT_HTML;
               body := Rewriter.INTERNAL_ERROR |},
     [rewriter_call request env]).
Proof.
  intros Hok Hj Ht. rewrite rewriter_generates by assumption.
  run_handler. fold (rewriter_call request env).
  rewrite replied. cbv beta iota. rewrite Hok. cbv beta iota delta [negb].
  rewrite Hj, Ht. reflexivity.
Qed.

End Rewriter.

(** *** The envelope tests on two shapes of envelope *)

Ltac read_paths :=
  cbv beta iota delta
    [Rewriter.has_text PromptWorker.first_text Standalone.has_parts
     Rewriter.CANDIDATES Rewriter.CONTENT Rewriter.PARTS Rewriter.TEXT Standalone.LENGTH
     and_then path bind_outcome app].

Section Envelope.
Variable result : value.

(** No [candidates]: the three tests stop at their first operand. *)
Hypothesis no_candidates : get (Named (js "candidates")) result = Return VUndefined.

Lemma rewriter_test_undefined : Rewriter.has_text result = Return VUndefined.
Proof. read_paths. rewrite no_candidates. reflexivity. Qed.

Lemma prompt_worker_test_undefined :
  and_then (path result Rewriter.CANDIDATES) (PromptWorker.first_text result)
  = Return VUndefined.
Proof. read_paths. rewrite no_candidates. reflexivity. Qed.

Lemma standalone_test_undefined (coerced_positive : value -> outcome bool) :
  Standalone.has_parts coerced_positive result = Return VUndefined.
Proof. read_paths. rewrite no_candidates. reflexivity. Qed.

End Envelope.

(** An empty [candidates] array is truthy, its element 0 is [undefined],
    and the read of [content] on it throws. *)
Lemma rewriter_test_empty_candidates (result : value) :
  get (Named (js "candidates")) result = Return (VArr []) ->
  Rewriter.has_text result
  = Throw (cannot_read (js "undefined") (Named (js "content"))).
Proof. intros H. read_paths. rewrite H. reflexivity. Qed.

Section PromptWorker.
Variables (request : Js.request) (env : PromptWorker.Env) (net : network).

Lemma prompt_worker_favicon :
  pathname request = FAVICON ->
  run (PromptWorker.fetch request env) net
  = (Return {| status := 204; content_type := None; body := [] |}, []).
Proof. intros P. unfold PromptWorker.fetch. rewrite P, eqb_refl. reflexivity. Qed.

Hypothesis page : pathname request <> FAVICON.

Lemma prompt_worker_generates :
  run (PromptWorker.fetch request env) net
  = run (try_catch
           (bind (PromptWorker.generateHtmlWithAI (method request) (pathname request)
                    (or_default (user_agent request) (js "Unknown")) env)
              (fun htmlContent =>
                 ret {| status := 200; content_type := Some TEXT_HTML;
                        body := htmlContent |}))
           (fun e => ret {| status := 500; content_type := Some TEXT_HTML;
                            body := PromptWorker.errorMessage e |})) net.
Proof.
  assert (P' : eqb (pathname request) FAVICON = false) by (apply eqb_neq; exact page).
  unfold PromptWorker.fetch. rewrite P'. cbv zeta. reflexivity.
Qed.

Lemma prompt_worker_unconfigured :
  missing (PromptWorker.GEMINI_API_KEY env) = true ->
  run (PromptWorker.fetch request env) net
  = (Return {| status := 500; content_type := Some TEXT_HTML;
               body := PromptWorker.errorMessage
                         (new_Error PromptWorker.NOT_CONFIGURED) |}, []).
Proof.
  intros H. rewrite prompt_worker_generates. run_handler. rewrite H. reflexivity.
Qed.

Variable up : reply.
Hypothesis configured : missing (PromptWorker.GEMINI_API_KEY env) = false.
Hypothesis replied : net (prompt_worker_call request env) = Resolves up.

Lemma prompt_worker_upstream_failure :
  ok up = false ->
  run (PromptWorker.fetch request env) net
  = (Return {| status := 500; content_type := Some TEXT_HTML;
               body := PromptWorker.errorMessage
                         (new_Error (PromptWorker.REQUEST_FAILED
                                     ++ of_number (reply_status up)
                                     ++ js ": " ++ reply_text up)) |},
     [prompt_worker_call request env]).
Proof.
  intros Hok. rewrite prompt_worker_generates. run_handler. rewrite configured.
  cbv beta iota. fold (prompt_worker_call request env).
  rewrite replied. cbv beta iota. rewrite Hok. reflexivity.
Qed.

Lemma prompt_worker_no_valid_content (result test : value) :
  ok up = true ->
  reply_json up = Return result ->
  and_then (path result Rewriter.CANDIDATES) (PromptWorker.first_text result)
  = Return test ->
  truthy test = false ->
  run (PromptWorker.fetch request env) net
  = (Return {| status := 500; content_type := Some TEXT_HTML;
               body := PromptWorker.errorMessage
                         (new_Error PromptWorker.NO_VALID_CONTENT) |},
     [prompt_worker_call request env]).
Proof.
  intros Hok Hj Ht Hf. rewrite prompt_worker_generates. run_handler. rewrite configured.
  cbv beta iota. fold (prompt_worker_call request env).
  rewrite replied. cbv beta iota. rewrite Hok. cbv beta iota delta [negb].
  rewrite Hj, Ht. cbv beta iota. rewrite Hf. reflexivity.
Qed.

End PromptWorker.

Section Standalone.
Variable coerced_positive : value -> outcome bool.
Variables (apiKey : option jsstring) (req : Standalone.IncomingMessage) (net : network).

Lemma standalone_favicon :
  Standalone.url req = FAVICON ->
  run (Standalone.server coerced_positive apiKey req) net
  = (Return {| status := 204; content_type := Some (js "image/x-icon"); body := [] |},
     []).
Proof. intros P. unfold Standalone.server. rewrite P, eqb_refl. reflexivity. Qed.

Hypothesis page : Standalone.url req <> FAVICON.

(** [generateHtmlWithAI] resolves whatever happens inside its [try]
    block, after exactly one call. *)
Lemma standalone_generate_total :
  exists htmlContent,
    Standalone.generateHtmlWithAI coerced_positive apiKey (Standalone.method req)
      (Standalone.url req) (or_default (Standalone.user_agent req) (js "Unknown")) net []
    = (Return htmlContent, [standalone_call apiKey req]).
Proof.
  run_handler. fold (standalone_call apiKey req).
  destruct (net (standalone_call apiKey req)) as [e|up]; [eexists; reflexivity|].
  destruct (ok up); cbv beta iota delta [negb]; [|eexists; reflexivity].
  destruct (reply_json up) as [result|e]; [|eexists; reflexivity].
  destruct (Standalone.has_parts coerced_positive result) as [test|e];
    [|eexists; reflexivity].
  destruct (truthy test); cbv beta iota; [|eexists; reflexivity].
  destruct (path result Rewriter.TEXT) as [text|e]; [|eexists; reflexivity].
  destruct (string_method (js "htmlContent") (js "replace") text);
    eexists; reflexivity.
Qed.

(** Whatever [generateHtmlWithAI] resolves to is sent with status 200. *)
Lemma standalone_serves (htmlContent : jsstring) (calls : list outbound) :
  Standalone.generateHtmlWithAI coerced_positive apiKey (Standalone.method req)
    (Standalone.url req) (or_default (Standalone.user_agent req) (js "Unknown")) net []
  = (Return htmlContent, calls) ->
  run (Standalone.server coerced_positive apiKey req) net
  = (Return {| status := 200; content_type := Some TEXT_HTML; body := htmlContent |},
     calls).
Proof.
  intros H.
  assert (P' : eqb (Standalone.url req) FAVICON = false) by (apply eqb_neq; exact page).
  unfold Standalone.server. rewrite P'.
  cbv beta iota zeta delta [run try_catch bind ret]. rewrite H. reflexivity.
Qed.

(** Every request other than the favicon is answered 200, after one
    call, whatever the key and whatever the network does. *)
Lemma standalone_always_200 :
  exists htmlContent,
    run (Standalone.server coerced_positive apiKey req) net
    = (Return {| status := 200; content_type := Some TEXT_HTML; body := htmlContent |},
       [standalone_call apiKey req]).
Proof.
  destruct standalone_generate_total as [h H].
  exists h. apply standalone_serves, H.
Qed.

Variable up : reply.
Hypothesis replied : net (standalone_call apiKey req) = Resolves up.

Lemma standalone_upstream_failure :
  ok up = false ->
  run (Standalone.server coerced_positive apiKey req) net
  = (Return {| status := 200; content_type := Some TEXT_HTML;
               body := Standalone.error_page
                         (new_Error (Standalone.REQUEST_FAILED
                                     ++ of_number (reply_status up)
                                     ++ js ": " ++ reply_text up)) |},
     [standalone_call apiKey req]).
Proof.
  intros Hok. apply standalone_serves. run_handler.
  fold (standalone_call apiKey req).
  rewrite replied. cbv beta iota. rewrite Hok. reflexivity.
Qed.

Lemma standalone_fallback (result test : value) :
  ok up = true ->
  reply_json up = Return result ->
  Standalone.has_parts coerced_positive result = Return test ->
  truthy test = false ->
  run (Standalone.server coerced_positive apiKey req) net
  = (Return {| status := 200; content_type := Some TEXT_HTML;
               body := Standalone.FALLBACK_PAGE |},
     [standalone_call apiKey req]).
Proof.
  intros Hok Hj Ht Hf. apply standalone_serves. run_handler.
  fold (standalone_call apiKey req).
  rewrite replied. cbv beta iota. rewrite Hok. cbv beta iota delta [negb].
  rewrite Hj, Ht. cbv beta iota. rewrite Hf. reflexivity.
Qed.

End Standalone.

End HandlerFacts.

(* ===================================================================== *)
(** ** Facts about the injector and the command line *)
(* ===================================================================== *)

Module InjectorFacts.
Import JsString Js Rewriter.

Lemma transform_app (handler : Element -> Element) (a b : document) :
  transform handler (a ++ b) = transform handler a ++ transform handler b.
Proof. unfold transform. now rewrite map_app, concat_app. Qed.

Lemma serialize_app (a b : document) : serialize (a ++ b) = serialize a ++ serialize b.
Proof. unfold serialize. now rewrite map_app, concat_app. Qed.

(** Where the selector matches nothing the text passes through. *)
Lemma transform_no_head (handler : Element -> Element) (doc : document) :
  existsb is_head doc = false -> transform handler doc = serialize doc.
Proof.
  unfold transform, serialize. induction doc as [|tok doc IH]; [reflexivity|].
  cbn [existsb map List.concat]. destruct tok as [text|st inn en]; cbn [is_head orb].
  - intros H. now rewrite IH.
  - discriminate.
Qed.

(** A handler that appends nothing leaves the document as it is. *)
Lemma transform_untouched (handler : Element -> Element) (doc : document) :
  (forall el, handler el = el) -> transform handler doc = serialize doc.
Proof.
  intros H. unfold transform, serialize. induction doc as [|tok doc IH]; [reflexivity|].
  cbn [map List.concat]. rewrite IH. f_equal.
  destruct tok as [text|st inn en]; [reflexivity|].
  cbn [rewrite_token serialize_token]. rewrite H. unfold emit.
  cbn [start_tag inner end_tag appended List.concat app].
  destruct en; [rewrite app_nil_r|]; reflexivity.
Qed.

Lemma element_unconfigured (env : Env) (el : Element) :
  missing (GA_MEASUREMENT_ID env) = true ->
  missing (ADSENSE_CLIENT_ID env) = true ->
  element env el = el.
Proof. intros HA HB. unfold element. now rewrite HA, HB. Qed.

Lemma element_configured (env : Env) (st inn en : jsstring) :
  missing (GA_MEASUREMENT_ID env) = false ->
  missing (ADSENSE_CLIENT_ID env) = false ->
  element env (matched st inn en)
  = {| start_tag := st; inner := inn; end_tag := en;
       appended := [analytics_snippet (interpolate (GA_MEASUREMENT_ID env));
                    adsense_snippet (interpolate (ADSENSE_CLIENT_ID env))] |}.
Proof. intros HA HB. unfold element. rewrite HA, HB. reflexivity. Qed.

Lemma or_default_missing (a : option jsstring) (d : jsstring) :
  missing a = true -> or_default a d = d.
Proof. destruct a as [[|c r]|]; [reflexivity | discriminate | reflexivity]. Qed.

End InjectorFacts.

Module ArgumentFacts.
Import JsString Js Standalone.

Lemma split_head (sep : code_unit) (s : jsstring) :
  exists rest, split sep s = before_first sep s :: rest.
Proof.
  induction s as [|c r [rest IH]]; cbn [split before_first].
  - now exists [].
  - destruct (c =? sep); [now eexists|]. rewrite IH. now eexists.
Qed.

(** Splitting after a name that has no separator in it. *)
Lemma split_after (sep : code_unit) (a s : jsstring) :
  forallb (fun c => negb (c =? sep)) a = true ->
  split sep (a ++ sep :: s) = a :: split sep s.
Proof.
  induction a as [|c a IH]; cbn [forallb app split].
  - intros _. now rewrite N.eqb_refl.
  - intros H. apply andb_true_iff in H as [Hc Ha].
    apply negb_true_iff in Hc. rewrite Hc, (IH Ha). reflexivity.
Qed.

Lemma before_first_absent (sep : code_unit) (s : jsstring) :
  ~ In sep s -> before_first sep s = s.
Proof.
  induction s as [|c r IH]; cbn [before_first In]; [reflexivity|].
  intros H. destruct (N.eqb_spec c sep) as [->|_].
  - exfalso. apply H. now left.
  - f_equal. apply IH. intros Hr. apply H. now right.
Qed.

Lemma before_first_present (sep : code_unit) (s : jsstring) :
  In sep s -> exists rest, s = before_first sep s ++ sep :: rest.
Proof.
  induction s as [|c r IH]; cbn [before_first In]; [contradiction|].
  intros H. destruct (N.eqb_spec c sep) as [->|Hne].
  - now exists r.
  - destruct H as [H|H]; [congruence|].
    destruct (IH H) as [rest E]. exists rest. cbn [app]. now rewrite <- E.
Qed.

Lemma find_first (test : jsstring -> bool) (skipped : list jsstring)
      (arg : jsstring) (rest : list jsstring) :
  forallb (fun a => negb (test a)) skipped = true ->
  test arg = true ->
  find test (skipped ++ arg :: rest) = Some arg.
Proof.
  intros Hs Ha. induction skipped as [|a skipped IH]; cbn [app find].
  - now rewrite Ha.
  - cbn [forallb] in Hs. apply andb_true_iff in Hs as [H1 H2].
    apply negb_true_iff in H1. rewrite H1. now apply IH.
Qed.

(** The branch of [getApiKey] taken when an argument carries the key
    after an equals sign. *)
Lemma getApiKey_assignment_found (argv : list jsstring) (env_key : option jsstring)
      (c : code_unit) (r : jsstring) :
  find is_key_assignment (skipn 2 argv) = Some (c :: r) ->
  getApiKey argv env_key = nth_error (split EQUALS (c :: r)) 1.
Proof. intros H. unfold getApiKey. cbv zeta. now rewrite H. Qed.

(** Either flag, a name without separator followed by the separator. *)
Lemma flag_shape (flag : jsstring) :
  flag = js "--apiKey=" \/ flag = js "--key=" ->
  exists c name,
    flag = (c :: name) ++ [EQUALS]
    /\ forallb (fun u => negb (u =? EQUALS)) (c :: name) = true
    /\ forall K, is_key_assignment (flag ++ K) = true.
Proof.
  intros [-> | ->].
  - exists 45, (js "-apiKey"). split; [reflexivity|]. split; [reflexivity|].
    intros K. unfold is_key_assignment. now rewrite StringFacts.startsWith_app.
  - exists 45, (js "-key"). split; [reflexivity|]. split; [reflexivity|].
    intros K. unfold is_key_assignment.
    rewrite (StringFacts.startsWith_app (js "--key=") K). apply orb_true_r.
Qed.

End ArgumentFacts.

(* ===================================================================== *)
(** ** Facts about counting references *)
(* ===================================================================== *)

Module ReferenceFacts.
Import JsString Rewriter.

Lemma occurrences_cons (p : t) (b : code_unit) (s : t) :
  occurrences p (b :: s)
  = ((if startsWith p (b :: s) then 1 else 0) + occurrences p s)%nat.
Proof. reflexivity. Qed.

(** *** A character that the pattern does not have *)

Lemma startsWith_separator (p : t) (c : code_unit) (x r : t) :
  ~ In c p -> startsWith p (x ++ c :: r) = startsWith p x.
Proof.
  unfold startsWith. revert x. induction p as [|a p IH]; intros x Hc; [reflexivity|].
  destruct x as [|b x]; cbn [app after_prefix].
  - destruct (N.eqb_spec a c) as [E|_]; [|reflexivity].
    exfalso. apply Hc. left. exact E.
  - destruct (a =? b); [|reflexivity].
    apply IH. intros H. apply Hc. right. exact H.
Qed.

Lemma occurrences_separator (p : t) (c : code_unit) (x K r : t) :
  p <> [] -> ~ In c p -> hd_error K = Some c ->
  occurrences p (x ++ K ++ r) = (occurrences p x + occurrences p (K ++ r))%nat.
Proof.
  intros Hp Hc HK. destruct K as [|c' K]; [discriminate|].
  cbn [hd_error] in HK. injection HK as ->. cbn [app].
  induction x as [|b x IH].
  - destruct p as [|a p]; [congruence|]. reflexivity.
  - change ((b :: x) ++ c :: K ++ r) with (b :: (x ++ c :: K ++ r)).
    rewrite (occurrences_cons p b (x ++ c :: K ++ r)), (occurrences_cons p b x), IH.
    change (b :: x ++ c :: K ++ r) with ((b :: x) ++ c :: K ++ r).
    rewrite (@startsWith_separator p c (b :: x) (K ++ r) Hc). lia.
Qed.

(** *** A text that cannot start the pattern *)

(** The pattern has [d] after [u]; [x] has no [d] and is followed by [q],
    which is not among the characters of the pattern up to [d]. *)
Lemma startsWith_blocked (u : t) (d : code_unit) (v x : t) (q : code_unit) (r : t) :
  ~ In d x -> ~ In q (u ++ [d]) ->
  startsWith (u ++ d :: v) (x ++ q :: r) = false.
Proof.
  unfold startsWith. revert x. induction u as [|a u IH]; intros x Hd Hq.
  - destruct x as [|b x]; cbn [app after_prefix].
    + destruct (N.eqb_spec d q) as [E|_]; [|reflexivity].
      exfalso. apply Hq. left. exact E.
    + destruct (N.eqb_spec d b) as [E|_]; [|reflexivity].
      exfalso. apply Hd. left. symmetry. exact E.
  - destruct x as [|b x]; cbn [app after_prefix].
    + destruct (N.eqb_spec a q) as [E|_]; [|reflexivity].
      exfalso. apply Hq. left. exact E.
    + destruct (a =? b); [|reflexivity].
      apply IH.
      * intros H. apply Hd. right. exact H.
      * intros H. apply Hq. right. exact H.
Qed.

Lemma occurrences_blocked (u : t) (d : code_unit) (v x : t) (q : code_unit) (r : t) :
  ~ In d x -> ~ In q (u ++ [d]) ->
  occurrences (u ++ d :: v) (x ++ q :: r) = occurrences (u ++ d :: v) (q :: r).
Proof.
  intros Hd Hq. induction x as [|b x IH]; [reflexivity|].
  change ((b :: x) ++ q :: r) with (b :: (x ++ q :: r)).
  rewrite occurrences_cons.
  change (b :: x ++ q :: r) with ((b :: x) ++ q :: r).
  rewrite (@startsWith_blocked u d v (b :: x) q r Hd Hq). cbn [Nat.add].
  apply IH. intros H. apply Hd. right. exact H.
Qed.

(** *** A known stretch of text *)

Lemma decided_sound (p x y : t) (b : bool) :
  decided p x = Some b -> startsWith p (x ++ y) = b.
Proof.
  unfold startsWith. revert x. induction p as [|a p IH]; intros x H.
  - cbn [decided] in H. destruct x; injection H as <-; reflexivity.
  - destruct x as [|c x]; cbn [decided] in H; [discriminate|].
    cbn [app after_prefix]. destruct (a =? c).
    + apply IH. exact H.
    + injection H as <-. reflexivity.
Qed.

Lemma count_within_sound (p x y : t) (k : nat) :
  count_within p x = Some k ->
  occurrences p (x ++ y) = (k + occurrences p y)%nat.
Proof.
  revert k. induction x as [|c x IH]; intros k H.
  - cbn [count_within] in H. injection H as <-. reflexivity.
  - cbn [count_within] in H.
    destruct (decided p (c :: x)) as [b|] eqn:D; [|discriminate].
    destruct (count_within p x) as [k'|]; [|discriminate].
    injection H as <-.
    change ((c :: x) ++ y) with (c :: (x ++ y)). rewrite occurrences_cons.
    change (c :: x ++ y) with ((c :: x) ++ y).
    rewrite (@decided_sound p (c :: x) y b D), (IH k' eq_refl). lia.
Qed.

(** An identifier without [d], followed by the known text [K]. *)
Lemma occurrences_hole (u : t) (d : code_unit) (v x K r : t) (q : code_unit) (k : nat) :
  ~ In d x -> hd_error K = Some q -> ~ In q (u ++ [d]) ->
  count_within (u ++ d :: v) K = Some k ->
  occurrences (u ++ d :: v) (x ++ K ++ r)
  = (k + occurrences (u ++ d :: v) r)%nat.
Proof.
  intros Hd HK Hq Hk. rewrite <- (@count_within_sound (u ++ d :: v) K r k Hk).
  destruct K as [|q' K]; [discriminate|].
  cbn [hd_error] in HK. injection HK as ->.
  change ((q :: K) ++ r) with (q :: (K ++ r)).
  apply occurrences_blocked; assumption.
Qed.

(** *** Parts of a text *)

Lemma startsWith_app_true (p a b : t) :
  startsWith p a = true -> startsWith p (a ++ b) = true.
Proof.
  unfold startsWith. revert a. induction p as [|c p IH]; intros a H; [reflexivity|].
  destruct a as [|c' a]; cbn [app after_prefix] in *; [discriminate|].
  destruct (c =? c'); [apply IH; exact H | discriminate].
Qed.

Lemma occurrences_app_r (p a b : t) :
  (occurrences p b <= occurrences p (a ++ b))%nat.
Proof.
  induction a as [|c a IH]; [apply Nat.le_refl|].
  change ((c :: a) ++ b) with (c :: (a ++ b)). rewrite occurrences_cons. lia.
Qed.

Lemma occurrences_app_l (p a b : t) :
  p <> [] -> (occurrences p a <= occurrences p (a ++ b))%nat.
Proof.
  intros Hp. induction a as [|c a IH].
  - destruct p as [|c p]; [congruence|]. cbn. apply Nat.le_0_l.
  - change ((c :: a) ++ b) with (c :: (a ++ b)). rewrite !occurrences_cons.
    destruct (startsWith p (c :: a)) eqn:E.
    + change (c :: a ++ b) with ((c :: a) ++ b).
      rewrite (@startsWith_app_true p (c :: a) b E). lia.
    + lia.
Qed.

(** *** The two snippets *)

Lemma analytics_snippet_shape (id r : t) :
  analytics_snippet id ++ r
  = ANALYTICS_BEFORE_ID ++ id ++ ANALYTICS_BETWEEN_IDS ++ id ++ ANALYTICS_AFTER_ID ++ r.
Proof.
  unfold analytics_snippet, ANALYTICS_BEFORE_ID, ANALYTICS_BETWEEN_IDS, ANALYTICS_AFTER_ID.
  rewrite <- !app_assoc. reflexivity.
Qed.

Lemma adsense_snippet_shape (id r : t) :
  adsense_snippet id ++ r = ADSENSE_BEFORE_ID ++ id ++ ADSENSE_AFTER_ID ++ r.
Proof.
  unfold adsense_snippet, ADSENSE_BEFORE_ID, ADSENSE_AFTER_ID.
  rewrite <- !app_assoc. reflexivity.
Qed.

(** The analytics snippet holds the script element that loads the
    analytics script for its identifier, and the ad snippet the one that
    loads the ad script. *)
Lemma analytics_snippet_reference (id : t) :
  includes (analytics_reference id) (analytics_snippet id) = true.
Proof.
  assert (E : analytics_snippet id
              = (LF ++ lit "        <!-- Google Analytics (injected by Cloudflare Worker) -->"
                 ++ LF ++ lit "        ")
                ++ analytics_reference id
                ++ skipn 11 ANALYTICS_BETWEEN_IDS ++ id ++ ANALYTICS_AFTER_ID).
  { unfold analytics_snippet, analytics_reference. rewrite <- !app_assoc.
    vm_compute. reflexivity. }
  rewrite E. apply StringFacts.includes_app.
Qed.

Lemma adsense_snippet_reference (id : t) :
  includes (adsense_reference id) (adsense_snippet id) = true.
Proof.
  assert (E : adsense_snippet id
              = (LF ++ lit "        <!-- Google AdSense (injected by Cloudflare Worker) -->"
                 ++ LF ++ lit "        ")
                ++ adsense_reference id ++ LF ++ lit "      ").
  { unfold adsense_snippet, adsense_reference. rewrite <- !app_assoc.
    vm_compute. reflexivity. }
  rewrite E. apply StringFacts.includes_app.
Qed.

(** The places of an address [u ++ COLON :: v] in a text into which the
    two snippets were put, when the identifiers have no colon. *)
Lemma occurrences_injected
    (u v x z ga ads : t) (k1 k2 k3 k4 k5 : nat) :
  ~ In COLON ga -> ~ In COLON ads ->
  ~ In 10 (u ++ COLON :: v) ->
  ~ In 34 (u ++ [COLON]) -> ~ In APOSTROPHE (u ++ [COLON]) ->
  count_within (u ++ COLON :: v) ANALYTICS_BEFORE_ID = Some k1 ->
  count_within (u ++ COLON :: v) ANALYTICS_BETWEEN_IDS = Some k2 ->
  count_within (u ++ COLON :: v) ANALYTICS_AFTER_ID = Some k3 ->
  count_within (u ++ COLON :: v) ADSENSE_BEFORE_ID = Some k4 ->
  count_within (u ++ COLON :: v) ADSENSE_AFTER_ID = Some k5 ->
  occurrences (u ++ COLON :: v) (x ++ analytics_snippet ga ++ adsense_snippet ads ++ z)
  = (occurrences (u ++ COLON :: v) x + (k1 + k2 + k3 + k4 + k5)
     + occurrences (u ++ COLON :: v) z)%nat.
Proof.
  intros Hga Hads Hlf Hdq Hap H1 H2 H3 H4 H5.
  rewrite analytics_snippet_shape, adsense_snippet_shape.
  rewrite (@occurrences_separator (u ++ COLON :: v) 10 x ANALYTICS_BEFORE_ID);
    [| destruct u; discriminate | exact Hlf | reflexivity].
  rewrite (@count_within_sound _ _ _ _ H1).
  rewrite (@occurrences_hole u COLON v ga ANALYTICS_BETWEEN_IDS _ 34 k2 Hga eq_refl Hdq H2).
  rewrite (@occurrences_hole u COLON v ga ANALYTICS_AFTER_ID _ APOSTROPHE k3 Hga eq_refl Hap H3).
  rewrite (@count_within_sound _ _ _ _ H4).
  rewrite (@occurrences_hole u COLON v ads ADSENSE_AFTER_ID _ 34 k5 Hads eq_refl Hdq H5).
  rewrite !Nat.add_assoc. reflexivity.
Qed.

Lemma absent_not_in (c : code_unit) (l : t) :
  forallb (fun a => negb (a =? c)) l = true -> ~ In c l.
Proof.
  intros H Hin. rewrite forallb_forall in H. specialize (H c Hin).
  rewrite N.eqb_refl in H. discriminate H.
Qed.

(** Each snippet refers once to its own script and never to the other. *)
Ltac count_injected U V k1 k4 Hga Hads :=
  rewrite (@occurrences_injected U V _ _ _ _ k1 0 0 k4 0 Hga Hads);
  [ reflexivity
  | apply absent_not_in; vm_compute; reflexivity
  | apply absent_not_in; vm_compute; reflexivity
  | apply absent_not_in; vm_compute; reflexivity
  | vm_compute; reflexivity
  | vm_compute; reflexivity
  | vm_compute; reflexivity
  | vm_compute; reflexivity
  | vm_compute; reflexivity ].

Lemma analytics_url_injected (x z ga ads : t) :
  ~ In COLON ga -> ~ In COLON ads ->
  occurrences ANALYTICS_URL (x ++ analytics_snippet ga ++ adsense_snippet ads ++ z)
  = (occurrences ANALYTICS_URL x + 1 + occurrences ANALYTICS_URL z)%nat.
Proof.
  intros Hga Hads.
  assert (E : ANALYTICS_URL
              = lit "https" ++ COLON :: lit "//www.googletagmanager.com/gtag/js?id=")
    by (vm_compute; reflexivity).
  rewrite E.
  count_injected (lit "https") (lit "//www.googletagmanager.com/gtag/js?id=")
    1%nat 0%nat Hga Hads.
Qed.

Lemma adsense_url_injected (x z ga ads : t) :
  ~ In COLON ga -> ~ In COLON ads ->
  occurrences ADSENSE_URL (x ++ analytics_snippet ga ++ adsense_snippet ads ++ z)
  = (occurrences ADSENSE_URL x + 1 + occurrences ADSENSE_URL z)%nat.
Proof.
  intros Hga Hads.
  assert (E : ADSENSE_URL
              = lit "https"
                ++ COLON
                   :: lit "//pagead2.googlesyndication.com/pagead/js/adsbygoogle.js?client=")
    by (vm_compute; reflexivity).
  rewrite E.
  count_injected (lit "https")
    (lit "//pagead2.googlesyndication.com/pagead/js/adsbygoogle.js?client=")
    0%nat 1%nat Hga Hads.
Qed.

Lemma ANALYTICS_URL_not_empty : ANALYTICS_URL <> [].
Proof. intro H. vm_compute in H. discriminate H. Qed.

Lemma ADSENSE_URL_not_empty : ADSENSE_URL <> [].
Proof. intro H. vm_compute in H. discriminate H. Qed.

(** A text without a reference has none in its parts. *)
Lemma occurrences_parts (p a b : t) :
  p <> [] -> occurrences p (a ++ b) = 0%nat ->
  occurrences p a = 0%nat /\ occurrences p b = 0%nat.
Proof.
  intros Hp H.
  pose proof (@occurrences_app_l p a b Hp). pose proof (occurrences_app_r p a b).
  split; lia.
Qed.

Lemma serialize_one_head (before after : document) (st inn en : t) :
  serialize (before ++ Head st inn en :: after)
  = (serialize before ++ st ++ inn) ++ en ++ serialize after.
Proof.
  unfold serialize. rewrite map_app, concat_app.
  cbn [map List.concat serialize_token]. rewrite <- !app_assoc. reflexivity.
Qed.

End ReferenceFacts.


(* ===================================================================== *)
(** ** The claims of the specification *)
(* ===================================================================== *)

Import JsString Js Observed.

(** Finding a piece of text in a concatenation that spells it out. *)
Ltac find_included :=
  rewrite <- ?app_assoc;
  repeat first [ apply StringFacts.includes_self
               | apply StringFacts.includes_here
               | apply StringFacts.includes_skip ].

(** Two literals that differ. *)
Ltac literals_differ := let H := fresh in intro H; vm_compute in H; discriminate H.

Example standalone_503 :
  Js.run (Standalone.server never_positive (Some (js "k")) NODE_GET_ROOT) (replies UNAVAILABLE)
  = (Js.Return {| Js.status := 200; Js.content_type := Some Js.TEXT_HTML;
                  Js.body := Standalone.error_page
                     (Js.new_Error (js "API request failed with status 503: overloaded")) |},
     [standalone_call (Some (js "k")) NODE_GET_ROOT]).
Proof. vm_compute. reflexivity. Qed.

(** The end-to-end scenario of the specification, in each handler. *)
Example rewriter_end_to_end :
  run (Rewriter.fetch sample_tokenize GET_ABOUT TEST_ENV) (replies GENERATED)
  = (Return {| status := 200; content_type := Some TEXT_HTML;
               body := js "<html>" ++ js "<head>" ++ SAMPLE_HEAD_CONTENT
                       ++ Rewriter.analytics_snippet (js "G-TEST")
                       ++ Rewriter.adsense_snippet (js "ca-pub-TEST")
                       ++ js "</head>" ++ SAMPLE_BODY |},
     [rewriter_call GET_ABOUT TEST_ENV]).
Proof. vm_compute. reflexivity. Qed.

Example prompt_worker_end_to_end :
  run (PromptWorker.fetch GET_ABOUT (prompt_worker_env (Some (js "k")))) (replies GENERATED)
  = (Return {| status := 200; content_type := Some TEXT_HTML; body := SAMPLE_HTML |},
     [prompt_worker_call GET_ABOUT (prompt_worker_env (Some (js "k")))]).
Proof. vm_compute. reflexivity. Qed.

Example standalone_end_to_end :
  run (Standalone.server never_positive (Some (js "k")) NODE_GET_ABOUT) (replies GENERATED)
  = (Return {| status := 200; content_type := Some TEXT_HTML; body := SAMPLE_HTML |},
     [standalone_call (Some (js "k")) NODE_GET_ABOUT]).
Proof. vm_compute. reflexivity. Qed.

(** Started without arguments and without the environment variable, the
    standalone server holds the empty key. *)
Example getApiKey_nothing_given :
  Standalone.getApiKey [js "node"; js "server.js"] None = Some [].
Proof. reflexivity. Qed.

Example getApiKey_spaced :
  Standalone.getApiKey [js "node"; js "server.js"; js "--apiKey"; js "abc"] (Some (js "env"))
  = Some (js "abc").
Proof. reflexivity. Qed.

(** The matcher on small inputs: the star is greedy and gives back what
    the rest of the pattern needs; alternatives are tried in order. *)
Example star_takes_all_spaces :
  Regex.match_at (Regex.Star Regex.Space) 0 (js "   x") = Some 3%nat.
Proof. reflexivity. Qed.

Example star_gives_back :
  Regex.match_at (Regex.Seq (Regex.Star Regex.Space) (Regex.Chr 32)) 0 (js "   x")
  = Some 3%nat.
Proof. reflexivity. Qed.

Example fences_only_closing :
  Regex.replace_all Sanitizer.FENCES (js "<p>```</p>```") = js "<p>```</p>".
Proof. reflexivity. Qed.

Example fences_tag_and_spaces :
  Regex.replace_all Sanitizer.FENCES (js "```html  <p>x</p>```") = js "<p>x</p>".
Proof. reflexivity. Qed.

Example fences_tag_not_at_start :
  Regex.replace_all Sanitizer.FENCES (js " ```html<p>") = js " ```html<p>".
Proof. reflexivity. Qed.

(** *** The sanitizer *)

(** C8: on the fenced block with real line feeds, the sanitizer of the
    rewriter worker and the one shared by the other two handlers both give
    exactly [FOO]. *)
Theorem sanitize_fenced_FOO :
  Sanitizer.sanitize_rewriter FENCED_FOO = js "FOO"
  /\ Sanitizer.sanitize_prompt FENCED_FOO = js "FOO".
Proof. split; reflexivity. Qed.

(** C5, as stated, fails: on a block whose opening fence is doubled, each
    sanitizer removes one layer per pass, so the second pass still changes
    the text. *)
Lemma sanitize_not_idempotent :
  Sanitizer.sanitize_rewriter (Sanitizer.sanitize_rewriter TWICE_FENCED_FOO)
    <> Sanitizer.sanitize_rewriter TWICE_FENCED_FOO
  /\ Sanitizer.sanitize_prompt (Sanitizer.sanitize_prompt TWICE_FENCED_FOO)
    <> Sanitizer.sanitize_prompt TWICE_FENCED_FOO.
Proof. split; vm_compute; discriminate. Qed.

(** C5, amended: a second pass changes nothing exactly when the first pass
    left no fence at either end; this holds for the sanitizer of the
    rewriter worker (opening line [```html] with its line feed, closing
    line feed with [```]) and for the one of the other two handlers (tag
    [```html], closing [```]). *)
Theorem sanitize_idempotent_iff (x : jsstring) :
  (Sanitizer.sanitize_rewriter (Sanitizer.sanitize_rewriter x) = Sanitizer.sanitize_rewriter x
   <-> JsString.startsWith (Sanitizer.FENCE_HTML ++ JsString.LF) (Sanitizer.sanitize_rewriter x) = false
       /\ JsString.endsWith (JsString.LF ++ Sanitizer.FENCE) (Sanitizer.sanitize_rewriter x) = false)
  /\
  (Sanitizer.sanitize_prompt (Sanitizer.sanitize_prompt x) = Sanitizer.sanitize_prompt x
   <-> JsString.startsWith Sanitizer.FENCE_HTML (Sanitizer.sanitize_prompt x) = false
       /\ JsString.endsWith Sanitizer.FENCE (Sanitizer.sanitize_prompt x) = false).
Proof.
  split.
  - apply SanitizerFacts.sanitize_rewriter_fixed.
  - apply SanitizerFacts.sanitize_prompt_fixed, SanitizerFacts.sanitize_prompt_trimmed.
Qed.

(** The fenced block of the specification is a place where the second pass
    is the identity. *)
Lemma sanitize_idempotent_iff_witness :
  Sanitizer.sanitize_rewriter (Sanitizer.sanitize_rewriter FENCED_FOO)
    = Sanitizer.sanitize_rewriter FENCED_FOO
  /\ Sanitizer.sanitize_prompt (Sanitizer.sanitize_prompt FENCED_FOO)
    = Sanitizer.sanitize_prompt FENCED_FOO.
Proof.
  destruct (sanitize_idempotent_iff FENCED_FOO) as [[_ A] [_ B]].
  split; [apply A | apply B]; split; reflexivity.
Defined.

(** *** Requests without a credential, favicon requests, upstream errors *)

(** C1, as stated, fails for the standalone server: with the empty key
    (the one it holds when started without arguments and without the
    environment variable) it still calls the generation endpoint. *)
Lemma missing_credential_standalone_calls :
  ~ refused 500
      (run (Standalone.server never_positive
              (Standalone.getApiKey [js "node"; js "server.js"] None) NODE_GET_ROOT)
         (replies UNAVAILABLE)).
Proof. intros [r [H _]]. vm_compute in H. discriminate H. Qed.

(** C1, amended: on a request other than the favicon, with the credential
    empty or absent, the two workers answer 500 without any outbound call;
    the standalone server makes the call all the same and answers 200. *)
Theorem missing_credential_response
    (tokenize : jsstring -> Rewriter.document)
    (coerced_positive : value -> outcome bool)
    (request : Js.request) (envA : Rewriter.Env) (envB : PromptWorker.Env)
    (apiKey : option jsstring) (req : Standalone.IncomingMessage) (net : network) :
  missing (Rewriter.GEMINI_API_KEY envA) = true ->
  missing (PromptWorker.GEMINI_API_KEY envB) = true ->
  missing apiKey = true ->
  pathname request <> FAVICON ->
  Standalone.url req <> FAVICON ->
  refused 500 (run (Rewriter.fetch tokenize request envA) net)
  /\ refused 500 (run (PromptWorker.fetch request envB) net)
  /\ called (standalone_call apiKey req) 200
       (run (Standalone.server coerced_positive apiKey req) net).
Proof.
  intros HA HB _ P U. repeat split.
  - eexists. split; [apply HandlerFacts.rewriter_unconfigured, HA | reflexivity].
  - eexists. split; [apply HandlerFacts.prompt_worker_unconfigured; assumption | reflexivity].
  - destruct (@HandlerFacts.standalone_always_200 coerced_positive apiKey req net U) as [h H].
    eexists. split; [exact H | reflexivity].
Qed.

Lemma missing_credential_response_witness :
  refused 500 (run (Rewriter.fetch no_head GET_ROOT (rewriter_env (Some []))) (replies UNAVAILABLE))
  /\ refused 500 (run (PromptWorker.fetch GET_ROOT (prompt_worker_env (Some []))) (replies UNAVAILABLE))
  /\ called (standalone_call (Some []) NODE_GET_ROOT) 200
       (run (Standalone.server never_positive (Some []) NODE_GET_ROOT) (replies UNAVAILABLE)).
Proof.
  apply (@missing_credential_response no_head never_positive GET_ROOT
           (rewriter_env (Some [])) (prompt_worker_env (Some [])) (Some []) NODE_GET_ROOT
           (replies UNAVAILABLE));
    first [ reflexivity | literals_differ ].
Defined.




(** C2, as stated, fails for the two handlers of [server.js]: on an
    upstream 503 the prompt worker answers 500 and the standalone server
    answers 200. *)
Lemma upstream_503_not_502 :
  ~ answered 502 (of_number 503)
      (run (PromptWorker.fetch GET_ROOT (prompt_worker_env (Some (js "k"))))
         (replies UNAVAILABLE))
  /\ ~ answered 502 (of_number 503)
         (run (Standalone.server never_positive (Some (js "k")) NODE_GET_ROOT)
            (replies UNAVAILABLE)).
Proof.
  split; intros (r & calls & H & Hs & _); vm_compute in H;
    injection H as <- _; vm_compute in Hs; discriminate Hs.
Qed.

(** C2, amended: when the generation endpoint replies with a non-success
    status, the body of the answer contains that status in every handler;
    the status of the answer is 502 in the rewriter worker, 500 in the
    prompt worker and 200 in the standalone server. *)
Theorem upstream_failure_response
    (tokenize : jsstring -> Rewriter.document)
    (coerced_positive : value -> outcome bool)
    (request : Js.request) (envA : Rewriter.Env) (envB : PromptWorker.Env)
    (apiKey : option jsstring) (req : Standalone.IncomingMessage)
    (net : network) (up : reply) :
  missing (Rewriter.GEMINI_API_KEY envA) = false ->
  missing (PromptWorker.GEMINI_API_KEY envB) = false ->
  pathname request <> FAVICON ->
  Standalone.url req <> FAVICON ->
  net (rewriter_call request envA) = Resolves up ->
  net (prompt_worker_call request envB) = Resolves up ->
  net (standalone_call apiKey req) = Resolves up ->
  ok up = false ->
  answered 502 (of_number (reply_status up)) (run (Rewriter.fetch tokenize request envA) net)
  /\ answered 500 (of_number (reply_status up)) (run (PromptWorker.fetch request envB) net)
  /\ answered 200 (of_number (reply_status up))
       (run (Standalone.server coerced_positive apiKey req) net).
Proof.
  intros HA HB P U NA NB NC Hok. repeat split.
  - do 2 eexists. split; [apply HandlerFacts.rewriter_upstream_failure; eassumption|].
    split; [reflexivity|]. cbn [body]. unfold Rewriter.UPSTREAM_FAILED. find_included.
  - do 2 eexists. split; [apply HandlerFacts.prompt_worker_upstream_failure; eassumption|].
    split; [reflexivity|]. cbn [body]. unfold PromptWorker.errorMessage, new_Error.
    cbn [message]. find_included.
  - do 2 eexists. split; [apply HandlerFacts.standalone_upstream_failure; eassumption|].
    split; [reflexivity|]. cbn [body]. unfold Standalone.error_page, new_Error.
    cbn [message]. find_included.
Qed.

Lemma upstream_failure_response_witness :
  answered 502 (of_number 503)
    (run (Rewriter.fetch no_head GET_ROOT (rewriter_env (Some (js "k")))) (replies UNAVAILABLE))
  /\ answered 500 (of_number 503)
       (run (PromptWorker.fetch GET_ROOT (prompt_worker_env (Some (js "k"))))
          (replies UNAVAILABLE))
  /\ answered 200 (of_number 503)
       (run (Standalone.server never_positive (Some (js "k")) NODE_GET_ROOT)
          (replies UNAVAILABLE)).
Proof.
  apply (@upstream_failure_response no_head never_positive GET_ROOT
           (rewriter_env (Some (js "k"))) (prompt_worker_env (Some (js "k")))
           (Some (js "k")) NODE_GET_ROOT (replies UNAVAILABLE) UNAVAILABLE);
    first [ reflexivity | literals_differ ].
Defined.

(** *** Success envelopes without a usable candidate *)

(** C6, as stated, fails for the standalone server: an envelope without
    [candidates] is answered 200, with a fallback page. *)
Lemma no_candidates_standalone_200 :
  ~ (exists text,
       answered 500 text
         (run (Standalone.server never_positive (Some (js "k")) NODE_GET_ROOT)
            (replies EMPTY_ENVELOPE))).
Proof.
  intros (text & r & calls & H & Hs & _). vm_compute in H.
  injection H as <- _. vm_compute in Hs. discriminate Hs.
Qed.

(** C6, amended: on a success envelope without [candidates], the rewriter
    worker answers 500 with the text "Received an unexpected response
    format from the AI model.", the prompt worker answers 500 with its
    error page around "Failed to get valid content from the AI. Check
    Worker logs for details.", and the standalone server answers 200 with
    its fallback page. *)
Theorem no_candidates_response
    (tokenize : jsstring -> Rewriter.document)
    (coerced_positive : value -> outcome bool)
    (request : Js.request) (envA : Rewriter.Env) (envB : PromptWorker.Env)
    (apiKey : option jsstring) (req : Standalone.IncomingMessage)
    (net : network) (up : reply) (result : value) :
  missing (Rewriter.GEMINI_API_KEY envA) = false ->
  missing (PromptWorker.GEMINI_API_KEY envB) = false ->
  pathname request <> FAVICON ->
  Standalone.url req <> FAVICON ->
  net (rewriter_call request envA) = Resolves up ->
  net (prompt_worker_call request envB) = Resolves up ->
  net (standalone_call apiKey req) = Resolves up ->
  ok up = true ->
  reply_json up = Return result ->
  get (Named (js "candidates")) result = Return VUndefined ->
  run (Rewriter.fetch tokenize request envA) net
  = (Return {| status := 500; content_type := None; body := Rewriter.UNEXPECTED_FORMAT |},
     [rewriter_call request envA])
  /\ run (PromptWorker.fetch request envB) net
     = (Return {| status := 500; content_type := Some TEXT_HTML;
                  body := PromptWorker.errorMessage (new_Error PromptWorker.NO_VALID_CONTENT) |},
        [prompt_worker_call request envB])
  /\ run (Standalone.server coerced_positive apiKey req) net
     = (Return {| status := 200; content_type := Some TEXT_HTML;
                  body := Standalone.FALLBACK_PAGE |},
        [standalone_call apiKey req]).
Proof.
  intros HA HB P U NA NB NC Hok Hj Hc. repeat split.
  - eapply HandlerFacts.rewriter_unexpected_format; try eassumption.
    + apply HandlerFacts.rewriter_test_undefined, Hc.
    + reflexivity.
  - eapply HandlerFacts.prompt_worker_no_valid_content; try eassumption.
    + apply HandlerFacts.prompt_worker_test_undefined, Hc.
    + reflexivity.
  - eapply HandlerFacts.standalone_fallback; try eassumption.
    + apply HandlerFacts.standalone_test_undefined, Hc.
    + reflexivity.
Qed.

Lemma no_candidates_response_witness :
  run (Rewriter.fetch no_head GET_ROOT (rewriter_env (Some (js "k")))) (replies EMPTY_ENVELOPE)
  = (Return {| status := 500; content_type := None; body := Rewriter.UNEXPECTED_FORMAT |},
     [rewriter_call GET_ROOT (rewriter_env (Some (js "k")))])
  /\ run (PromptWorker.fetch GET_ROOT (prompt_worker_env (Some (js "k"))))
       (replies EMPTY_ENVELOPE)
     = (Return {| status := 500; content_type := Some TEXT_HTML;
                  body := PromptWorker.errorMessage (new_Error PromptWorker.NO_VALID_CONTENT) |},
        [prompt_worker_call GET_ROOT (prompt_worker_env (Some (js "k")))])
  /\ run (Standalone.server never_positive (Some (js "k")) NODE_GET_ROOT)
       (replies EMPTY_ENVELOPE)
     = (Return {| status := 200; content_type := Some TEXT_HTML;
                  body := Standalone.FALLBACK_PAGE |},
        [standalone_call (Some (js "k")) NODE_GET_ROOT]).
Proof.
  apply (@no_candidates_response no_head never_positive GET_ROOT
           (rewriter_env (Some (js "k"))) (prompt_worker_env (Some (js "k")))
           (Some (js "k")) NODE_GET_ROOT (replies EMPTY_ENVELOPE) EMPTY_ENVELOPE
           (VObj []));
    first [ reflexivity | literals_differ ].
Defined.

(** C10: in the rewriter worker, a success envelope whose [candidates] is
    an empty array makes the test of step 5 throw a [TypeError] on the read
    of [content]; the [catch] block turns it into the 500 answer with the
    generic text "An internal error occurred while processing the
    request.", which is not the unexpected-format text. *)
Theorem empty_candidates_internal_error
    (tokenize : jsstring -> Rewriter.document)
    (request : Js.request) (env : Rewriter.Env) (net : network)
    (up : reply) (result : value) :
  missing (Rewriter.GEMINI_API_KEY env) = false ->
  pathname request <> FAVICON ->
  net (rewriter_call request env) = Resolves up ->
  ok up = true ->
  reply_json up = Return result ->
  get (Named (js "candidates")) result = Return (VArr []) ->
  (exists e, Rewriter.has_text result = Throw e
             /\ name e = TypeError
             /\ message e = js "Cannot read properties of undefined (reading 'content')")
  /\ run (Rewriter.fetch tokenize request env) net
     = (Return {| status := 500; content_type := Some TEXT_HTML;
                  body := Rewriter.INTERNAL_ERROR |},
        [rewriter_call request env])
  /\ Rewriter.INTERNAL_ERROR <> Rewriter.UNEXPECTED_FORMAT.
Proof.
  intros HA P NA Hok Hj Hc.
  pose proof (HandlerFacts.rewriter_test_empty_candidates result Hc) as Ht.
  repeat split.
  - eexists. split; [exact Ht|]. split; reflexivity.
  - eapply HandlerFacts.rewriter_extraction_throws; eassumption.
  - literals_differ.
Qed.

Lemma empty_candidates_internal_error_witness :
  (exists e, Rewriter.has_text NO_CANDIDATE = Throw e
             /\ name e = TypeError
             /\ message e = js "Cannot read properties of undefined (reading 'content')")
  /\ run (Rewriter.fetch no_head GET_ROOT (rewriter_env (Some (js "k"))))
       (replies EMPTY_CANDIDATES)
     = (Return {| status := 500; content_type := Some TEXT_HTML;
                  body := Rewriter.INTERNAL_ERROR |},
        [rewriter_call GET_ROOT (rewriter_env (Some (js "k")))])
  /\ Rewriter.INTERNAL_ERROR <> Rewriter.UNEXPECTED_FORMAT.
Proof.
  apply (@empty_candidates_internal_error no_head GET_ROOT (rewriter_env (Some (js "k")))
           (replies EMPTY_CANDIDATES) EMPTY_CANDIDATES NO_CANDIDATE);
    first [ reflexivity | literals_differ ].
Defined.

(** *** Markup injection *)

(** C4, as stated, fails for the prompt worker: with both identifiers
    absent its prompt still carries the three script tags of the two
    snippets, written with placeholder identifiers. *)
Lemma prompt_snippets_without_ids :
  occurrences (js "<script")
    (PromptWorker.build_prompt (js "GET") (js "/") (js "Unknown") (prompt_worker_env None))
  <> 0%nat.
Proof. vm_compute. discriminate. Qed.

(** C4, amended: with both identifiers absent (or empty) the structural
    injector appends nothing to any element and returns every document
    unchanged; the prompt worker does not fail either, but it writes both
    snippets into its prompt with the placeholder identifiers
    [ca-pub-XXXXXXXXXXXXXXXX] and [G-XXXXXXXXXX]. *)
Theorem injection_without_ids
    (envA : Rewriter.Env) (doc : Rewriter.document) (el : Rewriter.Element)
    (envB : PromptWorker.Env) (method path userAgent : jsstring) :
  missing (Rewriter.GA_MEASUREMENT_ID envA) = true ->
  missing (Rewriter.ADSENSE_CLIENT_ID envA) = true ->
  missing (PromptWorker.GOOGLE_ADSENSE_ID envB) = true ->
  missing (PromptWorker.GOOGLE_ANALYTICS_ID envB) = true ->
  Rewriter.appended (Rewriter.element envA el) = Rewriter.appended el
  /\ Rewriter.inject envA doc = Rewriter.serialize doc
  /\ includes (PromptWorker.adSenseCode PromptWorker.ADSENSE_PLACEHOLDER)
       (PromptWorker.build_prompt method path userAgent envB) = true
  /\ includes (PromptWorker.analyticsCode PromptWorker.ANALYTICS_PLACEHOLDER)
       (PromptWorker.build_prompt method path userAgent envB) = true.
Proof.
  intros HA1 HA2 HB1 HB2. repeat split.
  - now rewrite InjectorFacts.element_unconfigured.
  - apply InjectorFacts.transform_untouched. intros e.
    now apply InjectorFacts.element_unconfigured.
  - unfold PromptWorker.build_prompt.
    rewrite !InjectorFacts.or_default_missing by assumption. cbv zeta. find_included.
  - unfold PromptWorker.build_prompt.
    rewrite !InjectorFacts.or_default_missing by assumption. cbv zeta. find_included.
Qed.

Lemma injection_without_ids_witness :
  Rewriter.appended (Rewriter.element (rewriter_env (Some (js "k")))
                       (matched (js "<head>") [] (js "</head>"))) = []
  /\ Rewriter.inject (rewriter_env (Some (js "k"))) SAMPLE_DOCUMENT
     = Rewriter.serialize SAMPLE_DOCUMENT
  /\ includes (PromptWorker.adSenseCode PromptWorker.ADSENSE_PLACEHOLDER)
       (PromptWorker.build_prompt (js "GET") (js "/") (js "Unknown") (prompt_worker_env None))
     = true
  /\ includes (PromptWorker.analyticsCode PromptWorker.ANALYTICS_PLACEHOLDER)
       (PromptWorker.build_prompt (js "GET") (js "/") (js "Unknown") (prompt_worker_env None))
     = true.
Proof.
  apply (@injection_without_ids (rewriter_env (Some (js "k"))) SAMPLE_DOCUMENT
           (matched (js "<head>") [] (js "</head>")) (prompt_worker_env None)
           (js "GET") (js "/") (js "Unknown")); reflexivity.
Defined.




(** *** The key given on the command line *)

(** C9: when the first argument that starts with [--apiKey=] or [--key=]
    is the flag followed by [K], [getApiKey] returns the part of [K] before
    its first equals sign: all of [K] when [K] has none, and a strict
    prefix of [K] when it has one. *)
Theorem getApiKey_assignment
    (node script : jsstring) (skipped rest : list jsstring)
    (flag K : jsstring) (env_key : option jsstring) :
  flag = js "--apiKey=" \/ flag = js "--key=" ->
  forallb not_assignment skipped = true ->
  Standalone.getApiKey (node :: script :: skipped ++ (flag ++ K) :: rest) env_key
  = Some (before_first Standalone.EQUALS K)
  /\ (~ In Standalone.EQUALS K -> before_first Standalone.EQUALS K = K)
  /\ (In Standalone.EQUALS K ->
      exists dropped,
        K = before_first Standalone.EQUALS K ++ Standalone.EQUALS :: dropped).
Proof.
  intros Hflag Hskip.
  destruct (ArgumentFacts.flag_shape Hflag) as (c & name & Eflag & Hname & Hkey).
  split; [|split].
  - assert (F : find Standalone.is_key_assignment
                  (skipn 2 (node :: script :: skipped ++ (flag ++ K) :: rest))
                = Some (flag ++ K)).
    { cbn [skipn]. apply ArgumentFacts.find_first; [exact Hskip | apply Hkey]. }
    assert (E : flag ++ K = (c :: name) ++ Standalone.EQUALS :: K).
    { rewrite Eflag, <- app_assoc. reflexivity. }
    rewrite E in F |- *. cbn [app] in F |- *.
    rewrite (@ArgumentFacts.getApiKey_assignment_found _ env_key _ _ F).
    change (c :: name ++ Standalone.EQUALS :: K)
      with ((c :: name) ++ Standalone.EQUALS :: K).
    rewrite (@ArgumentFacts.split_after Standalone.EQUALS (c :: name) K Hname).
    cbn [nth_error].
    destruct (ArgumentFacts.split_head Standalone.EQUALS K) as [tl ->]. reflexivity.
  - apply ArgumentFacts.before_first_absent.
  - apply ArgumentFacts.before_first_present.
Qed.

(** With [--apiKey=abc=def] the key is cut at the second equals sign. *)
Lemma getApiKey_assignment_witness :
  Standalone.getApiKey [js "node"; js "server.js"; js "--port"; js "--apiKey=abc=def"] None
  = Some (js "abc")
  /\ before_first Standalone.EQUALS (js "abc=def") <> js "abc=def".
Proof.
  destruct (@getApiKey_assignment (js "node") (js "server.js") [js "--port"] []
              (js "--apiKey=") (js "abc=def") None (or_introl eq_refl) eq_refl)
    as (A & _ & _).
  split; [|literals_differ].
  etransitivity; [|etransitivity; [exact A|]]; reflexivity.
Defined.

(* ===================================================================== *)
(** ** Further properties: the sanitizers *)
(* ===================================================================== *)

Module MoreStringFacts.
Import StringFacts.

Lemma part_of_refl (s : jsstring) : part_of s s.
Proof. exists [], []. now rewrite app_nil_r. Qed.

Lemma part_of_trans (a b c : jsstring) : part_of a b -> part_of b c -> part_of a c.
Proof.
  intros (x & y & ->) (u & v & ->). exists (u ++ x), (y ++ v).
  now rewrite <- !app_assoc.
Qed.

Lemma without_prefix_part (p s : jsstring) : part_of (without_prefix p s) s.
Proof.
  unfold without_prefix. destruct (after_prefix p s) as [r|] eqn:E.
  - apply after_prefix_spec in E. exists p, []. now rewrite app_nil_r.
  - apply part_of_refl.
Qed.

Lemma without_suffix_part (p s : jsstring) : part_of (without_suffix p s) s.
Proof.
  unfold without_suffix. destruct (before_suffix p s) as [r|] eqn:E.
  - apply before_suffix_spec in E. now exists [], p.
  - apply part_of_refl.
Qed.

Lemma drop_spaces_part (s : jsstring) : part_of (drop_spaces s) s.
Proof.
  destruct (drop_spaces_split s) as [a E]. exists a, []. now rewrite app_nil_r.
Qed.

Lemma trim_part (s : jsstring) : part_of (trim s) s.
Proof.
  unfold trim, trimStart. apply part_of_trans with (drop_spaces s).
  - destruct (trimEnd_split (drop_spaces s)) as [a E]. now exists [], a.
  - apply drop_spaces_part.
Qed.

Lemma part_of_length (t s : jsstring) :
  part_of t s -> (List.length t <= List.length s)%nat.
Proof. intros (a & b & ->). rewrite !length_app. lia. Qed.

(** Dropping spaces stops at the first unit that is not one. *)
Lemma drop_spaces_app (a : jsstring) (c : code_unit) (b : jsstring) :
  is_space c = false -> drop_spaces (a ++ c :: b) = drop_spaces a ++ c :: b.
Proof.
  intros Hc. induction a as [|x a IH]; cbn [app drop_spaces].
  - now rewrite Hc.
  - destruct (is_space x); [exact IH | reflexivity].
Qed.

Lemma trimEnd_app (a : jsstring) (c : code_unit) (b : jsstring) :
  is_space c = false -> trimEnd (a ++ c :: b) = a ++ c :: trimEnd b.
Proof.
  intros Hc. unfold trimEnd. rewrite rev_app_distr. cbn [rev]. rewrite <- app_assoc.
  cbn [app]. rewrite (@drop_spaces_app (rev b) c (rev a) Hc).
  rewrite rev_app_distr. cbn [rev]. rewrite rev_involutive, <- app_assoc. reflexivity.
Qed.

(** A suffix that ends with another unit than the string does not end it. *)
Lemma before_suffix_last (p x : jsstring) (c d : code_unit) :
  c <> d -> before_suffix (p ++ [c]) (x ++ [d]) = None.
Proof.
  intros Hne. destruct (before_suffix (p ++ [c]) (x ++ [d])) as [b|] eqn:E; [|reflexivity].
  apply before_suffix_spec in E. rewrite app_assoc in E.
  apply app_inj_tail in E as [_ E]. congruence.
Qed.

Lemma without_suffix_last (p x : jsstring) (c d : code_unit) :
  c <> d -> without_suffix (p ++ [c]) (x ++ [d]) = x ++ [d].
Proof. intros H. unfold without_suffix. now rewrite (@before_suffix_last p x c d H). Qed.

End MoreStringFacts.

(** X1: the sanitizer of the rewriter worker removes an opening
    [```html] line at the very start and a closing [```] line at the very
    end, and nothing else; the sanitizer of [server.js] removes the tag
    [```html] at the very start with the spaces after it and a fence at the
    very end, then trims. *)
Theorem sanitize_closed_form (s : jsstring) :
  Sanitizer.sanitize_rewriter s
  = without_suffix (LF ++ Sanitizer.FENCE)
      (without_prefix (Sanitizer.FENCE_HTML ++ LF) s)
  /\ Sanitizer.sanitize_prompt s
     = trim (match after_prefix Sanitizer.FENCE_HTML s with
             | Some rest => without_suffix Sanitizer.FENCE (drop_spaces rest)
             | None => without_suffix Sanitizer.FENCE s
             end).
Proof.
  split.
  - apply SanitizerFacts.sanitize_rewriter_closed.
  - apply SanitizerFacts.sanitize_prompt_closed.
Qed.

(** X2: what a sanitizer returns is a run of consecutive units of its
    input: it only cuts at the two ends, and never adds or reorders text. *)
Theorem sanitize_part_of_input (s : jsstring) :
  part_of (Sanitizer.sanitize_rewriter s) s /\ part_of (Sanitizer.sanitize_prompt s) s.
Proof.
  split.
  - rewrite SanitizerFacts.sanitize_rewriter_closed. unfold unfenced_lines.
    eapply MoreStringFacts.part_of_trans;
      [apply MoreStringFacts.without_suffix_part | apply MoreStringFacts.without_prefix_part].
  - rewrite SanitizerFacts.sanitize_prompt_closed.
    eapply MoreStringFacts.part_of_trans; [apply MoreStringFacts.trim_part|].
    unfold unfenced. destruct (after_prefix Sanitizer.FENCE_HTML s) as [r|] eqn:E.
    + eapply MoreStringFacts.part_of_trans; [apply MoreStringFacts.without_suffix_part|].
      eapply MoreStringFacts.part_of_trans; [apply MoreStringFacts.drop_spaces_part|].
      apply StringFacts.after_prefix_spec in E. exists Sanitizer.FENCE_HTML, [].
      now rewrite app_nil_r.
    + apply MoreStringFacts.without_suffix_part.
Qed.

(** X3: the text returned by the sanitizer of [server.js] neither begins
    nor ends with a space or a line terminator. *)
Theorem sanitize_prompt_no_outer_space (s : jsstring) :
  no_leading_space (Sanitizer.sanitize_prompt s)
  /\ no_trailing_space (Sanitizer.sanitize_prompt s).
Proof.
  unfold Sanitizer.sanitize_prompt, trim, trimStart. split.
  - apply StringFacts.trimEnd_head, StringFacts.drop_spaces_head.
  - unfold no_trailing_space, trimEnd. rewrite rev_involutive.
    apply StringFacts.drop_spaces_head.
Qed.

(** X4: a line feed after the closing fence keeps the closing fence in
    place, in both sanitizers: [$] is the end of the input, and [trim]
    comes after the replacement.  Only the opening line is removed. *)
Theorem sanitize_keeps_fence_before_line_feed (body : jsstring) :
  Sanitizer.sanitize_rewriter
    (Sanitizer.FENCE_HTML ++ LF ++ body ++ LF ++ Sanitizer.FENCE ++ LF)
  = body ++ LF ++ Sanitizer.FENCE ++ LF
  /\ Sanitizer.sanitize_prompt
       (Sanitizer.FENCE_HTML ++ LF ++ body ++ LF ++ Sanitizer.FENCE ++ LF)
     = trimStart (body ++ LF) ++ Sanitizer.FENCE.
Proof.
  assert (tick : is_space 96 = false) by reflexivity.
  assert (ne : (96 : code_unit) <> 10) by discriminate.
  split.
  - rewrite SanitizerFacts.sanitize_rewriter_closed. unfold unfenced_lines, without_prefix.
    rewrite (app_assoc Sanitizer.FENCE_HTML LF), StringFacts.after_prefix_app.
    change (LF ++ Sanitizer.FENCE) with ((LF ++ js "``") ++ [96]).
    rewrite (app_assoc body), (app_assoc (body ++ LF)).
    apply (@MoreStringFacts.without_suffix_last _ _ 96 10 ne).
  - rewrite SanitizerFacts.sanitize_prompt_closed. unfold unfenced.
    rewrite StringFacts.after_prefix_app.
    change (drop_spaces (LF ++ body ++ LF ++ Sanitizer.FENCE ++ LF))
      with (drop_spaces (body ++ LF ++ Sanitizer.FENCE ++ LF)).
    rewrite (app_assoc body).
    change (Sanitizer.FENCE ++ LF) with (96 :: (js "``" ++ LF)).
    rewrite (@MoreStringFacts.drop_spaces_app (body ++ LF) 96 _ tick).
    set (D := drop_spaces (body ++ LF)).
    change (D ++ 96 :: js "``" ++ LF) with (D ++ (js "```" ++ [10])).
    rewrite app_assoc.
    change Sanitizer.FENCE with (js "``" ++ [96]) at 1.
    rewrite (@MoreStringFacts.without_suffix_last _ _ 96 10 ne).
    unfold trim, trimStart. rewrite <- app_assoc.
    change (js "```" ++ [10]) with (96 :: (js "``" ++ [10])).
    rewrite (@MoreStringFacts.drop_spaces_app D 96 _ tick).
    unfold D at 1.
    rewrite (@StringFacts.drop_spaces_fixed _ (StringFacts.drop_spaces_head (body ++ LF))).
    fold D.
    rewrite (@MoreStringFacts.trimEnd_app D 96 _ tick).
    change (trimEnd (js "``" ++ [10])) with (js "``").
    reflexivity.
Qed.

(* ===================================================================== *)
(** ** Further properties: the handlers *)
(* ===================================================================== *)

Module MoreHandlerFacts.
Import StringFacts.

(** The documented envelope passes the three tests when its text is not
    empty, and the text is read back from it. *)
Lemma envelope_text (v : value) : path (envelope v) Rewriter.TEXT = Return v.
Proof. reflexivity. Qed.

Lemma rewriter_test_envelope (v : value) : Rewriter.has_text (envelope v) = Return v.
Proof. reflexivity. Qed.

Lemma prompt_worker_test_envelope (v : value) :
  and_then (path (envelope v) Rewriter.CANDIDATES) (PromptWorker.first_text (envelope v))
  = Return v.
Proof. reflexivity. Qed.

Lemma standalone_test_envelope (coerced_positive : value -> outcome bool) (v : value) :
  Standalone.has_parts coerced_positive (envelope v) = Return (VBool true).
Proof. reflexivity. Qed.

Section Rewriter.
Variable tokenize : jsstring -> Rewriter.document.
Variables (request : Js.request) (env : Rewriter.Env) (net : network).
Hypothesis configured : missing (Rewriter.GEMINI_API_KEY env) = false.
Hypothesis page : pathname request <> FAVICON.

Lemma rewriter_rejected (e : error) :
  net (rewriter_call request env) = Rejects e ->
  run (Rewriter.fetch tokenize request env) net
  = (Return {| status := 500; content_type := Some TEXT_HTML;
               body := Rewriter.INTERNAL_ERROR |},
     [rewriter_call request env]).
Proof.
  intros Hn. rewrite HandlerFacts.rewriter_generates by assumption.
  HandlerFacts.run_handler. fold (rewriter_call request env).
  rewrite Hn. reflexivity.
Qed.

Variable up : reply.
Hypothesis replied : net (rewriter_call request env) = Resolves up.
Hypothesis success : ok up = true.

Lemma rewriter_invalid_json (e : error) :
  reply_json up = Throw e ->
  run (Rewriter.fetch tokenize request env) net
  = (Return {| status := 500; content_type := Some TEXT_HTML;
               body := Rewriter.INTERNAL_ERROR |},
     [rewriter_call request env]).
Proof.
  intros Hj. rewrite HandlerFacts.rewriter_generates by assumption.
  HandlerFacts.run_handler. fold (rewriter_call request env).
  rewrite replied. cbv beta iota. rewrite success. cbv beta iota delta [negb].
  rewrite Hj. reflexivity.
Qed.

Lemma rewriter_generated (result test : value) (text : jsstring) :
  reply_json up = Return result ->
  Rewriter.has_text result = Return test ->
  truthy test = true ->
  path result Rewriter.TEXT = Return (VStr text) ->
  run (Rewriter.fetch tokenize request env) net
  = (Return {| status := 200; content_type := Some TEXT_HTML;
               body := Rewriter.inject env (tokenize (Sanitizer.sanitize_rewriter text)) |},
     [rewriter_call request env]).
Proof.
  intros Hj Ht Hy Hp. rewrite HandlerFacts.rewriter_generates by assumption.
  HandlerFacts.run_handler. fold (rewriter_call request env).
  rewrite replied. cbv beta iota. rewrite success. cbv beta iota delta [negb].
  rewrite Hj, Ht. cbv beta iota. rewrite Hy, Hp. reflexivity.
Qed.

End Rewriter.

(** Whatever the network does, the [try] block with its [catch] resolves
    after one call. *)
Lemma rewriter_generate_total (tokenize : jsstring -> Rewriter.document)
      (env : Rewriter.Env) (prompt : jsstring) (net : network) :
  exists r,
    try_catch (Rewriter.generate tokenize env prompt) Rewriter.on_error net []
    = (Return r,
       [generation_call (interpolate (Rewriter.GEMINI_API_KEY env)) prompt])
    /\ (status r = 200 \/ status r = 500 \/ status r = 502).
Proof.
  HandlerFacts.run_handler.
  destruct (net (generation_call (interpolate (Rewriter.GEMINI_API_KEY env)) prompt))
    as [e|up]; [eexists; split; [reflexivity | cbn [status]; auto]|].
  destruct (ok up); cbv beta iota delta [negb];
    [|eexists; split; [reflexivity | cbn [status]; auto]].
  destruct (reply_json up) as [result|e];
    [|eexists; split; [reflexivity | cbn [status]; auto]].
  destruct (Rewriter.has_text result) as [test|e];
    [|eexists; split; [reflexivity | cbn [status]; auto]].
  destruct (truthy test); cbv beta iota;
    [|eexists; split; [reflexivity | cbn [status]; auto]].
  destruct (path result Rewriter.TEXT) as [text|e];
    [|eexists; split; [reflexivity | cbn [status]; auto]].
  destruct (string_method (js "htmlContent") (js "replace") text);
    eexists; (split; [reflexivity | cbn [status]; auto]).
Qed.

Lemma rewriter_generate_total_at (tokenize : jsstring -> Rewriter.document)
      (request : Js.request) (env : Rewriter.Env) (net : network) :
  exists r,
    run (try_catch
           (Rewriter.generate tokenize env
              (Rewriter.build_prompt (method request) (pathname request)
                 (or_default (user_agent request) (js "unknown"))))
           Rewriter.on_error) net
    = (Return r, [rewriter_call request env])
    /\ (status r = 200 \/ status r = 500 \/ status r = 502).
Proof. apply rewriter_generate_total. Qed.

Section PromptWorker.
Variables (request : Js.request) (env : PromptWorker.Env) (net : network).
Hypothesis configured : missing (PromptWorker.GEMINI_API_KEY env) = false.
Hypothesis page : pathname request <> FAVICON.

Lemma prompt_worker_rejected (e : error) :
  net (prompt_worker_call request env) = Rejects e ->
  run (PromptWorker.fetch request env) net
  = (Return {| status := 500; content_type := Some TEXT_HTML;
               body := PromptWorker.errorMessage e |},
     [prompt_worker_call request env]).
Proof.
  intros Hn. rewrite HandlerFacts.prompt_worker_generates by assumption.
  HandlerFacts.run_handler. rewrite configured. cbv beta iota.
  fold (prompt_worker_call request env). rewrite Hn. reflexivity.
Qed.

Variable up : reply.
Hypothesis replied : net (prompt_worker_call request env) = Resolves up.
Hypothesis success : ok up = true.

Lemma prompt_worker_invalid_json (e : error) :
  reply_json up = Throw e ->
  run (PromptWorker.fetch request env) net
  = (Return {| status := 500; content_type := Some TEXT_HTML;
               body := PromptWorker.errorMessage e |},
     [prompt_worker_call request env]).
Proof.
  intros Hj. rewrite HandlerFacts.prompt_worker_generates by assumption.
  HandlerFacts.run_handler. rewrite configured. cbv beta iota.
  fold (prompt_worker_call request env).
  rewrite replied. cbv beta iota. rewrite success. cbv beta iota delta [negb].
  rewrite Hj. reflexivity.
Qed.

Lemma prompt_worker_generated (result test : value) (text : jsstring) :
  reply_json up = Return result ->
  and_then (path result Rewriter.CANDIDATES) (PromptWorker.first_text result)
  = Return test ->
  truthy test = true ->
  path result Rewriter.TEXT = Return (VStr text) ->
  run (PromptWorker.fetch request env) net
  = (Return {| status := 200; content_type := Some TEXT_HTML;
               body := Sanitizer.sanitize_prompt text |},
     [prompt_worker_call request env]).
Proof.
  intros Hj Ht Hy Hp. rewrite HandlerFacts.prompt_worker_generates by assumption.
  HandlerFacts.run_handler. rewrite configured. cbv beta iota.
  fold (prompt_worker_call request env).
  rewrite replied. cbv beta iota. rewrite success. cbv beta iota delta [negb].
  rewrite Hj, Ht. cbv beta iota. rewrite Hy, Hp. reflexivity.
Qed.

End PromptWorker.

(** The worker of [server.js] past its favicon test: one call when the
    key is there, none when it is not, and an answer in every case. *)
Lemma prompt_worker_generate_total (request : Js.request) (env : PromptWorker.Env)
      (net : network) :
  exists r calls,
    try_catch
      (bind (PromptWorker.generateHtmlWithAI (method request) (pathname request)
               (or_default (user_agent request) (js "Unknown")) env)
         (fun htmlContent =>
            ret {| status := 200; content_type := Some TEXT_HTML; body := htmlContent |}))
      (fun e => ret {| status := 500; content_type := Some TEXT_HTML;
                       body := PromptWorker.errorMessage e |}) net []
    = (Return r, calls)
    /\ (status r = 200 \/ status r = 500)
    /\ calls = (if missing (PromptWorker.GEMINI_API_KEY env) then []
                else [prompt_worker_call request env]).
Proof.
  HandlerFacts.run_handler.
  destruct (missing (PromptWorker.GEMINI_API_KEY env)); cbv beta iota;
    [do 2 eexists; split; [reflexivity | split; [cbn [status]; auto | reflexivity]]|].
  fold (prompt_worker_call request env).
  destruct (net (prompt_worker_call request env)) as [e|up];
    [do 2 eexists; split; [reflexivity | split; [cbn [status]; auto | reflexivity]]|].
  destruct (ok up); cbv beta iota delta [negb];
    [|do 2 eexists; split; [reflexivity | split; [cbn [status]; auto | reflexivity]]].
  destruct (reply_json up) as [result|e];
    [|do 2 eexists; split; [reflexivity | split; [cbn [status]; auto | reflexivity]]].
  destruct (and_then (path result Rewriter.CANDIDATES) (PromptWorker.first_text result))
    as [test|e];
    [|do 2 eexists; split; [reflexivity | split; [cbn [status]; auto | reflexivity]]].
  destruct (truthy test); cbv beta iota;
    [|do 2 eexists; split; [reflexivity | split; [cbn [status]; auto | reflexivity]]].
  destruct (path result Rewriter.TEXT) as [text|e];
    [|do 2 eexists; split; [reflexivity | split; [cbn [status]; auto | reflexivity]]].
  destruct (string_method (js "htmlContent") (js "replace") text);
    do 2 eexists; (split; [reflexivity | split; [cbn [status]; auto | reflexivity]]).
Qed.

Section Standalone.
Variable coerced_positive : value -> outcome bool.
Variables (apiKey : option jsstring) (req : Standalone.IncomingMessage) (net : network).
Hypothesis page : Standalone.url req <> FAVICON.

Lemma standalone_rejected (e : error) :
  net (standalone_call apiKey req) = Rejects e ->
  run (Standalone.server coerced_positive apiKey req) net
  = (Return {| status := 200; content_type := Some TEXT_HTML;
               body := Standalone.error_page e |},
     [standalone_call apiKey req]).
Proof.
  intros Hn. apply HandlerFacts.standalone_serves; [assumption|].
  HandlerFacts.run_handler. fold (standalone_call apiKey req).
  rewrite Hn. reflexivity.
Qed.

Variable up : reply.
Hypothesis replied : net (standalone_call apiKey req) = Resolves up.
Hypothesis success : ok up = true.

Lemma standalone_invalid_json (e : error) :
  reply_json up = Throw e ->
  run (Standalone.server coerced_positive apiKey req) net
  = (Return {| status := 200; content_type := Some TEXT_HTML;
               body := Standalone.error_page e |},
     [standalone_call apiKey req]).
Proof.
  intros Hj. apply HandlerFacts.standalone_serves; [assumption|].
  HandlerFacts.run_handler. fold (standalone_call apiKey req).
  rewrite replied. cbv beta iota. rewrite success. cbv beta iota delta [negb].
  rewrite Hj. reflexivity.
Qed.

Lemma standalone_generated (result test : value) (text : jsstring) :
  reply_json up = Return result ->
  Standalone.has_parts coerced_positive result = Return test ->
  truthy test = true ->
  path result Rewriter.TEXT = Return (VStr text) ->
  run (Standalone.server coerced_positive apiKey req) net
  = (Return {| status := 200; content_type := Some TEXT_HTML;
               body := Sanitizer.sanitize_prompt text |},
     [standalone_call apiKey req]).
Proof.
  intros Hj Ht Hy Hp. apply HandlerFacts.standalone_serves; [assumption|].
  HandlerFacts.run_handler. fold (standalone_call apiKey req).
  rewrite replied. cbv beta iota. rewrite success. cbv beta iota delta [negb].
  rewrite Hj, Ht. cbv beta iota. rewrite Hy, Hp. reflexivity.
Qed.

End Standalone.

End MoreHandlerFacts.

Lemma FAVICON_dec (s : jsstring) : {s = FAVICON} + {s <> FAVICON}.
Proof. apply (list_eq_dec N.eq_dec). Defined.

(** X5: the rewriter worker answers every request, whatever the network
    does and whatever the envelope holds: nothing escapes as an exception,
    the status is 200, 204, 500 or 502, and the generation endpoint is
    called exactly once when the credential is configured and the path is
    not the favicon, and never otherwise. *)
Theorem rewriter_always_answers
    (tokenize : jsstring -> Rewriter.document)
    (request : Js.request) (env : Rewriter.Env) (net : network) :
  exists r calls,
    run (Rewriter.fetch tokenize request env) net = (Return r, calls)
    /\ (status r = 200 \/ status r = 204 \/ status r = 500 \/ status r = 502)
    /\ ((calls = []
         /\ (missing (Rewriter.GEMINI_API_KEY env) = true \/ pathname request = FAVICON))
        \/ (calls = [rewriter_call request env]
            /\ missing (Rewriter.GEMINI_API_KEY env) = false
            /\ pathname request <> FAVICON)).
Proof.
  destruct (missing (Rewriter.GEMINI_API_KEY env)) eqn:K.
  - do 2 eexists. split; [apply HandlerFacts.rewriter_unconfigured, K|].
    cbn [status]. auto 6.
  - destruct (FAVICON_dec (pathname request)) as [P|P].
    + do 2 eexists. split; [apply HandlerFacts.rewriter_favicon; assumption|].
      cbn [status]. auto 6.
    + destruct (MoreHandlerFacts.rewriter_generate_total_at tokenize request env net)
        as (r & H & S).
      exists r, [rewriter_call request env].
      split; [rewrite HandlerFacts.rewriter_generates by assumption; exact H|].
      split; [tauto | right; auto].
Qed.

(** X6: the worker of [server.js] answers every request as well: the
    status is 200, 204 or 500, and the generation endpoint is called
    exactly once when the path is not the favicon and the credential is
    configured, and never otherwise. *)
Theorem prompt_worker_always_answers
    (request : Js.request) (env : PromptWorker.Env) (net : network) :
  exists r calls,
    run (PromptWorker.fetch request env) net = (Return r, calls)
    /\ (status r = 200 \/ status r = 204 \/ status r = 500)
    /\ ((calls = []
         /\ (pathname request = FAVICON \/ missing (PromptWorker.GEMINI_API_KEY env) = true))
        \/ (calls = [prompt_worker_call request env]
            /\ pathname request <> FAVICON
            /\ missing (PromptWorker.GEMINI_API_KEY env) = false)).
Proof.
  destruct (FAVICON_dec (pathname request)) as [P|P].
  - do 2 eexists. split; [apply HandlerFacts.prompt_worker_favicon; assumption|].
    cbn [status]. auto 6.
  - destruct (MoreHandlerFacts.prompt_worker_generate_total request env net)
      as (r & calls & H & S & C).
    exists r, calls.
    split; [rewrite HandlerFacts.prompt_worker_generates by assumption; exact H|].
    split; [tauto|].
    destruct (missing (PromptWorker.GEMINI_API_KEY env)); [left | right]; auto.
Qed.

(** X7: the standalone server answers the favicon request with 204 and no
    call, and every other request target (a favicon path with a query
    string included) with 200 and [text/html] after exactly one call,
    whatever the key and whatever the network does: the 500 of the
    listener's own [catch] block is never sent. *)
Theorem standalone_always_answers
    (coerced_positive : value -> outcome bool)
    (apiKey : option jsstring) (req : Standalone.IncomingMessage) (net : network) :
  exists r calls,
    run (Standalone.server coerced_positive apiKey req) net = (Return r, calls)
    /\ ((Standalone.url req = FAVICON /\ status r = 204 /\ calls = [])
        \/ (Standalone.url req <> FAVICON
            /\ status r = 200 /\ content_type r = Some TEXT_HTML
            /\ calls = [standalone_call apiKey req])).
Proof.
  destruct (FAVICON_dec (Standalone.url req)) as [P|P].
  - do 2 eexists. split; [apply HandlerFacts.standalone_favicon; assumption|].
    left. auto.
  - destruct (@HandlerFacts.standalone_always_200 coerced_positive apiKey req net P)
      as [h H].
    do 2 eexists. split; [exact H|]. right. auto.
Qed.

(** X8: when the endpoint replies 2xx with the documented envelope around
    a non-empty text, every handler answers 200 with [text/html;
    charset=utf-8] after one call; the body is the sanitized text, which
    the rewriter worker passes through the injector. *)
Theorem generated_page_response
    (tokenize : jsstring -> Rewriter.document)
    (coerced_positive : value -> outcome bool)
    (request : Js.request) (envA : Rewriter.Env) (envB : PromptWorker.Env)
    (apiKey : option jsstring) (req : Standalone.IncomingMessage)
    (net : network) (up : reply) (text : jsstring) :
  missing (Rewriter.GEMINI_API_KEY envA) = false ->
  missing (PromptWorker.GEMINI_API_KEY envB) = false ->
  pathname request <> FAVICON ->
  Standalone.url req <> FAVICON ->
  net (rewriter_call request envA) = Resolves up ->
  net (prompt_worker_call request envB) = Resolves up ->
  net (standalone_call apiKey req) = Resolves up ->
  ok up = true ->
  reply_json up = Return (envelope (VStr text)) ->
  text <> [] ->
  run (Rewriter.fetch tokenize request envA) net
  = (Return {| status := 200; content_type := Some TEXT_HTML;
               body := Rewriter.inject envA (tokenize (Sanitizer.sanitize_rewriter text)) |},
     [rewriter_call request envA])
  /\ run (PromptWorker.fetch request envB) net
     = (Return {| status := 200; content_type := Some TEXT_HTML;
                  body := Sanitizer.sanitize_prompt text |},
        [prompt_worker_call request envB])
  /\ run (Standalone.server coerced_positive apiKey req) net
     = (Return {| status := 200; content_type := Some TEXT_HTML;
                  body := Sanitizer.sanitize_prompt text |},
        [standalone_call apiKey req]).
Proof.
  intros HA HB P U NA NB NC Hok Hj Ht.
  assert (Y : truthy (VStr text) = true) by (destruct text; [congruence | reflexivity]).
  repeat split.
  - eapply MoreHandlerFacts.rewriter_generated; try eassumption.
    + apply MoreHandlerFacts.rewriter_test_envelope.
    + apply MoreHandlerFacts.envelope_text.
  - eapply MoreHandlerFacts.prompt_worker_generated; try eassumption.
    + apply MoreHandlerFacts.prompt_worker_test_envelope.
    + apply MoreHandlerFacts.envelope_text.
  - eapply MoreHandlerFacts.standalone_generated with (test := VBool true);
      try eassumption.
    + apply MoreHandlerFacts.standalone_test_envelope.
    + reflexivity.
    + apply MoreHandlerFacts.envelope_text.
Qed.

Lemma generated_page_response_witness :
  run (Rewriter.fetch sample_tokenize GET_ABOUT TEST_ENV) (replies GENERATED)
  = (Return {| status := 200; content_type := Some TEXT_HTML;
               body := Rewriter.inject TEST_ENV
                         (sample_tokenize (Sanitizer.sanitize_rewriter FENCED_SAMPLE)) |},
     [rewriter_call GET_ABOUT TEST_ENV])
  /\ run (PromptWorker.fetch GET_ABOUT (prompt_worker_env (Some (js "k")))) (replies GENERATED)
     = (Return {| status := 200; content_type := Some TEXT_HTML;
                  body := Sanitizer.sanitize_prompt FENCED_SAMPLE |},
        [prompt_worker_call GET_ABOUT (prompt_worker_env (Some (js "k")))])
  /\ run (Standalone.server never_positive (Some (js "k")) NODE_GET_ABOUT) (replies GENERATED)
     = (Return {| status := 200; content_type := Some TEXT_HTML;
                  body := Sanitizer.sanitize_prompt FENCED_SAMPLE |},
        [standalone_call (Some (js "k")) NODE_GET_ABOUT]).
Proof.
  apply (@generated_page_response sample_tokenize never_positive GET_ABOUT TEST_ENV
           (prompt_worker_env (Some (js "k"))) (Some (js "k")) NODE_GET_ABOUT
           (replies GENERATED) GENERATED FENCED_SAMPLE);
    first [ reflexivity | literals_differ ].
Defined.

(** X9: when the text of the envelope is the empty string, the two
    workers treat the envelope as unusable and answer 500, while the
    standalone server, which does not test the text, answers 200 with an
    empty body. *)
Theorem empty_text_response
    (tokenize : jsstring -> Rewriter.document)
    (coerced_positive : value -> outcome bool)
    (request : Js.request) (envA : Rewriter.Env) (envB : PromptWorker.Env)
    (apiKey : option jsstring) (req : Standalone.IncomingMessage)
    (net : network) (up : reply) :
  missing (Rewriter.GEMINI_API_KEY envA) = false ->
  missing (PromptWorker.GEMINI_API_KEY envB) = false ->
  pathname request <> FAVICON ->
  Standalone.url req <> FAVICON ->
  net (rewriter_call request envA) = Resolves up ->
  net (prompt_worker_call request envB) = Resolves up ->
  net (standalone_call apiKey req) = Resolves up ->
  ok up = true ->
  reply_json up = Return (envelope (VStr [])) ->
  run (Rewriter.fetch tokenize request envA) net
  = (Return {| status := 500; content_type := None; body := Rewriter.UNEXPECTED_FORMAT |},
     [rewriter_call request envA])
  /\ run (PromptWorker.fetch request envB) net
     = (Return {| status := 500; content_type := Some TEXT_HTML;
                  body := PromptWorker.errorMessage (new_Error PromptWorker.NO_VALID_CONTENT) |},
        [prompt_worker_call request envB])
  /\ run (Standalone.server coerced_positive apiKey req) net
     = (Return {| status := 200; content_type := Some TEXT_HTML; body := [] |},
        [standalone_call apiKey req]).
Proof.
  intros HA HB P U NA NB NC Hok Hj. repeat split.
  - eapply HandlerFacts.rewriter_unexpected_format; try eassumption.
    + apply MoreHandlerFacts.rewriter_test_envelope.
    + reflexivity.
  - eapply HandlerFacts.prompt_worker_no_valid_content; try eassumption.
    + apply MoreHandlerFacts.prompt_worker_test_envelope.
    + reflexivity.
  - change (@nil code_unit) with (Sanitizer.sanitize_prompt []) at 1.
    eapply MoreHandlerFacts.standalone_generated with (test := VBool true);
      try eassumption.
    + apply MoreHandlerFacts.standalone_test_envelope.
    + reflexivity.
    + apply MoreHandlerFacts.envelope_text.
Qed.

Lemma empty_text_response_witness :
  run (Rewriter.fetch no_head GET_ROOT (rewriter_env (Some (js "k")))) (replies EMPTY_TEXT)
  = (Return {| status := 500; content_type := None; body := Rewriter.UNEXPECTED_FORMAT |},
     [rewriter_call GET_ROOT (rewriter_env (Some (js "k")))])
  /\ run (PromptWorker.fetch GET_ROOT (prompt_worker_env (Some (js "k")))) (replies EMPTY_TEXT)
     = (Return {| status := 500; content_type := Some TEXT_HTML;
                  body := PromptWorker.errorMessage (new_Error PromptWorker.NO_VALID_CONTENT) |},
        [prompt_worker_call GET_ROOT (prompt_worker_env (Some (js "k")))])
  /\ run (Standalone.server never_positive (Some (js "k")) NODE_GET_ROOT) (replies EMPTY_TEXT)
     = (Return {| status := 200; content_type := Some TEXT_HTML; body := [] |},
        [standalone_call (Some (js "k")) NODE_GET_ROOT]).
Proof.
  apply (@empty_text_response no_head never_positive GET_ROOT
           (rewriter_env (Some (js "k"))) (prompt_worker_env (Some (js "k")))
           (Some (js "k")) NODE_GET_ROOT (replies EMPTY_TEXT) EMPTY_TEXT);
    first [ reflexivity | literals_differ ].
Defined.

(** X10: when the call to the endpoint fails (the promise of [fetch]
    rejects), the rewriter worker answers 500 with its fixed text, which
    does not show the error; the worker of [server.js] answers 500 and the
    standalone server 200, each with a page that contains the message of
    the error. *)
Theorem network_failure_response
    (tokenize : jsstring -> Rewriter.document)
    (coerced_positive : value -> outcome bool)
    (request : Js.request) (envA : Rewriter.Env) (envB : PromptWorker.Env)
    (apiKey : option jsstring) (req : Standalone.IncomingMessage)
    (net : network) (e : error) :
  missing (Rewriter.GEMINI_API_KEY envA) = false ->
  missing (PromptWorker.GEMINI_API_KEY envB) = false ->
  pathname request <> FAVICON ->
  Standalone.url req <> FAVICON ->
  net (rewriter_call request envA) = Rejects e ->
  net (prompt_worker_call request envB) = Rejects e ->
  net (standalone_call apiKey req) = Rejects e ->
  run (Rewriter.fetch tokenize request envA) net
  = (Return {| status := 500; content_type := Some TEXT_HTML;
               body := Rewriter.INTERNAL_ERROR |},
     [rewriter_call request envA])
  /\ answered 500 (message e) (run (PromptWorker.fetch request envB) net)
  /\ answered 200 (message e) (run (Standalone.server coerced_positive apiKey req) net).
Proof.
  intros HA HB P U NA NB NC. repeat split.
  - eapply MoreHandlerFacts.rewriter_rejected; eassumption.
  - do 2 eexists. split; [eapply MoreHandlerFacts.prompt_worker_rejected; eassumption|].
    split; [reflexivity|]. cbn [body]. unfold PromptWorker.errorMessage. find_included.
  - do 2 eexists. split; [eapply MoreHandlerFacts.standalone_rejected; eassumption|].
    split; [reflexivity|]. cbn [body]. unfold Standalone.error_page. find_included.
Qed.

Lemma network_failure_response_witness :
  run (Rewriter.fetch no_head GET_ROOT (rewriter_env (Some (js "k")))) (fun _ => Rejects UNREACHABLE)
  = (Return {| status := 500; content_type := Some TEXT_HTML;
               body := Rewriter.INTERNAL_ERROR |},
     [rewriter_call GET_ROOT (rewriter_env (Some (js "k")))])
  /\ answered 500 (message UNREACHABLE)
       (run (PromptWorker.fetch GET_ROOT (prompt_worker_env (Some (js "k"))))
          (fun _ => Rejects UNREACHABLE))
  /\ answered 200 (message UNREACHABLE)
       (run (Standalone.server never_positive (Some (js "k")) NODE_GET_ROOT)
          (fun _ => Rejects UNREACHABLE)).
Proof.
  apply (@network_failure_response no_head never_positive GET_ROOT
           (rewriter_env (Some (js "k"))) (prompt_worker_env (Some (js "k")))
           (Some (js "k")) NODE_GET_ROOT (fun _ => Rejects UNREACHABLE) UNREACHABLE);
    first [ reflexivity | literals_differ ].
Defined.

(** X11: when the endpoint replies 2xx with a body that is not JSON,
    [response.json()] throws and the handlers answer as for any other
    exception: 500 with the fixed text in the rewriter worker, 500 with the
    message in the worker of [server.js], 200 with the message in the
    standalone server. *)
Theorem invalid_json_response
    (tokenize : jsstring -> Rewriter.document)
    (coerced_positive : value -> outcome bool)
    (request : Js.request) (envA : Rewriter.Env) (envB : PromptWorker.Env)
    (apiKey : option jsstring) (req : Standalone.IncomingMessage)
    (net : network) (up : reply) (e : error) :
  missing (Rewriter.GEMINI_API_KEY envA) = false ->
  missing (PromptWorker.GEMINI_API_KEY envB) = false ->
  pathname request <> FAVICON ->
  Standalone.url req <> FAVICON ->
  net (rewriter_call request envA) = Resolves up ->
  net (prompt_worker_call request envB) = Resolves up ->
  net (standalone_call apiKey req) = Resolves up ->
  ok up = true ->
  reply_json up = Throw e ->
  run (Rewriter.fetch tokenize request envA) net
  = (Return {| status := 500; content_type := Some TEXT_HTML;
               body := Rewriter.INTERNAL_ERROR |},
     [rewriter_call request envA])
  /\ answered 500 (message e) (run (PromptWorker.fetch request envB) net)
  /\ answered 200 (message e) (run (Standalone.server coerced_positive apiKey req) net).
Proof.
  intros HA HB P U NA NB NC Hok Hj. repeat split.
  - eapply MoreHandlerFacts.rewriter_invalid_json; eassumption.
  - do 2 eexists. split; [eapply MoreHandlerFacts.prompt_worker_invalid_json; eassumption|].
    split; [reflexivity|]. cbn [body]. unfold PromptWorker.errorMessage. find_included.
  - do 2 eexists. split; [eapply MoreHandlerFacts.standalone_invalid_json; eassumption|].
    split; [reflexivity|]. cbn [body]. unfold Standalone.error_page. find_included.
Qed.

Lemma invalid_json_response_witness :
  run (Rewriter.fetch no_head GET_ROOT (rewriter_env (Some (js "k")))) (replies NOT_JSON)
  = (Return {| status := 500; content_type := Some TEXT_HTML;
               body := Rewriter.INTERNAL_ERROR |},
     [rewriter_call GET_ROOT (rewriter_env (Some (js "k")))])
  /\ answered 500 (message BAD_JSON)
       (run (PromptWorker.fetch GET_ROOT (prompt_worker_env (Some (js "k"))))
          (replies NOT_JSON))
  /\ answered 200 (message BAD_JSON)
       (run (Standalone.server never_positive (Some (js "k")) NODE_GET_ROOT)
          (replies NOT_JSON)).
Proof.
  apply (@invalid_json_response no_head never_positive GET_ROOT
           (rewriter_env (Some (js "k"))) (prompt_worker_env (Some (js "k")))
           (Some (js "k")) NODE_GET_ROOT (replies NOT_JSON) NOT_JSON BAD_JSON);
    first [ reflexivity | literals_differ ].
Defined.

(* ===================================================================== *)
(** ** Further properties: prompts and injection *)
(* ===================================================================== *)

Module MoreInjectorFacts.
Import Rewriter.

Lemma or_default_present (a : option jsstring) (d : jsstring) :
  missing a = false -> or_default a d = interpolate a.
Proof. destruct a as [[|c r]|]; [discriminate | reflexivity | discriminate]. Qed.

(** What the handler leaves on an element that had nothing appended. *)
Lemma end_tag_element (env : Env) (el : Element) :
  end_tag (element env el) = end_tag el.
Proof.
  unfold element.
  destruct (missing (GA_MEASUREMENT_ID env)), (missing (ADSENSE_CLIENT_ID env));
    reflexivity.
Qed.

Lemma emit_element (env : Env) (st inn : jsstring) (c : N) (en : jsstring) :
  emit (element env (matched st inn (c :: en)))
  = st ++ (inn ++ snippets env) ++ c :: en.
Proof.
  unfold emit. rewrite end_tag_element. unfold element, snippets, matched.
  destruct (missing (GA_MEASUREMENT_ID env)), (missing (ADSENSE_CLIENT_ID env));
    unfold append;
    cbn [start_tag inner end_tag appended List.concat app];
    rewrite ?app_nil_r, <- ?app_assoc; reflexivity.
Qed.

Lemma emit_unterminated (env : Env) (st inn : jsstring) :
  emit (element env (matched st inn [])) = st ++ inn ++ [].
Proof.
  unfold emit. rewrite end_tag_element. unfold element, matched.
  destruct (missing (GA_MEASUREMENT_ID env)), (missing (ADSENSE_CLIENT_ID env));
    unfold append; cbn [start_tag inner end_tag]; rewrite app_nil_r; reflexivity.
Qed.

Lemma rewrite_token_element (env : Env) (tok : token) :
  rewrite_token (element env) tok = serialize_token (head_with (snippets env) tok).
Proof.
  destruct tok as [text|st inn [|c en]]; [reflexivity| |].
  - cbn [rewrite_token head_with serialize_token]. apply emit_unterminated.
  - cbn [rewrite_token head_with serialize_token]. apply emit_element.
Qed.

End MoreInjectorFacts.

(** X12: the prompt of every handler spells out the method, the path (the
    request target in the standalone server) and the user agent it was
    built from. *)
Theorem prompt_mentions_request
    (method path userAgent : jsstring) (env : PromptWorker.Env) :
  (includes method (Rewriter.build_prompt method path userAgent) = true
   /\ includes path (Rewriter.build_prompt method path userAgent) = true
   /\ includes userAgent (Rewriter.build_prompt method path userAgent) = true)
  /\ (includes method (PromptWorker.build_prompt method path userAgent env) = true
      /\ includes path (PromptWorker.build_prompt method path userAgent env) = true
      /\ includes userAgent (PromptWorker.build_prompt method path userAgent env) = true)
  /\ (includes method (Standalone.build_prompt method path userAgent) = true
      /\ includes path (Standalone.build_prompt method path userAgent) = true
      /\ includes userAgent (Standalone.build_prompt method path userAgent) = true).
Proof.
  unfold Rewriter.build_prompt, PromptWorker.build_prompt, Standalone.build_prompt.
  cbv zeta. repeat split; find_included.
Qed.

(** X13: when its two identifiers are configured, the worker of
    [server.js] writes the ad snippet and the analytics snippet into the
    prompt with these identifiers. *)
Theorem prompt_carries_configured_ids
    (method path userAgent : jsstring) (env : PromptWorker.Env) :
  missing (PromptWorker.GOOGLE_ADSENSE_ID env) = false ->
  missing (PromptWorker.GOOGLE_ANALYTICS_ID env) = false ->
  includes (PromptWorker.adSenseCode (interpolate (PromptWorker.GOOGLE_ADSENSE_ID env)))
    (PromptWorker.build_prompt method path userAgent env) = true
  /\ includes
       (PromptWorker.analyticsCode (interpolate (PromptWorker.GOOGLE_ANALYTICS_ID env)))
       (PromptWorker.build_prompt method path userAgent env) = true.
Proof.
  intros HA HB. unfold PromptWorker.build_prompt.
  rewrite (MoreInjectorFacts.or_default_present _ _ HA).
  rewrite (MoreInjectorFacts.or_default_present _ _ HB).
  cbv zeta. split; find_included.
Qed.

Lemma prompt_carries_configured_ids_witness :
  includes (PromptWorker.adSenseCode (js "ca-pub-TEST"))
    (PromptWorker.build_prompt (js "GET") (js "/") (js "Unknown") TEST_PROMPT_ENV) = true
  /\ includes (PromptWorker.analyticsCode (js "G-TEST"))
       (PromptWorker.build_prompt (js "GET") (js "/") (js "Unknown") TEST_PROMPT_ENV) = true.
Proof.
  apply (@prompt_carries_configured_ids (js "GET") (js "/") (js "Unknown") TEST_PROMPT_ENV);
    reflexivity.
Defined.

(** X14: on generated HTML in which the rewriter matches no [head]
    element, the injector returns the text as it is, whatever is
    configured: no element is created for the snippets. *)
Theorem injection_without_head (env : Rewriter.Env) (doc : Rewriter.document) :
  existsb is_head doc = false ->
  Rewriter.inject env doc = Rewriter.serialize doc.
Proof. intros H. now apply InjectorFacts.transform_no_head. Qed.

Lemma injection_without_head_witness :
  Rewriter.inject TEST_ENV [Rewriter.Raw SAMPLE_BODY] = SAMPLE_BODY.
Proof.
  etransitivity;
    [apply (@injection_without_head TEST_ENV [Rewriter.Raw SAMPLE_BODY]) | ]; reflexivity.
Defined.

(** X15: on every document the injector changes only the matched [head]
    elements that have an end tag, and each of them in the same way:
    between its content and its end tag comes the analytics snippet if
    that identifier is configured, then the ad snippet if that one is,
    each decided on its own.  A [head] element without an end tag is
    passed through like all other text. *)
Theorem injection_per_head (env : Rewriter.Env) (doc : Rewriter.document) :
  Rewriter.inject env doc = Rewriter.serialize (map (head_with (snippets env)) doc).
Proof.
  unfold Rewriter.inject, Rewriter.transform, Rewriter.serialize.
  rewrite map_map. f_equal. apply map_ext. intros tok.
  apply MoreInjectorFacts.rewrite_token_element.
Qed.

(* ===================================================================== *)
(** ** Further properties: the key of the standalone server *)
(* ===================================================================== *)

Module MoreArgumentFacts.
Import Standalone.

Lemma find_absent (test : jsstring -> bool) (args : list jsstring) :
  forallb (fun a => negb (test a)) args = true -> find test args = None.
Proof.
  induction args as [|a args IH]; cbn [forallb find]; [reflexivity|].
  intros H. apply andb_true_iff in H as [H1 H2]. apply negb_true_iff in H1.
  rewrite H1. now apply IH.
Qed.

Lemma findIndex_absent (test : jsstring -> bool) (args : list jsstring) :
  forallb (fun a => negb (test a)) args = true -> findIndex test args = None.
Proof.
  induction args as [|a args IH]; cbn [forallb findIndex]; [reflexivity|].
  intros H. apply andb_true_iff in H as [H1 H2]. apply negb_true_iff in H1.
  rewrite H1. now rewrite IH.
Qed.

Lemma findIndex_first (test : jsstring -> bool) (skipped : list jsstring)
      (arg : jsstring) (rest : list jsstring) :
  forallb (fun a => negb (test a)) skipped = true ->
  test arg = true ->
  findIndex test (skipped ++ arg :: rest) = Some (List.length skipped).
Proof.
  intros Hs Ha. induction skipped as [|a skipped IH]; cbn [app findIndex List.length].
  - now rewrite Ha.
  - cbn [forallb] in Hs. apply andb_true_iff in Hs as [H1 H2].
    apply negb_true_iff in H1. rewrite H1. now rewrite IH.
Qed.

Lemma nth_error_after (skipped : list jsstring) (arg : jsstring) (rest : list jsstring) :
  nth_error (skipped ++ arg :: rest) (List.length skipped + 1) = nth_error rest 0.
Proof.
  induction skipped as [|a skipped IH]; cbn [app List.length Nat.add nth_error];
    [reflexivity | exact IH].
Qed.

(** An argument that starts with one of the two flags has a second piece
    when split at the equals signs. *)
Lemma assignment_has_value (arg : jsstring) :
  is_key_assignment arg = true -> exists k, nth_error (split EQUALS arg) 1 = Some k.
Proof.
  unfold is_key_assignment. intros H. apply orb_true_iff in H.
  assert (S : exists flag K, (flag = js "--apiKey=" \/ flag = js "--key=") /\ arg = flag ++ K).
  { destruct H as [H|H]; apply StringFacts.startsWith_true in H as [K HK];
      apply StringFacts.after_prefix_spec in HK; eauto. }
  destruct S as (flag & K & Hflag & ->).
  destruct (ArgumentFacts.flag_shape Hflag) as (c & name & Eflag & Hname & _).
  rewrite Eflag, <- app_assoc. cbn [app].
  change (c :: name ++ EQUALS :: K) with ((c :: name) ++ EQUALS :: K).
  rewrite (@ArgumentFacts.split_after EQUALS (c :: name) K Hname). cbn [nth_error].
  destruct (ArgumentFacts.split_head EQUALS K) as [tl ->]. eauto.
Qed.

(** Without an argument of the form [--apiKey=...] the second form and
    the environment decide. *)
Lemma getApiKey_no_assignment (argv : list jsstring) (env_key : option jsstring) :
  forallb not_assignment (skipn 2 argv) = true ->
  getApiKey argv env_key
  = match findIndex is_key_flag (skipn 2 argv) with
    | Some keyArgIndex =>
        match nth_error (skipn 2 argv) (keyArgIndex + 1) with
        | Some (c :: r) => Some (c :: r)
        | _ => Some (or_default env_key [])
        end
    | None => Some (or_default env_key [])
    end.
Proof.
  intros H. unfold getApiKey. cbv zeta.
  now rewrite (@find_absent is_key_assignment (skipn 2 argv) H).
Qed.

End MoreArgumentFacts.

(** X16: [getApiKey] always returns a string, never [undefined]: an
    argument that starts with [--apiKey=] or [--key=] always has a piece
    after its first equals sign, and every other path ends in a string. *)
Theorem getApiKey_returns_string (argv : list jsstring) (env_key : option jsstring) :
  exists key, Standalone.getApiKey argv env_key = Some key.
Proof.
  unfold Standalone.getApiKey. cbv zeta.
  destruct (find Standalone.is_key_assignment (skipn 2 argv)) as [[|c r]|] eqn:F.
  - destruct (Standalone.findIndex Standalone.is_key_flag (skipn 2 argv)) as [i|];
      [destruct (nth_error (skipn 2 argv) (i + 1)) as [[|c r]|]|]; eauto.
  - apply find_some in F as [_ F]. apply MoreArgumentFacts.assignment_has_value, F.
  - destruct (Standalone.findIndex Standalone.is_key_flag (skipn 2 argv)) as [i|];
      [destruct (nth_error (skipn 2 argv) (i + 1)) as [[|c r]|]|]; eauto.
Qed.

(** X17: when no argument has the form [--apiKey=...] or [--key=...], and
    the first argument equal to [--apiKey] or [--key] is followed by a
    non-empty argument, [getApiKey] returns that argument, whatever the
    environment variable holds. *)
Theorem getApiKey_spaced_flag
    (node script : jsstring) (skipped rest : list jsstring)
    (flag value : jsstring) (env_key : option jsstring) :
  Standalone.is_key_flag flag = true ->
  value <> [] ->
  forallb not_flag skipped = true ->
  forallb not_assignment (skipped ++ flag :: value :: rest) = true ->
  Standalone.getApiKey (node :: script :: skipped ++ flag :: value :: rest) env_key
  = Some value.
Proof.
  intros Hflag Hvalue Hskip Hno.
  rewrite MoreArgumentFacts.getApiKey_no_assignment by exact Hno.
  cbn [skipn].
  rewrite (@MoreArgumentFacts.findIndex_first Standalone.is_key_flag skipped flag
             (value :: rest) Hskip Hflag).
  rewrite MoreArgumentFacts.nth_error_after. cbn [nth_error].
  destruct value; [congruence | reflexivity].
Qed.

Lemma getApiKey_spaced_flag_witness :
  Standalone.getApiKey
    [js "node"; js "server.js"; js "--verbose"; js "--key"; js "abc"; js "--apiKey"; js "x"]
    (Some (js "from-env"))
  = Some (js "abc").
Proof.
  apply (@getApiKey_spaced_flag (js "node") (js "server.js") [js "--verbose"]
           [js "--apiKey"; js "x"] (js "--key") (js "abc") (Some (js "from-env")));
    first [ reflexivity | literals_differ ].
Defined.

(** X18: when no argument carries a key (none starts with [--apiKey=] or
    [--key=], none is [--apiKey] or [--key]), [getApiKey] returns the
    environment variable, and the empty string when that is unset or
    empty. *)
Theorem getApiKey_environment
    (node script : jsstring) (args : list jsstring) (env_key : option jsstring) :
  forallb not_assignment args = true ->
  forallb not_flag args = true ->
  Standalone.getApiKey (node :: script :: args) env_key = Some (or_default env_key []).
Proof.
  intros Hno Hflags.
  rewrite MoreArgumentFacts.getApiKey_no_assignment by exact Hno.
  cbn [skipn].
  now rewrite (@MoreArgumentFacts.findIndex_absent Standalone.is_key_flag args Hflags).
Qed.

Lemma getApiKey_environment_witness :
  Standalone.getApiKey [js "node"; js "server.js"; js "--port"; js "3000"] (Some (js "from-env"))
  = Some (js "from-env")
  /\ Standalone.getApiKey [js "node"; js "server.js"; js "--port"; js "3000"] None = Some [].
Proof.
  split.
  - apply (@getApiKey_environment (js "node") (js "server.js") [js "--port"; js "3000"]
             (Some (js "from-env"))); reflexivity.
  - apply (@getApiKey_environment (js "node") (js "server.js") [js "--port"; js "3000"]
             None); reflexivity.
Defined.

(** X19: a flag [--apiKey] or [--key] with nothing after it, or with an
    empty argument after it, gives no key: [getApiKey] falls back to the
    environment variable. *)
Theorem getApiKey_flag_without_value
    (node script : jsstring) (skipped rest : list jsstring)
    (flag : jsstring) (env_key : option jsstring) :
  Standalone.is_key_flag flag = true ->
  forallb not_flag skipped = true ->
  forallb not_assignment (skipped ++ [flag]) = true ->
  forallb not_assignment rest = true ->
  Standalone.getApiKey (node :: script :: skipped ++ [flag]) env_key
  = Some (or_default env_key [])
  /\ Standalone.getApiKey (node :: script :: skipped ++ flag :: [] :: rest) env_key
     = Some (or_default env_key []).
Proof.
  intros Hflag Hskip Hno Hrest. split.
  - rewrite MoreArgumentFacts.getApiKey_no_assignment by exact Hno.
    cbn [skipn].
    rewrite (@MoreArgumentFacts.findIndex_first Standalone.is_key_flag skipped flag
               [] Hskip Hflag).
    now rewrite MoreArgumentFacts.nth_error_after.
  - assert (Hall : forallb not_assignment (skipped ++ flag :: [] :: rest) = true).
    { rewrite forallb_app in Hno |- *. apply andb_true_iff in Hno as [H1 H2].
      rewrite H1. cbn [forallb andb] in H2 |- *.
      apply andb_true_iff in H2 as [H2 _]. now rewrite H2, Hrest. }
    rewrite MoreArgumentFacts.getApiKey_no_assignment by exact Hall.
    cbn [skipn].
    rewrite (@MoreArgumentFacts.findIndex_first Standalone.is_key_flag skipped flag
               ([] :: rest) Hskip Hflag).
    now rewrite MoreArgumentFacts.nth_error_after.
Qed.

Lemma getApiKey_flag_without_value_witness :
  Standalone.getApiKey [js "node"; js "server.js"; js "--apiKey"] (Some (js "from-env"))
  = Some (js "from-env")
  /\ Standalone.getApiKey [js "node"; js "server.js"; js "--apiKey"; []; js "x"]
       (Some (js "from-env"))
     = Some (js "from-env").
Proof.
  apply (@getApiKey_flag_without_value (js "node") (js "server.js") [] [js "x"]
           (js "--apiKey") (Some (js "from-env"))); reflexivity.
Defined.

(* ===================================================================== *)
(** ** Further properties: fenced blocks and upstream error bodies *)
(* ===================================================================== *)

Module FencedBlockFacts.
Import StringFacts.

Lemma trimEnd_space (w : jsstring) (c : code_unit) :
  is_space c = true -> trimEnd (w ++ [c]) = trimEnd w.
Proof.
  intros Hc. unfold trimEnd. rewrite rev_app_distr. cbn [rev app drop_spaces].
  now rewrite Hc.
Qed.

Lemma trim_space_after (b : jsstring) (c : code_unit) :
  is_space c = true -> trim (b ++ [c]) = trim b.
Proof.
  intros Hc. unfold trim, trimStart.
  induction b as [|x b IH]; cbn [app drop_spaces].
  - now rewrite Hc.
  - destruct (is_space x); [exact IH|].
    change (x :: b ++ [c]) with ((x :: b) ++ [c]). now apply trimEnd_space.
Qed.

Lemma trim_drop_spaces (s : jsstring) : trim (drop_spaces s) = trim s.
Proof.
  unfold trim, trimStart.
  now rewrite (@drop_spaces_fixed (drop_spaces s) (drop_spaces_head s)).
Qed.

End FencedBlockFacts.

(** X20: whatever stands between the fences, a block that begins with the
    [```html] line and ends with the [```] line is unwrapped: the
    sanitizer of the rewriter worker returns the body as it is, the one of
    [server.js] returns the body trimmed. *)
Theorem sanitize_fenced_block (body : jsstring) :
  Sanitizer.sanitize_rewriter (Sanitizer.FENCE_HTML ++ LF ++ body ++ LF ++ Sanitizer.FENCE)
  = body
  /\ Sanitizer.sanitize_prompt (Sanitizer.FENCE_HTML ++ LF ++ body ++ LF ++ Sanitizer.FENCE)
     = trim body.
Proof.
  assert (tick : is_space 96 = false) by reflexivity.
  split.
  - rewrite SanitizerFacts.sanitize_rewriter_closed. unfold unfenced_lines, without_prefix.
    rewrite (app_assoc Sanitizer.FENCE_HTML LF), StringFacts.after_prefix_app.
    unfold without_suffix.
    now rewrite (proj2 (StringFacts.before_suffix_spec (LF ++ Sanitizer.FENCE)
                          (body ++ LF ++ Sanitizer.FENCE) body) eq_refl).
  - rewrite SanitizerFacts.sanitize_prompt_closed. unfold unfenced.
    rewrite StringFacts.after_prefix_app.
    change (drop_spaces (LF ++ body ++ LF ++ Sanitizer.FENCE))
      with (drop_spaces (body ++ LF ++ Sanitizer.FENCE)).
    rewrite (app_assoc body).
    change (drop_spaces ((body ++ LF) ++ Sanitizer.FENCE))
      with (drop_spaces ((body ++ LF) ++ 96 :: js "``")).
    rewrite (@MoreStringFacts.drop_spaces_app (body ++ LF) 96 _ tick).
    change (96 :: js "``") with Sanitizer.FENCE.
    unfold without_suffix.
    rewrite (proj2 (StringFacts.before_suffix_spec Sanitizer.FENCE
                      (drop_spaces (body ++ LF) ++ Sanitizer.FENCE)
                      (drop_spaces (body ++ LF))) eq_refl).
    rewrite FencedBlockFacts.trim_drop_spaces.
    now apply FencedBlockFacts.trim_space_after.
Qed.

(** X21: the text that the endpoint sends with a non-success status is
    not shown by the rewriter worker, whose answer is its fixed sentence
    followed by the status, but it is part of the page that the worker of
    [server.js] and the standalone server send back. *)
Theorem upstream_error_body_shown
    (tokenize : jsstring -> Rewriter.document)
    (coerced_positive : value -> outcome bool)
    (request : Js.request) (envA : Rewriter.Env) (envB : PromptWorker.Env)
    (apiKey : option jsstring) (req : Standalone.IncomingMessage)
    (net : network) (up : reply) :
  missing (Rewriter.GEMINI_API_KEY envA) = false ->
  missing (PromptWorker.GEMINI_API_KEY envB) = false ->
  pathname request <> FAVICON ->
  Standalone.url req <> FAVICON ->
  net (rewriter_call request envA) = Resolves up ->
  net (prompt_worker_call request envB) = Resolves up ->
  net (standalone_call apiKey req) = Resolves up ->
  ok up = false ->
  run (Rewriter.fetch tokenize request envA) net
  = (Return {| status := 502; content_type := None;
               body := Rewriter.UPSTREAM_FAILED ++ of_number (reply_status up) |},
     [rewriter_call request envA])
  /\ answered 500 (reply_text up) (run (PromptWorker.fetch request envB) net)
  /\ answered 200 (reply_text up)
       (run (Standalone.server coerced_positive apiKey req) net).
Proof.
  intros HA HB P U NA NB NC Hok. repeat split.
  - apply HandlerFacts.rewriter_upstream_failure; assumption.
  - do 2 eexists. split; [apply HandlerFacts.prompt_worker_upstream_failure; eassumption|].
    split; [reflexivity|]. cbn [body]. unfold PromptWorker.errorMessage, new_Error.
    cbn [message]. find_included.
  - do 2 eexists. split; [apply HandlerFacts.standalone_upstream_failure; eassumption|].
    split; [reflexivity|]. cbn [body]. unfold Standalone.error_page, new_Error.
    cbn [message]. find_included.
Qed.

Lemma upstream_error_body_shown_witness :
  run (Rewriter.fetch no_head GET_ROOT (rewriter_env (Some (js "k")))) (replies UNAVAILABLE)
  = (Return {| status := 502; content_type := None;
               body := Rewriter.UPSTREAM_FAILED ++ of_number 503 |},
     [rewriter_call GET_ROOT (rewriter_env (Some (js "k")))])
  /\ answered 500 (js "overloaded")
       (run (PromptWorker.fetch GET_ROOT (prompt_worker_env (Some (js "k"))))
          (replies UNAVAILABLE))
  /\ answered 200 (js "overloaded")
       (run (Standalone.server never_positive (Some (js "k")) NODE_GET_ROOT)
          (replies UNAVAILABLE)).
Proof.
  apply (@upstream_error_body_shown no_head never_positive GET_ROOT
           (rewriter_env (Some (js "k"))) (prompt_worker_env (Some (js "k")))
           (Some (js "k")) NODE_GET_ROOT (replies UNAVAILABLE) UNAVAILABLE);
    first [ reflexivity | literals_differ ].
Defined.
